(** * Kashmir Wellness backend: the query and access-control layer

    A shallow embedding of the service layer of the Express/Mongoose backend
    (order, medicine and appointment services, the password-reset controllers
    and the [APIFeatures] query composer), followed by the properties that the
    specification states about them.

    Conventions of the embedding:
    - a Mongoose collection is a finite map from the document id (the string
      form of the ObjectId) to a record holding the document's fields;
    - an [async] service method is a state transformer over the database that
      either returns a value or throws ([Eff DB A]);
    - JavaScript numbers that the services compare or subtract (stock,
      quantity, prices, timestamps in milliseconds) are integers ([Z]);
    - what the process obtains from its environment (the clock, a fresh
      ObjectId, random bytes, the outcome of the mail transport) is an explicit
      argument of the operation that reads it. *)

From Stdlib Require Import ZArith String Ascii List Bool Lia QArith_base.
From stdpp Require Import gmap strings list pretty.

#[local] Set Warnings "-register-all".
Open Scope string_scope.
Open Scope Z_scope.

(** ** Errors and the effect monad *)

(** What a service method can throw: the repository's [ErrorResponse]
    (utils/errorHandler.js: a message and an HTTP status code), a JavaScript
    [TypeError], a Mongoose [ValidationError], a MongoDB server error, and a
    plain JavaScript [Error] thrown by a library.  The message of a
    [ValidationError] is kept to its first part; Mongoose appends the paths
    that failed and their messages. *)
Inductive error :=
| ErrorResponse (message : string) (statusCode : Z)
| TypeError (message : string)
| ValidationError (message : string)
| MongoServerError (message : string)
| JsError (message : string).

Inductive result (A : Type) :=
| Ok (a : A)
| Err (e : error).
Arguments Ok {A} a.
Arguments Err {A} e.

Definition is_ok {A} (r : result A) : bool :=
  match r with Ok _ => true | Err _ => false end.

(** State-and-exception monad: a computation reads and writes a store of
    type [S]; a thrown error aborts the rest of the computation and keeps the
    writes made so far (there are no transactions in the services). *)
Definition Eff (S A : Type) : Type := S -> result A * S.

#[global] Instance eff_ret {S} : MRet (Eff S) := fun A a s => (Ok a, s).
#[global] Instance eff_bind {S} : MBind (Eff S) := fun A B f m s =>
  match m s with
  | (Ok a, s') => f a s'
  | (Err e, s') => (Err e, s')
  end.

Definition throw {S A} (e : error) : Eff S A := fun s => (Err e, s).
Definition gets {S A} (f : S -> A) : Eff S A := fun s => (Ok (f s), s).
Definition modify {S} (f : S -> S) : Eff S unit := fun s => (Ok tt, f s).

(** [for (const x of xs) { await body(x) }] *)
Fixpoint forEach {S A} (xs : list A) (body : A -> Eff S unit) : Eff S unit :=
  match xs with
  | [] => mret tt
  | x :: xs' => _ ← body x; forEach xs' body
  end.

(** ** JavaScript values *)

(** JSON values as they arrive in a request body or a parsed query string.
    Objects keep their keys in insertion order. *)
Inductive jval :=
| JNull
| JBool (b : bool)
| JNum (n : Z)
| JStr (s : string)
| JArr (xs : list jval)
| JObj (kvs : list (string * jval)).

(** [obj[k]] and [obj[k] = v] on an object kept as an association list: an
    existing key keeps its position and takes the new value, a new key is
    appended; [delete obj[k]] removes the key. *)
Fixpoint obj_get (kvs : list (string * jval)) (k : string) : option jval :=
  match kvs with
  | [] => None
  | (k', v') :: r => if String.eqb k' k then Some v' else obj_get r k
  end.

Fixpoint obj_set (kvs : list (string * jval)) (k : string) (v : jval)
  : list (string * jval) :=
  match kvs with
  | [] => [(k, v)]
  | (k', v') :: r =>
      if String.eqb k' k then (k', v) :: r else (k', v') :: obj_set r k v
  end.

Fixpoint obj_delete (kvs : list (string * jval)) (k : string)
  : list (string * jval) :=
  match kvs with
  | [] => []
  | (k', v') :: r =>
      if String.eqb k' k then obj_delete r k else (k', v') :: obj_delete r k
  end.

(** Truthiness of a JSON value. *)
Definition js_truthy (v : jval) : bool :=
  match v with
  | JNull => false
  | JBool b => b
  | JNum n => negb (n =? 0)
  | JStr s => negb (String.eqb s "")
  | JArr _ | JObj _ => true
  end.

(** Truthiness of an optional string property: [undefined], [null] and the
    empty string are falsy. *)
Definition truthy (s : option string) : bool :=
  match s with
  | Some s => negb (String.eqb s "")
  | None => false
  end.

(** [a || b] on optional strings. *)
Definition or_else (a : option string) (b : string) : string :=
  match a with
  | Some s => if String.eqb s "" then b else s
  | None => b
  end.

(** The authenticated principal, [req.user]. *)
Record AuthUser := mkAuthUser {
  au_id : string;
  au_role : string
}.

(** ** The data model (models/*.js) *)

(** models/User.js, the paths that carry a validator or that the
    controllers read ([imageUrl] and [createdAt] have neither). *)
Record User := mkUser {
  u_name : string;
  u_email : string;
  u_password : string;
  u_role : string;
  u_phone : option string;
  u_address : option string;
  u_resetPasswordToken : option string;
  u_resetPasswordExpire : option Z
}.

(** models/Medicine.js; [user] is declared [required: false]. *)
Record Medicine := mkMedicine {
  m_name : string;
  m_description : string;
  m_price : Z;
  m_stock : Z;
  m_category : string;
  m_imageUrl : list string;
  m_manufacturer : option string;
  m_expirationDate : option Z;
  m_createdAt : Z;
  m_user : option string
}.

(** GeoJSON point of models/Doctor.js and models/Lab.js. *)
Record GeoPoint := mkGeoPoint {
  gp_coordinates : option (list Q)
}.

(** models/Doctor.js, the fields the services read. *)
Record Doctor := mkDoctor {
  d_user : string;
  d_name : string;
  d_clinicAddress : option string;
  d_location : option GeoPoint
}.

(** models/Lab.js, the fields the services read. *)
Record Lab := mkLab {
  l_name : string;
  l_address : option string;
  l_location : option GeoPoint;
  l_user : option string
}.

(** The [location] sub-document of models/Appointment.js. *)
Record ApptLocation := mkApptLocation {
  al_type : string;
  al_coordinates : list Q;
  al_address : string
}.

(** models/Appointment.js *)
Record Appointment := mkAppointment {
  a_user : string;
  a_doctor : option string;
  a_appointmentDate : Z;
  a_appointmentTime : string;
  a_type : string;
  a_status : string;
  a_reason : option string;
  a_lab : option string;
  a_createdAt : Z;
  a_location : ApptLocation
}.

(** A line item of an order, as [createOrder] reads it. *)
Record OrderItem := mkOrderItem {
  oi_medicine : string;
  oi_name : string;
  oi_price : Z;
  oi_quantity : Z
}.

(** Modelled from the spec: models/Order.js is not part of the source tree.
    The fields are those the order service reads and writes ([isPaid],
    [paidAt], [paymentResult], [isDelivered], [deliveredAt], [orderStatus])
    and those of section 3 of the specification; a new order has
    status=pending, paid=false, delivered=false. *)
Record Order := mkOrder {
  o_user : string;
  o_orderItems : list OrderItem;
  o_shippingAddress : jval;
  o_paymentMethod : jval;
  o_taxPrice : Z;
  o_shippingPrice : Z;
  o_totalPrice : Z;
  o_isPaid : bool;
  o_paidAt : option Z;
  o_paymentResult : option jval;
  o_isDelivered : bool;
  o_deliveredAt : option Z;
  o_orderStatus : string
}.

(** The database: one finite map per collection. *)
Record DB := mkDB {
  users : gmap string User;
  medicines : gmap string Medicine;
  doctors : gmap string Doctor;
  labs : gmap string Lab;
  appointments : gmap string Appointment;
  orders : gmap string Order
}.

Definition set_users (f : gmap string User -> gmap string User) (db : DB) : DB :=
  mkDB (f (users db)) (medicines db) (doctors db) (labs db) (appointments db) (orders db).
Definition set_medicines (f : gmap string Medicine -> gmap string Medicine) (db : DB) : DB :=
  mkDB (users db) (f (medicines db)) (doctors db) (labs db) (appointments db) (orders db).
Definition set_appointments (f : gmap string Appointment -> gmap string Appointment) (db : DB) : DB :=
  mkDB (users db) (medicines db) (doctors db) (labs db) (f (appointments db)) (orders db).
Definition set_orders (f : gmap string Order -> gmap string Order) (db : DB) : DB :=
  mkDB (users db) (medicines db) (doctors db) (labs db) (appointments db) (f (orders db)).

(** ** JSON text: [JSON.stringify] and [JSON.parse] *)

Module JSON.

Definition dquote : ascii := ascii_of_N 34.
Definition backslash : ascii := ascii_of_N 92.

Definition hex_digit (n : N) : ascii :=
  ascii_of_N (if (n <? 10)%N then 48 + n else 87 + n)%N.

(** The escapes of [JSON.stringify] inside a string literal. *)
Definition escape_char (c : ascii) : string :=
  let n := N_of_ascii c in
  if (n =? 34)%N then String backslash (String dquote "")
  else if (n =? 92)%N then String backslash (String backslash "")
  else if (n =? 8)%N then String backslash "b"
  else if (n =? 12)%N then String backslash "f"
  else if (n =? 10)%N then String backslash "n"
  else if (n =? 13)%N then String backslash "r"
  else if (n =? 9)%N then String backslash "t"
  else if (n <? 32)%N then
    String backslash
      ("u00" +:+ String (hex_digit (n / 16)) (String (hex_digit (n mod 16)) ""))
  else String c "".

Fixpoint escape (s : string) : string :=
  match s with
  | EmptyString => ""
  | String c r => escape_char c +:+ escape r
  end.

Definition quote (s : string) : string :=
  String dquote (escape s +:+ String dquote "").

Fixpoint join (sep : string) (xs : list string) : string :=
  match xs with
  | [] => ""
  | [x] => x
  | x :: r => x +:+ sep +:+ join sep r
  end.

Fixpoint stringify (v : jval) : string :=
  match v with
  | JNull => "null"
  | JBool true => "true"
  | JBool false => "false"
  | JNum n => pretty n
  | JStr s => quote s
  | JArr xs => "[" +:+ join "," (map stringify xs) +:+ "]"
  | JObj kvs =>
      "{" +:+ join "," (map (fun kv => quote (fst kv) +:+ ":" +:+ stringify (snd kv)) kvs)
      +:+ "}"
  end.

(** A string that [escape] leaves as it is: no quote, no backslash, no
    control character. *)
Fixpoint unescaped (s : string) : bool :=
  match s with
  | EmptyString => true
  | String c r =>
      let n := N_of_ascii c in
      negb (n =? 34)%N && negb (n =? 92)%N && (32 <=? n)%N && unescaped r
  end.

(** *** Parsing *)

Definition is_ws (c : ascii) : bool :=
  let n := N_of_ascii c in
  (n =? 32)%N || (n =? 9)%N || (n =? 10)%N || (n =? 13)%N.

Fixpoint skip_ws (s : string) : string :=
  match s with
  | String c r => if is_ws c then skip_ws r else s
  | EmptyString => s
  end.

Definition hex_value (c : ascii) : option N :=
  let n := N_of_ascii c in
  if (48 <=? n)%N && (n <=? 57)%N then Some (n - 48)%N
  else if (97 <=? n)%N && (n <=? 102)%N then Some (n - 87)%N
  else if (65 <=? n)%N && (n <=? 70)%N then Some (n - 55)%N
  else None.

(** UTF-8 bytes of a code point of the basic plane. *)
Definition utf8 (cp : N) : string :=
  if (cp <? 128)%N then String (ascii_of_N cp) ""
  else if (cp <? 2048)%N then
    String (ascii_of_N (192 + cp / 64)) (String (ascii_of_N (128 + cp mod 64)) "")
  else
    String (ascii_of_N (224 + cp / 4096))
      (String (ascii_of_N (128 + (cp / 64) mod 64))
         (String (ascii_of_N (128 + cp mod 64)) "")).

(** The body of a string literal, after its opening quote: the decoded
    string and the input that follows the closing quote. *)
Fixpoint parse_string (s : string) : option (string * string) :=
  match s with
  | EmptyString => None
  | String c r =>
      if Ascii.eqb c dquote then Some ("", r)
      else if Ascii.eqb c backslash then
        match r with
        | String e r' =>
            let simple (x : ascii) :=
              match parse_string r' with
              | Some (t, rest) => Some (String x t, rest)
              | None => None
              end in
            if Ascii.eqb e dquote then simple dquote
            else if Ascii.eqb e backslash then simple backslash
            else if Ascii.eqb e "/" then simple "/"%char
            else if Ascii.eqb e "b" then simple (ascii_of_N 8)
            else if Ascii.eqb e "f" then simple (ascii_of_N 12)
            else if Ascii.eqb e "n" then simple (ascii_of_N 10)
            else if Ascii.eqb e "r" then simple (ascii_of_N 13)
            else if Ascii.eqb e "t" then simple (ascii_of_N 9)
            else if Ascii.eqb e "u" then
              match r' with
              | String h1 (String h2 (String h3 (String h4 r''))) =>
                  match hex_value h1, hex_value h2, hex_value h3, hex_value h4,
                        parse_string r'' with
                  | Some a, Some b, Some c', Some d, Some (t, rest) =>
                      Some (utf8 (((a * 16 + b) * 16 + c') * 16 + d)%N +:+ t, rest)
                  | _, _, _, _, _ => None
                  end
              | _ => None
              end
            else None
        | EmptyString => None
        end
      else if (N_of_ascii c <? 32)%N then None
      else
        match parse_string r with
        | Some (t, rest) => Some (String c t, rest)
        | None => None
        end
  end.

Definition is_digit (c : ascii) : bool :=
  let n := N_of_ascii c in (48 <=? n)%N && (n <=? 57)%N.

(** The longest prefix of decimal digits, as a number, and what follows. *)
Fixpoint parse_digits (acc : Z) (s : string) : Z * string :=
  match s with
  | String c r =>
      if is_digit c then parse_digits (acc * 10 + (Z.of_N (N_of_ascii c) - 48)) r
      else (acc, s)
  | EmptyString => (acc, s)
  end.

(** An integer literal (numbers with a fraction or an exponent are outside
    the integral model of numbers and are rejected). *)
Definition parse_number (s : string) : option (jval * string) :=
  let (neg, body) :=
    match s with
    | String "-" r => (true, r)
    | _ => (false, s)
    end in
  match body with
  | String c _ =>
      if is_digit c then
        let (n, rest) := parse_digits 0 body in
        match rest with
        | String "." _ | String "e" _ | String "E" _ => None
        | _ => Some (JNum (if neg then - n else n), rest)
        end
      else None
  | EmptyString => None
  end.

(** [parse_value] reads one value; [parse_members] the members of an object
    after its opening brace, [parse_elements] the elements of an array after
    its opening bracket (both non-empty).  The fuel bounds the number of
    values read; [parse] supplies the length of the text. *)
Fixpoint parse_value (fuel : nat) (s : string) : option (jval * string) :=
  match fuel with
  | O => None
  | S fuel =>
      match skip_ws s with
      | String "{" r =>
          match skip_ws r with
          | String "}" r' => Some (JObj [], r')
          | _ => parse_members fuel r []
          end
      | String "[" r =>
          match skip_ws r with
          | String "]" r' => Some (JArr [], r')
          | _ => parse_elements fuel r []
          end
      | String "t" (String "r" (String "u" (String "e" r))) => Some (JBool true, r)
      | String "f" (String "a" (String "l" (String "s" (String "e" r)))) =>
          Some (JBool false, r)
      | String "n" (String "u" (String "l" (String "l" r))) => Some (JNull, r)
      | String c r =>
          if Ascii.eqb c dquote then
            match parse_string r with
            | Some (t, rest) => Some (JStr t, rest)
            | None => None
            end
          else parse_number (String c r)
      | EmptyString => None
      end
  end
with parse_members (fuel : nat) (s : string) (acc : list (string * jval))
  : option (jval * string) :=
  match fuel with
  | O => None
  | S fuel =>
      match skip_ws s with
      | String c r =>
          if Ascii.eqb c dquote then
            match parse_string r with
            | Some (k, r1) =>
                match skip_ws r1 with
                | String ":" r2 =>
                    match parse_value fuel r2 with
                    | Some (v, r3) =>
                        match skip_ws r3 with
                        | String "," r4 => parse_members fuel r4 (obj_set acc k v)
                        | String "}" r4 => Some (JObj (obj_set acc k v), r4)
                        | _ => None
                        end
                    | None => None
                    end
                | _ => None
                end
            | None => None
            end
          else None
      | EmptyString => None
      end
  end
with parse_elements (fuel : nat) (s : string) (acc : list jval)
  : option (jval * string) :=
  match fuel with
  | O => None
  | S fuel =>
      match parse_value fuel s with
      | Some (v, r) =>
          match skip_ws r with
          | String "," r' => parse_elements fuel r' (acc ++ [v])
          | String "]" r' => Some (JArr (acc ++ [v]), r')
          | _ => None
          end
      | None => None
      end
  end.

(** [JSON.parse(text)]; [None] stands for the [SyntaxError] it throws. *)
Definition parse (text : string) : option jval :=
  match parse_value (S (String.length text)) text with
  | Some (v, rest) =>
      match skip_ws rest with
      | EmptyString => Some v
      | _ => None
      end
  | None => None
  end.

(** A value whose objects have distinct keys, as every JavaScript object
    has. *)
Fixpoint keysDistinct (v : jval) : bool :=
  match v with
  | JArr xs => forallb keysDistinct xs
  | JObj kvs =>
      bool_decide (NoDup (map fst kvs)) && forallb (fun kv => keysDistinct (snd kv)) kvs
  | _ => true
  end.

(** A value whose strings, keys included, are written without escapes. *)
Fixpoint plain (v : jval) : bool :=
  match v with
  | JStr s => unescaped s
  | JArr xs => forallb plain xs
  | JObj kvs => forallb (fun kv => unescaped (fst kv) && plain (snd kv)) kvs
  | _ => true
  end.

(** The text of one member of an object, as [stringify] writes it. *)
Definition member (kv : string * jval) : string :=
  quote (fst kv) +:+ ":" +:+ stringify (snd kv).

(** What may follow a number: the end of the text, or a character that is
    neither a digit nor the start of a fraction or an exponent. *)
Definition number_end (rest : string) : bool :=
  match rest with
  | EmptyString => true
  | String c _ =>
      negb (is_digit c) && negb (Ascii.eqb c ".") && negb (Ascii.eqb c "e")
      && negb (Ascii.eqb c "E")
  end.

(** What follows a value inside a text that [stringify] wrote: the end of
    the text, a comma or a closing bracket. *)
Definition value_end (rest : string) : bool :=
  match rest with
  | EmptyString => true
  | String c _ => Ascii.eqb c "," || Ascii.eqb c "}" || Ascii.eqb c "]"
  end.

(** The characters a value starts with. *)
Definition value_start (c : ascii) : bool :=
  Ascii.eqb c "{" || Ascii.eqb c "[" || Ascii.eqb c dquote || is_digit c
  || Ascii.eqb c "-" || Ascii.eqb c "t" || Ascii.eqb c "f" || Ascii.eqb c "n".

(** The number of values, members and elements of a value: the fuel that
    reading its text takes. *)
Fixpoint weight (v : jval) : nat :=
  match v with
  | JArr xs => S (sum_list (map (fun x => S (weight x)) xs))
  | JObj kvs => S (sum_list (map (fun kv => S (weight (snd kv))) kvs))
  | _ => 1%nat
  end.

(** Reading the text of [v] gives [v] back and leaves what follows it. *)
Definition roundTrip (v : jval) : Prop :=
  forall fuel rest,
    (weight v <= fuel)%nat -> value_end rest = true ->
    parse_value fuel (stringify v +:+ rest) = Some (v, rest).

End JSON.

(** ** JavaScript string built-ins used by the query composer *)

Module JS.

(** [\w] of a JavaScript regular expression without the [u] flag. *)
Definition is_word (c : ascii) : bool :=
  let n := N_of_ascii c in
  ((48 <=? n) && (n <=? 57) || (65 <=? n) && (n <=? 90) ||
   (97 <=? n) && (n <=? 122) || (n =? 95))%N.

(** [s.split(sep)] for a one-character separator. *)
Fixpoint split_on (sep : ascii) (cur : string) (s : string) : list string :=
  match s with
  | EmptyString => [cur]
  | String c r =>
      if Ascii.eqb c sep then cur :: split_on sep "" r
      else split_on sep (cur +:+ String c "") r
  end.
Definition split (sep : ascii) (s : string) : list string := split_on sep "" s.

(** [ToString] of a value that was read from a property; [None] is
    [undefined]. *)
Fixpoint toString (v : jval) : string :=
  match v with
  | JNull => "null"
  | JBool true => "true"
  | JBool false => "false"
  | JNum n => pretty n
  | JStr s => s
  | JArr xs =>
      JSON.join ","
        (map (fun x => match x with JNull => "" | _ => toString x end) xs)
  | JObj _ => "[object Object]"
  end.

(** The length of a string: the number of its UTF-16 code units.  Strings
    are kept as the bytes of their UTF-8 encoding; a byte below 128 is one
    unit, the lead byte of a sequence of two or three bytes is one unit, the
    lead byte of a sequence of four bytes is two units (a surrogate pair), and
    a continuation byte is none. *)
Definition units (c : ascii) : nat :=
  let n := N_of_ascii c in
  if (n <? 128)%N then 1%nat
  else if (n <? 192)%N then 0%nat
  else if (n <? 240)%N then 1%nat
  else 2%nat.

Fixpoint length (s : string) : nat :=
  match s with
  | EmptyString => 0%nat
  | String c r => (units c + length r)%nat
  end.

(** White space and line terminators of ECMAScript, in UTF-8: the
    characters 9 to 13 and the space; U+00A0; U+1680, U+2000 to U+200A, U+2028,
    U+2029, U+202F, U+205F, U+3000 and U+FEFF. *)
Definition is_space (c : ascii) : bool :=
  let n := N_of_ascii c in ((n =? 32) || (9 <=? n) && (n <=? 13))%N.

Definition is_space2 (c d : ascii) : bool :=
  ((N_of_ascii c =? 194) && (N_of_ascii d =? 160))%N.

Definition is_space3 (c d e : ascii) : bool :=
  let c := N_of_ascii c in
  let d := N_of_ascii d in
  let e := N_of_ascii e in
  ((c =? 225) && (d =? 154) && (e =? 128)
   || (c =? 226) && (d =? 128)
      && ((128 <=? e) && (e <=? 138) || (e =? 168) || (e =? 169) || (e =? 175))
   || (c =? 226) && (d =? 129) && (e =? 159)
   || (c =? 227) && (d =? 128) && (e =? 128)
   || (c =? 239) && (d =? 187) && (e =? 191))%N.

(** [s.trimStart()] *)
Fixpoint trimStart (s : string) : string :=
  match s with
  | String c r =>
      if is_space c then trimStart r
      else
        match r with
        | String d r1 =>
            if is_space2 c d then trimStart r1
            else
              match r1 with
              | String e r2 => if is_space3 c d e then trimStart r2 else s
              | EmptyString => s
              end
        | EmptyString => s
        end
  | EmptyString => s
  end.

(** [s.trimEnd()]: what is left of [s] once the longest suffix of white
    space is removed. *)
Fixpoint trimEnd (s : string) : string :=
  match s with
  | EmptyString => EmptyString
  | String c r =>
      match trimStart s with
      | EmptyString => EmptyString
      | _ => String c (trimEnd r)
      end
  end.

(** [s.trim()] *)
Definition trim (s : string) : string := trimEnd (trimStart s).

(** The Number nearest to an integer: integers below 2^53 in magnitude are
    Numbers; a larger one is rounded to 53 significant bits, a tie to the even
    neighbour.  (An integer beyond the largest finite Number, about 1.8e308,
    is Infinity in JavaScript; the theorems that read numbers bound them.) *)
Definition toNumber (z : Z) : Z :=
  let a := Z.abs z in
  if a <? 2 ^ 53 then z
  else
    let e := Z.log2 a - 52 in
    let q := Z.shiftr a e in
    let r := a - Z.shiftl q e in
    let half := Z.shiftl 1 (e - 1) in
    let q' := if (half <? r) || (r =? half) && Z.odd q then q + 1 else q in
    Z.sgn z * Z.shiftl q' e.

(** [parseInt(v, 10)]: leading white space, an optional sign, then the
    longest run of decimal digits, as a Number; [None] is [NaN]. *)
Definition parseInt (v : option jval) : option Z :=
  match v with
  | None => None
  | Some v =>
      let s := trimStart (toString v) in
      let (neg, body) :=
        match s with
        | String "-" r => (true, r)
        | String "+" r => (false, r)
        | _ => (false, s)
        end in
      match body with
      | String c _ =>
          if JSON.is_digit c then
            let n := fst (JSON.parse_digits 0 body) in
            Some (toNumber (if neg then - n else n))
          else None
      | EmptyString => None
      end
  end.

(** Lower case of an ASCII letter. *)
Definition lower (c : ascii) : ascii :=
  let n := N_of_ascii c in
  if ((65 <=? n) && (n <=? 90))%N then ascii_of_N (n + 32) else c.

Fixpoint prefix_ci (p s : string) : bool :=
  match p, s with
  | EmptyString, _ => true
  | String a p', String b s' => Ascii.eqb (lower a) (lower b) && prefix_ci p' s'
  | String _ _, EmptyString => false
  end.

(** What [$regex] with [$options: 'i'] decides for a pattern that has no
    metacharacter: whether the subject contains the pattern, letters compared
    without case.  The scenarios use it as the regular-expression engine. *)
Fixpoint icontains (pattern subject : string) : bool :=
  prefix_ci pattern subject ||
  match subject with
  | EmptyString => false
  | String _ rest => icontains pattern rest
  end.

(** [x || d] where [x] is a number or [NaN]. *)
Definition num_or (x : option Z) (d : Z) : Z :=
  match x with
  | Some n => if n =? 0 then d else n
  | None => d
  end.

End JS.

(** ** The Mongoose query builder, as far as the services use it *)

Module Mongoose.

(** A document of a collection, as the object [toObject()] gives. *)
Definition Doc : Type := list (string * jval).

(** The state of a [Query]: the merged conditions and the options set by
    [sort], [select], [skip] and [limit]. *)
Record Query := mkQuery {
  q_conditions : list (string * jval);
  q_sort : option string;
  q_select : option string;
  q_skip : option Z;
  q_limit : option Z
}.

(** [Model.find()] *)
Definition Model_find : Query := mkQuery [] None None None None.

(** Merging a filter into the conditions of a query ([Query.prototype.find]
    with an argument): a key that is new is added, an object met by an object
    is merged key by key, anything else is overwritten. *)
Fixpoint merge_val (from : jval) (to : jval) {struct from} : jval :=
  match from, to with
  | JObj fkvs, JObj tkvs =>
      JObj ((fix go (fkvs : list (string * jval)) (tkvs : list (string * jval)) :=
               match fkvs with
               | [] => tkvs
               | (k, fv) :: r =>
                   go r (obj_set tkvs k
                           (match obj_get tkvs k with
                            | Some tv => merge_val fv tv
                            | None => fv
                            end))
               end) fkvs tkvs)
  | _, _ => from
  end.

Definition merge (from to : list (string * jval)) : list (string * jval) :=
  match merge_val (JObj from) (JObj to) with
  | JObj kvs => kvs
  | _ => to
  end.

Definition Query_find (cond : list (string * jval)) (q : Query) : Query :=
  mkQuery (merge cond (q_conditions q)) (q_sort q) (q_select q) (q_skip q) (q_limit q).
Definition Query_sort (arg : string) (q : Query) : Query :=
  mkQuery (q_conditions q) (Some arg) (q_select q) (q_skip q) (q_limit q).
Definition Query_select (arg : string) (q : Query) : Query :=
  mkQuery (q_conditions q) (q_sort q) (Some arg) (q_skip q) (q_limit q).
Definition Query_skip (n : Z) (q : Query) : Query :=
  mkQuery (q_conditions q) (q_sort q) (q_select q) (Some n) (q_limit q).
Definition Query_limit (n : Z) (q : Query) : Query :=
  mkQuery (q_conditions q) (q_sort q) (q_select q) (q_skip q) (Some n).

(** *** Ordering of values (BSON comparison order, scalars only) *)

Definition type_rank (v : option jval) : Z :=
  match v with
  | None | Some JNull => 0
  | Some (JNum _) => 1
  | Some (JStr _) => 2
  | Some (JObj _) => 3
  | Some (JArr _) => 4
  | Some (JBool _) => 5
  end.

Definition compare_val (a b : option jval) : comparison :=
  match a, b with
  | Some (JNum x), Some (JNum y) => x ?= y
  | Some (JStr x), Some (JStr y) => String.compare x y
  | Some (JBool x), Some (JBool y) => Bool.compare x y
  | _, _ => type_rank a ?= type_rank b
  end.

(** The tokens of a space-separated argument of [sort] or [select]. *)
Definition tokens (arg : string) : list string :=
  List.filter (fun t => negb (String.eqb t "")) (JS.split " " arg).

(** A token of a sort argument: the field, and [true] when it is prefixed
    with [-] (descending). *)
Definition sort_key (t : string) : string * bool :=
  match t with
  | String "-" f => (f, true)
  | _ => (t, false)
  end.

Fixpoint compare_docs (keys : list (string * bool)) (a b : Doc) : comparison :=
  match keys with
  | [] => Eq
  | (f, desc) :: r =>
      match compare_val (obj_get a f) (obj_get b f) with
      | Eq => compare_docs r a b
      | c => if desc then CompOpp c else c
      end
  end.

Fixpoint insert_sorted (keys : list (string * bool)) (d : Doc) (l : list Doc)
  : list Doc :=
  match l with
  | [] => [d]
  | x :: r =>
      match compare_docs keys d x with
      | Gt => x :: insert_sorted keys d r
      | _ => d :: l
      end
  end.

Definition sort_docs (arg : option string) (l : list Doc) : list Doc :=
  match arg with
  | None => l
  | Some arg => foldr (insert_sorted (map sort_key (tokens arg))) [] l
  end.

(** *** Projection *)

Definition is_exclusion (t : string) : bool :=
  match t with
  | String "-" _ => true
  | _ => false
  end.

Definition path_of (t : string) : string :=
  match t with
  | String "-" f => f
  | _ => t
  end.

(** The tokens of a [select] argument other than those of [_id]. *)
Definition selected_paths (arg : string) : list string :=
  List.filter (fun t => negb (String.eqb (path_of t) "_id")) (tokens arg).

(** A projection that includes one path and excludes another; [_id] may
    accompany either kind.  The server refuses it. *)
Definition mixed (arg : option string) : bool :=
  match arg with
  | None => false
  | Some arg =>
      existsb is_exclusion (selected_paths arg)
      && existsb (fun t => negb (is_exclusion t)) (selected_paths arg)
  end.

(** The projection of a document, for an argument that is not [mixed]: the
    paths named are kept (inclusion) or dropped (exclusion); [_id] is kept
    unless it is excluded, the last of its tokens deciding. *)
Definition project (arg : option string) (d : Doc) : Doc :=
  match arg with
  | None => d
  | Some arg =>
      let others := selected_paths arg in
      let id_flag :=
        foldl (fun acc t =>
                 if String.eqb (path_of t) "_id" then Some (negb (is_exclusion t))
                 else acc) None (tokens arg) in
      let inclusive :=
        match others with
        | [] => bool_decide (id_flag = Some true)
        | t :: _ => negb (is_exclusion t)
        end in
      List.filter
        (fun kv =>
           if String.eqb (fst kv) "_id" then negb (bool_decide (id_flag = Some false))
           else if inclusive then existsb (String.eqb (fst kv)) (map path_of others)
           else negb (existsb (String.eqb (fst kv)) (map path_of others)))
        d
  end.

Section WithRegex.

(** The regular-expression engine of the database: [regex_test pattern
    options subject] is whether [subject] matches [$regex: pattern] under
    [$options: options]. *)
Variable regex_test : string -> string -> string -> bool.

(** Mongoose casts a filter value to the schema type of its path before the
    server compares it.  [castCompare path v arg] is how the stored value [v]
    of [path] compares with the filter value [arg] when the two are scalars of
    different JSON types (the string of a query string against a number, a
    date or a boolean); [None] when the cast raises an error. *)
Variable castCompare : string -> jval -> jval -> option comparison.

(** The comparison of a stored scalar with a filter scalar. *)
Definition compare_scalar (f : string) (v arg : jval) : option comparison :=
  match v, arg with
  | JNum x, JNum y => Some (x ?= y)
  | JStr x, JStr y => Some (String.compare x y)
  | JBool x, JBool y => Some (Bool.compare x y)
  | JNum _, (JStr _ | JBool _) | JStr _, (JNum _ | JBool _)
  | JBool _, (JNum _ | JStr _) => castCompare f v arg
  | _, _ => None
  end.

(** One operator of a condition object on the field [f] whose value is
    [v]. *)
Definition op_test (ops : list (string * jval)) (f : string) (op : string) (arg : jval)
    (v : jval) : bool :=
  let cmp (ok : comparison -> bool) :=
    match compare_scalar f v arg with
    | Some c => ok c
    | None => false
    end in
  if String.eqb op "$gte" then cmp (fun c => match c with Lt => false | _ => true end)
  else if String.eqb op "$gt" then cmp (fun c => match c with Gt => true | _ => false end)
  else if String.eqb op "$lte" then cmp (fun c => match c with Gt => false | _ => true end)
  else if String.eqb op "$lt" then cmp (fun c => match c with Lt => true | _ => false end)
  else if String.eqb op "$regex" then
    match arg, v with
    | JStr pat, JStr subject =>
        regex_test pat
          (match obj_get ops "$options" with Some (JStr o) => o | _ => "" end)
          subject
    | _, _ => false
    end
  else if String.eqb op "$options" then true
  else false.

(** Equality of a stored value with a filter value; an array field matches
    when one element does. *)
Definition eq_scalar (f : string) (v : jval) (c : jval) : bool :=
  match compare_scalar f v c with
  | Some Eq => true
  | _ => false
  end.

(** The condition [c] on the field [f] of the document [d]. *)
Definition field_test (f : string) (c : jval) (d : Doc) : bool :=
  match obj_get d f with
  | None => false
  | Some v =>
      match c with
      | JObj ops => forallb (fun kv => op_test ops f (fst kv) (snd kv) v) ops
      | _ =>
          match v with
          | JArr xs => existsb (fun x => eq_scalar f x c) xs
          | _ => eq_scalar f v c
          end
      end
  end.

(** Whether a document satisfies a filter: every key of the filter holds,
    where [$and] and [$or] take an array of filters.  A filter that
    Mongoose's casting or the server refuses with an error (an operator that
    does not exist, an operand that cannot be cast to the type of the field,
    [$and] or [$or] without an array) is satisfied by no document here: the
    embedding tells which documents a read returns, not which error a
    malformed filter raises. *)
Fixpoint matches (c : jval) (d : Doc) {struct c} : bool :=
  match c with
  | JObj kvs =>
      (fix all (kvs : list (string * jval)) : bool :=
         match kvs with
         | [] => true
         | (k, v) :: r =>
             (if String.eqb k "$and" then
                match v with
                | JArr xs =>
                    (fix alls (xs : list jval) : bool :=
                       match xs with
                       | [] => true
                       | x :: r => matches x d && alls r
                       end) xs
                | _ => false
                end
              else if String.eqb k "$or" then
                match v with
                | JArr xs =>
                    (fix anys (xs : list jval) : bool :=
                       match xs with
                       | [] => false
                       | x :: r => matches x d || anys r
                       end) xs
                | _ => false
                end
              else field_test k v d)
             && all r
         end) kvs
  | _ => false
  end.

(** [await query] against the documents of the collection: filter, sort,
    skip, limit, project.  A negative skip and a mixed projection are refused
    by the server; a negative limit is read as its absolute value and zero as
    no limit. *)
Definition exec (coll : list Doc) (q : Query) : result (list Doc) :=
  let found := List.filter (matches (JObj (q_conditions q))) coll in
  let sorted := sort_docs (q_sort q) found in
  let skip := default 0 (q_skip q) in
  if skip <? 0 then Err (MongoServerError "Skip value must be non-negative")
  else if mixed (q_select q) then
    Err (MongoServerError "Projection cannot have a mix of inclusion and exclusion.")
  else
    let skipped := drop (Z.to_nat skip) sorted in
    let window :=
      match q_limit q with
      | None => skipped
      | Some n => if n =? 0 then skipped else take (Z.to_nat (Z.abs n)) skipped
      end in
    Ok (map (project (q_select q)) window).

(** [await query.populate(...)]: the documents are selected, sorted and cut
    to the window as by [exec]; what is returned for each is what [populated]
    makes of the stored document under the projection of the query. *)
Definition exec_populate (populated : option string -> Doc -> Doc) (coll : list Doc)
    (q : Query) : result (list Doc) :=
  let found := List.filter (matches (JObj (q_conditions q))) coll in
  let sorted := sort_docs (q_sort q) found in
  let skip := default 0 (q_skip q) in
  if skip <? 0 then Err (MongoServerError "Skip value must be non-negative")
  else if mixed (q_select q) then
    Err (MongoServerError "Projection cannot have a mix of inclusion and exclusion.")
  else
    let skipped := drop (Z.to_nat skip) sorted in
    let window :=
      match q_limit q with
      | None => skipped
      | Some n => if n =? 0 then skipped else take (Z.to_nat (Z.abs n)) skipped
      end in
    Ok (map (populated (q_select q)) window).

End WithRegex.

End Mongoose.

(** ** utils/apiFeatures.js *)

Module APIFeatures.
Import Mongoose.

Record t := mk {
  query : Query;
  queryString : list (string * jval);
  searchConditions : jval;
  filterConditions : jval
}.

(** [new APIFeatures(query, queryString)] *)
Definition new (query : Query) (queryString : list (string * jval)) : t :=
  mk query queryString (JObj []) (JObj []).

Definition set_query (q : Query) (this : t) : t :=
  mk q (queryString this) (searchConditions this) (filterConditions this).

(** [Object.keys(x).length > 0] *)
Definition has_keys (x : jval) : bool :=
  match x with
  | JObj (_ :: _) | JArr (_ :: _) => true
  | JStr s => negb (String.eqb s "")
  | _ => false
  end.

(** The default of the parameter of [search]. *)
Definition defaultSearchFields : list string := ["name"; "description"].

(** [search(searchFields)] *)
Definition search (searchFields : list string) (this : t) : t :=
  match obj_get (queryString this) "keyword" with
  | Some keyword =>
      if js_truthy keyword then
        mk (query this) (queryString this)
          (JObj [("$or",
                  JArr (map (fun field =>
                               JObj [(field, JObj [("$regex", keyword);
                                                   ("$options", JStr "i")])])
                          searchFields))])
          (filterConditions this)
      else this
  | None => this
  end.

Definition excludedFields : list string :=
  ["page"; "sort"; "limit"; "fields"; "keyword"].

Definition operators : list string := ["gte"; "gt"; "lte"; "lt"].

(** The replacement of one maximal run of word characters. *)
Definition mark (word : string) : string :=
  if existsb (String.eqb word) operators then "$" +:+ word else word.

(** [queryStr.replace(/\b(gte|gt|lte|lt)\b/g, (match) => `$${match}`)]:
    a match starts and ends at a word boundary, so it is a maximal run of word
    characters that is one of the four operators.  [word] is the run read so
    far. *)
Fixpoint replace_from (word : string) (s : string) : string :=
  match s with
  | EmptyString => mark word
  | String c r =>
      if JS.is_word c then replace_from (word +:+ String c "") r
      else mark word +:+ String c (replace_from "" r)
  end.
Definition replace_operators (queryStr : string) : string := replace_from "" queryStr.

(** The replacement applied to every string of a value, keys included. *)
Fixpoint rename (v : jval) : jval :=
  match v with
  | JStr s => JStr (replace_operators s)
  | JArr xs => JArr (map rename xs)
  | JObj kvs => JObj (map (fun kv => (replace_operators (fst kv), rename (snd kv))) kvs)
  | _ => v
  end.

Definition rename_member (kv : string * jval) : string * jval :=
  (replace_operators (fst kv), rename (snd kv)).

(** A text that does not continue a run of word characters. *)
Definition boundary (rest : string) : bool :=
  match rest with
  | EmptyString => true
  | String c _ => negb (JS.is_word c)
  end.

(** A string of word characters only. *)
Fixpoint word_run (s : string) : bool :=
  match s with
  | EmptyString => true
  | String c r => JS.is_word c && word_run r
  end.

(** [filter()] *)
Definition filter (this : t) : t :=
  let queryObj := foldl obj_delete (queryString this) excludedFields in
  let queryStr := JSON.stringify (JObj queryObj) in
  let queryStr := replace_operators queryStr in
  mk (query this) (queryString this) (searchConditions this)
    (match JSON.parse queryStr with
     | Some conditions => conditions
     | None => JObj []
     end).

(** [Object.assign({}, x)] *)
Definition own_properties (x : jval) : list (string * jval) :=
  match x with
  | JObj kvs => kvs
  | _ => []
  end.

(** [applyFind()] *)
Definition applyFind (this : t) : t :=
  let conditionsArray :=
    app (if has_keys (searchConditions this) then [searchConditions this] else [])
        (if has_keys (filterConditions this) then [filterConditions this] else []) in
  let finalQueryConditions :=
    match conditionsArray with
    | [] => []
    | [c] => own_properties c
    | _ => [("$and", JArr conditionsArray)]
    end in
  set_query (Query_find finalQueryConditions (query this)) this.

(** [this.queryString.x.split(',').join(' ')]; a truthy value that is not a
    string has no [split] method. *)
Definition comma_list (v : jval) : result string :=
  match v with
  | JStr s => Ok (JSON.join " " (JS.split "," s))
  | _ => Err (TypeError "split is not a function")
  end.

(** [sort()] *)
Definition sort (this : t) : result t :=
  match obj_get (queryString this) "sort" with
  | Some v =>
      if js_truthy v then
        match comma_list v with
        | Ok sortBy => Ok (set_query (Query_sort sortBy (query this)) this)
        | Err e => Err e
        end
      else Ok (set_query (Query_sort "-createdAt" (query this)) this)
  | None => Ok (set_query (Query_sort "-createdAt" (query this)) this)
  end.

(** [limitFields()] *)
Definition limitFields (this : t) : result t :=
  match obj_get (queryString this) "fields" with
  | Some v =>
      if js_truthy v then
        match comma_list v with
        | Ok fields => Ok (set_query (Query_select fields (query this)) this)
        | Err e => Err e
        end
      else Ok (set_query (Query_select "-__v" (query this)) this)
  | None => Ok (set_query (Query_select "-__v" (query this)) this)
  end.

(** [paginate()] *)
Definition paginate (this : t) : t :=
  let page := JS.num_or (JS.parseInt (obj_get (queryString this) "page")) 1 in
  let limit := JS.num_or (JS.parseInt (obj_get (queryString this) "limit")) 25 in
  let skip := JS.toNumber (JS.toNumber (page - 1) * limit) in
  set_query (Query_limit limit (Query_skip skip (query this))) this.

(** Two composers that carry the same query and agree on the parameters
    [sort], [fields], [page] and [limit]. *)
Definition sameWindow (this this' : t) : Prop :=
  query this = query this' /\
  forall k, In k ["sort"; "fields"; "page"; "limit"] ->
            obj_get (queryString this) k
            = obj_get (queryString this') k.

Definition sameOutcome (r r' : result t) : Prop :=
  match r, r' with
  | Ok f, Ok f' => sameWindow f f'
  | Err e, Err e' => e = e'
  | _, _ => False
  end.

End APIFeatures.

(** ** services/medicineService.js *)

Module MedicineService.
Import Mongoose.

(** The object a medicine document serialises to. *)
Definition Medicine_toObject (id : string) (m : Medicine) : Doc :=
  ([("_id", JStr id); ("name", JStr (m_name m));
   ("description", JStr (m_description m)); ("price", JNum (m_price m));
   ("stock", JNum (m_stock m)); ("category", JStr (m_category m));
   ("imageUrl", JArr (map JStr (m_imageUrl m)))]
  ++ match m_manufacturer m with Some x => [("manufacturer", JStr x)] | None => [] end
  ++ match m_expirationDate m with Some x => [("expirationDate", JNum x)] | None => [] end
  ++ [("createdAt", JNum (m_createdAt m))]
  ++ match m_user m with Some x => [("user", JStr x)] | None => [] end
  ++ [("__v", JNum 0)])%list.

(** The documents of the medicines collection. *)
Definition Medicine_collection (db : DB) : list Doc :=
  map (fun kv => Medicine_toObject (fst kv) (snd kv)) (map_to_list (medicines db)).

(** The [count]/[data] object a list read returns. *)
Record Listing := mkListing {
  count : nat;
  data : list Doc
}.

(** The chain every list read builds:
    [new APIFeatures(q, params).filter().sort().limitFields().paginate()]. *)
Definition listFeatures (base : Query) (queryParams : list (string * jval))
  : result APIFeatures.t :=
  let features := APIFeatures.filter (APIFeatures.new base queryParams) in
  match APIFeatures.sort features with
  | Err e => Err e
  | Ok features =>
      match APIFeatures.limitFields features with
      | Err e => Err e
      | Ok features => Ok (APIFeatures.paginate features)
      end
  end.





Section WithRegex.
Variable regex_test : string -> string -> string -> bool.
Variable castCompare : string -> jval -> jval -> option comparison.

(** [MedicineService.getMedicines(queryParams)] *)
Definition getMedicines (queryParams : list (string * jval)) : Eff DB Listing :=
  fun db =>
    match listFeatures Model_find queryParams with
    | Err e => (Err e, db)
    | Ok features =>
        match exec regex_test castCompare (Medicine_collection db)
                (APIFeatures.query features) with
        | Err e => (Err e, db)
        | Ok medicines => (Ok (mkListing (length medicines) medicines), db)
        end
    end.

End WithRegex.

(** The plain fields of the body of [PUT /medicines/:id], after Mongoose's
    cast; [None] is a field the body does not carry. *)
Record MedicineUpdate := mkMedicineUpdate {
  mu_name : option string;
  mu_description : option string;
  mu_price : option Z;
  mu_stock : option Z;
  mu_category : option string;
  mu_imageUrl : option (list string);
  mu_manufacturer : option string;
  mu_expirationDate : option Z;
  mu_user : option string
}.

(** The body of [PUT /medicines/:id], which reaches [findByIdAndUpdate]
    whole: its plain fields, which Mongoose wraps in [$set], and the update
    operators it carries besides ([$inc], [$unset], [$mul], ...), with their
    operands. *)
Record UpdateData := mkUpdateData {
  upd_fields : MedicineUpdate;
  upd_operators : list (string * jval)
}.

(** A body of plain fields. *)
Definition fieldsOnly (u : MedicineUpdate) : UpdateData := mkUpdateData u [].

Definition categories : list string :=
  ["Pain Relief"; "Antibiotics"; "Vitamins"; "Cough & Cold";
   "Digestive Health"; "Skin Care"; "First Aid"; "Other"].

Definition within (max : nat) (s : string) : bool := (JS.length s <=? max)%nat.

(** The validators of the paths an update sets ([runValidators: true]); the
    setter of [name] has trimmed it before. *)
Definition updateValid (u : MedicineUpdate) : bool :=
  from_option (fun s => negb (String.eqb (JS.trim s) "") && within 100 (JS.trim s))
    true (mu_name u)
  && from_option (fun s => negb (String.eqb s "") && within 500 s) true (mu_description u)
  && from_option (fun p => 0 <=? p) true (mu_price u)
  && from_option (fun p => 0 <=? p) true (mu_stock u)
  && from_option (fun c => existsb (String.eqb c) categories) true (mu_category u)
  && from_option (within 100) true (mu_manufacturer u).

(** [$set] of the plain fields, the name trimmed by its setter. *)
Definition applyUpdate (u : MedicineUpdate) (m : Medicine) : Medicine :=
  mkMedicine
    (from_option JS.trim (m_name m) (mu_name u))
    (default (m_description m) (mu_description u))
    (default (m_price m) (mu_price u))
    (default (m_stock m) (mu_stock u))
    (default (m_category m) (mu_category u))
    (default (m_imageUrl m) (mu_imageUrl u))
    (match mu_manufacturer u with Some x => Some x | None => m_manufacturer m end)
    (match mu_expirationDate u with Some x => Some x | None => m_expirationDate m end)
    (m_createdAt m)
    (match mu_user u with Some x => Some x | None => m_user m end).

(** Whether another medicine already carries the name (the unique index). *)
Definition nameTaken (id : string) (name : string) (db : DB) : bool :=
  existsb (fun kv => negb (String.eqb (fst kv) id) && String.eqb (m_name (snd kv)) name)
    (map_to_list (medicines db)).

Section WithOperators.

(** What Mongoose and the server make of the update operators of a body, on
    the document that the plain fields have been set in: the document they
    leave, or [None] when either refuses the update.  Update validators do not
    run on every operator ([$inc] and [$mul] are not validated). *)
Variable applyOperators : list (string * jval) -> Medicine -> option Medicine.

(** The document an update leaves. *)
Definition updated (u : UpdateData) (m : Medicine) : option Medicine :=
  match upd_operators u with
  | [] => Some (applyUpdate (upd_fields u) m)
  | operators => applyOperators operators (applyUpdate (upd_fields u) m)
  end.

(** [Medicine.findByIdAndUpdate(id, updateData, {new: true, runValidators: true})] *)
Definition Medicine_findByIdAndUpdate (id : string) (u : UpdateData)
  : Eff DB (option Medicine) :=
  if updateValid (upd_fields u) then
    found ← gets (fun db => medicines db !! id);
    match found with
    | None => mret None
    | Some m =>
        match updated u m with
        | None => throw (MongoServerError "The update was refused")
        | Some m' =>
            taken ← gets (nameTaken id (m_name m'));
            match taken with
            | true => throw (MongoServerError "E11000 duplicate key error")
            | false =>
                _ ← modify (set_medicines (insert id m'));
                mret (Some m')
            end
        end
    end
  else throw (ValidationError "Validation failed").

(** [medicine.user.toString()]: reading a property of [undefined] throws. *)
Definition user_toString {S} (m : Medicine) : Eff S string :=
  match m_user m with
  | Some u => mret u
  | None => throw (TypeError "Cannot read properties of undefined (reading 'toString')")
  end.

(** [MedicineService.updateMedicine(id, updateData, authUser)] *)
Definition updateMedicine (id : string) (updateData : UpdateData)
    (authUser : AuthUser) : Eff DB (option Medicine) :=
  medicine ← gets (fun db => medicines db !! id);
  match medicine with
  | None => throw (ErrorResponse ("Medicine not found with id of " +:+ id) 404)
  | Some medicine =>
      owner ← user_toString medicine;
      match negb (String.eqb owner (au_id authUser))
            && negb (String.eqb (au_role authUser) "admin") with
      | true => throw (ErrorResponse ("User " +:+ au_id authUser +:+
                                      " is not authorized to update this medicine") 401)
      | false => Medicine_findByIdAndUpdate id updateData
      end
  end.

End WithOperators.

(** [MedicineService.deleteMedicine(id, authUser)] *)
Definition deleteMedicine (id : string) (authUser : AuthUser) : Eff DB unit :=
  medicine ← gets (fun db => medicines db !! id);
  match medicine with
  | None => throw (ErrorResponse ("Medicine not found with id of " +:+ id) 404)
  | Some medicine =>
      owner ← user_toString medicine;
      match negb (String.eqb owner (au_id authUser))
            && negb (String.eqb (au_role authUser) "admin") with
      | true => throw (ErrorResponse ("User " +:+ au_id authUser +:+
                                      " is not authorized to delete this medicine") 401)
      | false => modify (set_medicines (delete id))
      end
  end.

(** [MedicineService.getMedicine(id)] *)
Definition getMedicine (id : string) : Eff DB Medicine :=
  medicine ← gets (fun db => medicines db !! id);
  match medicine with
  | None => throw (ErrorResponse ("Medicine not found with id of " +:+ id) 404)
  | Some medicine => mret medicine
  end.

(** The body of [POST /medicines] as the controller hands it to the
    service, field by field; [None] is a field that is absent. *)
Record MedicineData := mkMedicineData {
  md_name : option string;
  md_description : option string;
  md_price : option Z;
  md_stock : option Z;
  md_category : option string;
  md_imageUrl : option (list string);
  md_manufacturer : option string;
  md_expirationDate : option Z;
  md_createdAt : option Z;
  md_user : option string
}.

Definition set_user (v : string) (d : MedicineData) : MedicineData :=
  mkMedicineData (md_name d) (md_description d) (md_price d) (md_stock d)
    (md_category d) (md_imageUrl d) (md_manufacturer d) (md_expirationDate d)
    (md_createdAt d) (Some v).

Definition placeholderImage : string :=
  "https://placehold.co/400x300/E0F2F7/000000?text=Medicine".

(** The document Mongoose builds from the data: the name trimmed, and the
    schema defaults of [stock], [category], [imageUrl] and [createdAt]. *)
Definition toDocument (now : Z) (d : MedicineData) : Medicine :=
  mkMedicine
    (JS.trim (default "" (md_name d)))
    (default "" (md_description d))
    (default 0 (md_price d))
    (default 0 (md_stock d))
    (default "Other" (md_category d))
    (default [placeholderImage] (md_imageUrl d))
    (md_manufacturer d)
    (md_expirationDate d)
    (default now (md_createdAt d))
    (md_user d).

(** The validators of the Medicine schema, on the document built. *)
Definition medicineValid (m : Medicine) : bool :=
  negb (String.eqb (m_name m) "") && within 100 (m_name m)
  && negb (String.eqb (m_description m) "") && within 500 (m_description m)
  && (0 <=? m_price m) && (0 <=? m_stock m)
  && existsb (String.eqb (m_category m)) categories
  && from_option (within 100) true (m_manufacturer m).

(** [Medicine.create(medicineData)]; [newId] is the generated ObjectId and
    [now] the clock read by the [createdAt] default.  [price] is required and
    has no default. *)
Definition Medicine_create (newId : string) (now : Z) (d : MedicineData)
  : Eff DB Medicine :=
  if bool_decide (is_Some (md_price d)) && medicineValid (toDocument now d) then
    taken ← gets (fun db => nameTaken newId (m_name (toDocument now d)) db
                            || bool_decide (is_Some (medicines db !! newId)));
    match taken with
    | true => throw (MongoServerError "E11000 duplicate key error")
    | false =>
        _ ← modify (set_medicines (insert newId (toDocument now d)));
        mret (toDocument now d)
    end
  else throw (ValidationError "Medicine validation failed").

(** [MedicineService.addMedicine(medicineData, userId)] *)
Definition addMedicine (medicineData : MedicineData) (userId : string)
    (newId : string) (now : Z) : Eff DB Medicine :=
  Medicine_create newId now (set_user userId medicineData).

(** No two stored medicines have the same name. *)
Definition namesUnique (db : DB) : Prop :=
  forall id1 id2 m1 m2,
    medicines db !! id1 = Some m1 -> medicines db !! id2 = Some m2 ->
    m_name m1 = m_name m2 -> id1 = id2.

(** Every stored medicine passes the validators of the schema, and the names
    are unique. *)
Definition catalogValid (db : DB) : Prop :=
  map_Forall (fun _ m => medicineValid m = true) (medicines db) /\ namesUnique db.

End MedicineService.

(** ** services/orderService.js *)

Module OrderService.

(** The request body of [POST /orders]. *)
Record OrderData := mkOrderData {
  od_orderItems : option (list OrderItem);
  od_shippingAddress : jval;
  od_paymentMethod : jval;
  od_taxPrice : Z;
  od_shippingPrice : Z;
  od_totalPrice : Z
}.

Definition set_stock (v : Z) (m : Medicine) : Medicine :=
  mkMedicine (m_name m) (m_description m) (m_price m) v (m_category m)
    (m_imageUrl m) (m_manufacturer m) (m_expirationDate m) (m_createdAt m) (m_user m).

(** [Medicine.findById(id)] *)
Definition Medicine_findById (id : string) : Eff DB (option Medicine) :=
  gets (fun db => medicines db !! id).

(** [medicine.save()] after [stock] was assigned: the validators of the
    schema run on the document as it was loaded and modified, every path of
    it, and then it is written back under its id. *)
Definition Medicine_save (id : string) (m : Medicine) : Eff DB unit :=
  if MedicineService.medicineValid m then modify (set_medicines (insert id m))
  else throw (ValidationError "Medicine validation failed").

(** The document [Order.create] builds from the fields [createOrder] passes,
    with the schema defaults. *)
Definition newOrder (d : OrderData) (items : list OrderItem) (userId : string) : Order :=
  mkOrder userId items (od_shippingAddress d) (od_paymentMethod d)
    (od_taxPrice d) (od_shippingPrice d) (od_totalPrice d)
    false None None false None "pending".

Definition markPaid (now : Z) (paymentResultData : jval) (o : Order) : Order :=
  mkOrder (o_user o) (o_orderItems o) (o_shippingAddress o) (o_paymentMethod o)
    (o_taxPrice o) (o_shippingPrice o) (o_totalPrice o)
    true (Some now) (Some paymentResultData)
    (o_isDelivered o) (o_deliveredAt o) (o_orderStatus o).

Definition markDelivered (now : Z) (o : Order) : Order :=
  mkOrder (o_user o) (o_orderItems o) (o_shippingAddress o) (o_paymentMethod o)
    (o_taxPrice o) (o_shippingPrice o) (o_totalPrice o)
    (o_isPaid o) (o_paidAt o) (o_paymentResult o)
    true (Some now) "delivered".

Definition set_orderStatus (v : string) (o : Order) : Order :=
  mkOrder (o_user o) (o_orderItems o) (o_shippingAddress o) (o_paymentMethod o)
    (o_taxPrice o) (o_shippingPrice o) (o_totalPrice o)
    (o_isPaid o) (o_paidAt o) (o_paymentResult o)
    (o_isDelivered o) (o_deliveredAt o) v.

Section WithOrderSchema.

(** The validators of the Order schema (models/Order.js is not part of the
    source tree): whether Mongoose accepts a document on [create] or [save]. *)
Variable orderSchemaValid : Order -> bool.

(** [Order.create(doc)]; [newId] is the ObjectId the driver generates. *)
Definition Order_create (newId : string) (o : Order) : Eff DB Order :=
  if orderSchemaValid o then
    existing ← gets (fun db => orders db !! newId);
    match existing with
    | Some _ => throw (MongoServerError "E11000 duplicate key error")
    | None => _ ← modify (set_orders (insert newId o)); mret o
    end
  else throw (ValidationError "Order validation failed").

(** [order.save()] *)
Definition Order_save (id : string) (o : Order) : Eff DB Order :=
  if orderSchemaValid o then
    _ ← modify (set_orders (insert id o)); mret o
  else throw (ValidationError "Order validation failed").

(** The body of the [for (const item of orderItems)] loop. *)
Definition reserveItem (item : OrderItem) : Eff DB unit :=
  medicine ← Medicine_findById (oi_medicine item);
  match medicine with
  | None => throw (ErrorResponse ("Medicine not found: " +:+ oi_name item) 404)
  | Some medicine =>
      if m_stock medicine <? oi_quantity item then
        throw (ErrorResponse ("Not enough stock for " +:+ oi_name item +:+
                              ". Available: " +:+ pretty (m_stock medicine)) 400)
      else
        Medicine_save (oi_medicine item)
          (set_stock (m_stock medicine - oi_quantity item) medicine)
  end.

(** [OrderService.createOrder(orderData, userId)] *)
Definition createOrder (orderData : OrderData) (userId : string) (newId : string)
  : Eff DB Order :=
  match od_orderItems orderData with
  | None | Some [] => throw (ErrorResponse "No order items" 400)
  | Some orderItems =>
      _ ← forEach orderItems reserveItem;
      Order_create newId (newOrder orderData orderItems userId)
  end.

(** [OrderService.updateOrderToPaid(id, paymentResultData, authUser)];
    [now] is [Date.now()]. *)
Definition updateOrderToPaid (id : string) (paymentResultData : jval)
    (authUser : AuthUser) (now : Z) : Eff DB Order :=
  order ← gets (fun db => orders db !! id);
  match order with
  | None => throw (ErrorResponse "Order not found" 404)
  | Some order =>
      if o_isPaid order then throw (ErrorResponse "Order is already paid" 400)
      else if negb (String.eqb (au_role authUser) "admin") then
        throw (ErrorResponse "Not authorized to mark order as paid" 403)
      else Order_save id (markPaid now paymentResultData order)
  end.

(** [OrderService.updateOrderToDelivered(id, authUser)]; [now] is
    [Date.now()]. *)
Definition updateOrderToDelivered (id : string) (authUser : AuthUser) (now : Z)
  : Eff DB Order :=
  order ← gets (fun db => orders db !! id);
  match order with
  | None => throw (ErrorResponse "Order not found" 404)
  | Some order =>
      if o_isDelivered order then throw (ErrorResponse "Order is already delivered" 400)
      else if negb (String.eqb (au_role authUser) "admin") then
        throw (ErrorResponse "Not authorized to mark order as delivered" 403)
      else Order_save id (markDelivered now order)
  end.

(** [OrderService.updateOrderStatus(id, newStatus, authUser)], for a request
    whose [orderStatus] is a string. *)
Definition updateOrderStatus (id : string) (newStatus : string) (authUser : AuthUser)
  : Eff DB Order :=
  order ← gets (fun db => orders db !! id);
  match order with
  | None => throw (ErrorResponse "Order not found" 404)
  | Some order =>
      if String.eqb (au_role authUser) "admin" then
        Order_save id (set_orderStatus newStatus order)
      else if String.eqb (o_user order) (au_id authUser)
              && String.eqb newStatus "cancelled" then
        Order_save id (set_orderStatus "cancelled" order)
      else throw (ErrorResponse "Not authorized to update this order status" 403)
  end.

End WithOrderSchema.

(** [OrderService.deleteOrder(id, authUser)] *)
Definition deleteOrder (id : string) (authUser : AuthUser) : Eff DB unit :=
  order ← gets (fun db => orders db !! id);
  match order with
  | None => throw (ErrorResponse ("Order not found with id of " +:+ id) 404)
  | Some _ =>
      if negb (String.eqb (au_role authUser) "admin") then
        throw (ErrorResponse ("User " +:+ au_id authUser +:+
                              " is not authorized to delete this order") 401)
      else modify (set_orders (delete id))
  end.

(** An order after the two [populate] calls of [getOrder]: [user] replaced by
    the name and email of the referenced user, and the [medicine] of each line
    item by the name, price and images of the referenced medicine; a
    reference to a document that no longer exists is populated with [null]
    ([None]). *)
Record OrderView := mkOrderView {
  ov_order : Order;
  ov_user : option (string * string);
  ov_medicines : list (option (string * Z * list string))
}.

Definition populateOrder (db : DB) (o : Order) : OrderView :=
  mkOrderView o
    ((fun u => (u_name u, u_email u)) <$> users db !! o_user o)
    (map (fun item => (fun m => (m_name m, m_price m, m_imageUrl m))
                        <$> medicines db !! oi_medicine item)
       (o_orderItems o)).

(** [OrderService.getOrder(id, authUser)]; the debugging block reads
    [order.user._id] before the authorization test, which throws when the
    populated user is [null]. *)
Definition getOrder (id : string) (authUser : AuthUser) : Eff DB OrderView :=
  order ← gets (fun db => populateOrder db <$> orders db !! id);
  match order with
  | None => throw (ErrorResponse ("Order not found with id of " +:+ id) 404)
  | Some order =>
      match ov_user order with
      | None => throw (TypeError "Cannot read properties of null (reading '_id')")
      | Some _ =>
          let isOwner := String.eqb (o_user (ov_order order)) (au_id authUser) in
          let isAdmin := String.eqb (au_role authUser) "admin" in
          if negb isOwner && negb isAdmin then
            throw (ErrorResponse ("User " +:+ au_id authUser +:+
                                  " is not authorized to view this order") 401)
          else mret order
      end
  end.

(** The total quantity the line items [items] ask of the medicine [id]. *)
Definition ordered (id : string) (items : list OrderItem) : Z :=
  foldr (fun item acc => (if String.eqb (oi_medicine item) id then oi_quantity item else 0)
                         + acc) 0 items.

(** [db'] is [db] after the stock of every medicine went down by what
    [items] ask of it; nothing else differs. *)
Definition reserved (items : list OrderItem) (db db' : DB) : Prop :=
  users db' = users db /\ doctors db' = doctors db /\ labs db' = labs db /\
  appointments db' = appointments db /\ orders db' = orders db /\
  forall id, medicines db' !! id
             = (fun m => set_stock (m_stock m - ordered id items) m) <$> medicines db !! id.

(** No medicine has a negative stock. *)
Definition stockNonNegative (db : DB) : Prop :=
  forall id m, medicines db !! id = Some m -> 0 <= m_stock m.

Section WithDocuments.

Variable regex_test : string -> string -> string -> bool.
Variable castCompare : string -> jval -> jval -> option comparison.

(** The object a stored order serialises to (models/Order.js is not part of
    the source tree). *)
Variable Order_toObject : string -> Order -> Mongoose.Doc.

(** What Mongoose returns for a selected order: the projection the query
    asks for, with the paths [user] and [orderItems.medicine] populated from
    the database. *)
Variable populated : DB -> option string -> Mongoose.Doc -> Mongoose.Doc.

(** The documents of the orders collection. *)
Definition Order_collection (db : DB) : list Mongoose.Doc :=
  map (fun kv => Order_toObject (fst kv) (snd kv)) (map_to_list (orders db)).

(** [OrderService.getOrders(queryParams, authUser)] *)
Definition getOrders (queryParams : list (string * jval)) (authUser : AuthUser)
  : Eff DB MedicineService.Listing :=
  fun db =>
    let list (query : Mongoose.Query) :=
      match MedicineService.listFeatures query queryParams with
      | Err e => (Err e, db)
      | Ok features =>
          match Mongoose.exec_populate regex_test castCompare (populated db) (Order_collection db)
                  (APIFeatures.query features) with
          | Err e => (Err e, db)
          | Ok orders => (Ok (MedicineService.mkListing (length orders) orders), db)
          end
      end in
    if String.eqb (au_role authUser) "user" then
      list (Mongoose.Query_find [("user", JStr (au_id authUser))] Mongoose.Model_find)
    else if String.eqb (au_role authUser) "admin" then list Mongoose.Model_find
    else
      (Err (ErrorResponse ("User role " +:+ au_role authUser +:+
                           " is not authorized to view orders") 403), db).

End WithDocuments.

End OrderService.

(** ** services/appointmentService.js *)

Module AppointmentService.

(** The body of [POST /appointments], field by field; [None] is a field the
    body does not carry. *)
Record AppointmentData := mkAppointmentData {
  ad_user : option string;
  ad_doctor : option string;
  ad_lab : option string;
  ad_appointmentDate : option Z;
  ad_appointmentTime : option string;
  ad_type : option string;
  ad_status : option string;
  ad_reason : option string;
  ad_createdAt : option Z;
  ad_location : option ApptLocation
}.

Definition set_user (v : string) (d : AppointmentData) : AppointmentData :=
  mkAppointmentData (Some v) (ad_doctor d) (ad_lab d) (ad_appointmentDate d)
    (ad_appointmentTime d) (ad_type d) (ad_status d) (ad_reason d)
    (ad_createdAt d) (ad_location d).
Definition set_type (v : string) (d : AppointmentData) : AppointmentData :=
  mkAppointmentData (ad_user d) (ad_doctor d) (ad_lab d) (ad_appointmentDate d)
    (ad_appointmentTime d) (Some v) (ad_status d) (ad_reason d)
    (ad_createdAt d) (ad_location d).
Definition set_location (v : ApptLocation) (d : AppointmentData) : AppointmentData :=
  mkAppointmentData (ad_user d) (ad_doctor d) (ad_lab d) (ad_appointmentDate d)
    (ad_appointmentTime d) (ad_type d) (ad_status d) (ad_reason d)
    (ad_createdAt d) (Some v).

Definition typeEnum : list string := ["online"; "offline"; "lab"].
Definition statusEnum : list string := ["pending"; "confirmed"; "cancelled"; "completed"].
Definition defaultLocation : ApptLocation := mkApptLocation "Point" [0%Q; 0%Q] "N/A".

Definition within (max : nat) (s : string) : bool := (JS.length s <=? max)%nat.

(** An ObjectId path: [undefined] and [null] are stored as [null]; the
    empty string is no ObjectId, and Mongoose refuses the document with a cast
    error.  (Every other string of the embedding stands for an ObjectId.) *)
Definition castable (x : option string) : bool := negb (bool_decide (x = Some "")).

(** The value of an ObjectId path of a document that was cast: the id, or
    nothing (the empty string does not get this far). *)
Definition castId (x : option string) : option string :=
  if truthy x then x else None.

(** The type of the document under construction (schema default 'offline'). *)
Definition docType (d : AppointmentData) : string := default "offline" (ad_type d).

(** The validators that tie the type to the references: the casts of
    [doctor] and [lab], the enum of [type], [doctor] required unless the type
    is 'lab', [lab] required when it is. *)
Definition validRefs (d : AppointmentData) : bool :=
  castable (ad_doctor d) && castable (ad_lab d)
  && existsb (String.eqb (docType d)) typeEnum
  && (String.eqb (docType d) "lab" || truthy (ad_doctor d))
  && (negb (String.eqb (docType d) "lab") || truthy (ad_lab d)).

(** The other validators of the schema: [user], [appointmentDate] and
    [appointmentTime] required, the enum of [status], the length bounds of
    [reason] and [location.address], the enum of [location.type]. *)
Definition validRest (d : AppointmentData) : bool :=
  truthy (ad_user d)
  && bool_decide (is_Some (ad_appointmentDate d))
  && truthy (ad_appointmentTime d)
  && existsb (String.eqb (default "pending" (ad_status d))) statusEnum
  && from_option (within 500) true (ad_reason d)
  && within 200 (al_address (default defaultLocation (ad_location d)))
  && String.eqb (al_type (default defaultLocation (ad_location d))) "Point".

(** The document Mongoose builds: casts and schema defaults. *)
Definition toDocument (now : Z) (d : AppointmentData) : Appointment :=
  mkAppointment
    (default "" (ad_user d))
    (castId (ad_doctor d))
    (default 0 (ad_appointmentDate d))
    (default "" (ad_appointmentTime d))
    (docType d)
    (default "pending" (ad_status d))
    (ad_reason d)
    (castId (ad_lab d))
    (default now (ad_createdAt d))
    (default defaultLocation (ad_location d)).

(** The key of the unique index
    [{ user: 1, doctor: 1, appointmentDate: 1, appointmentTime: 1 }]. *)
Definition indexKey (a : Appointment) : string * option string * Z * string :=
  (a_user a, a_doctor a, a_appointmentDate a, a_appointmentTime a).

(** Whether a stored appointment other than [id] has the index key of [a]. *)
Definition keyTaken (id : string) (a : Appointment) (db : DB) : bool :=
  existsb (fun kv => negb (String.eqb (fst kv) id)
                     && bool_decide (indexKey (snd kv) = indexKey a))
    (map_to_list (appointments db)).

(** [Appointment.create(appointmentData)]; [newId] is the generated ObjectId
    and [now] the clock read by the [createdAt] default. *)
Definition Appointment_create (newId : string) (now : Z) (d : AppointmentData)
  : Eff DB Appointment :=
  if validRefs d && validRest d then
    taken ← gets (fun db => keyTaken newId (toDocument now d) db
                            || bool_decide (is_Some (appointments db !! newId)));
    match taken with
    | true => throw (MongoServerError "E11000 duplicate key error")
    | false =>
        _ ← modify (set_appointments (insert newId (toDocument now d)));
        mret (toDocument now d)
    end
  else throw (ValidationError "Appointment validation failed").

(** The location snapshot taken from a doctor or a lab: coordinates and
    address, when both are present. *)
Definition snapshot (location : option GeoPoint) (address : option string)
    (d : AppointmentData) : AppointmentData :=
  match location with
  | Some (mkGeoPoint (Some coordinates)) =>
      if truthy address then
        set_location (mkApptLocation "Point" coordinates (default "" address)) d
      else d
  | _ => d
  end.

(** [AppointmentService.createAppointment(appointmentData, userId)] *)
Definition createAppointment (appointmentData : AppointmentData) (userId : string)
    (newId : string) (now : Z) : Eff DB Appointment :=
  let appointmentData := set_user userId appointmentData in
  if truthy (ad_doctor appointmentData) && truthy (ad_lab appointmentData) then
    throw (ErrorResponse
             "An appointment cannot be associated with both a doctor and a lab." 400)
  else if negb (truthy (ad_doctor appointmentData))
          && negb (truthy (ad_lab appointmentData)) then
    throw (ErrorResponse
             "An appointment must be associated with either a doctor or a lab." 400)
  else if truthy (ad_doctor appointmentData) then
    let appointmentData :=
      set_type (or_else (ad_type appointmentData) "offline") appointmentData in
    doctor ← gets (fun db => doctors db !! default "" (ad_doctor appointmentData));
    match doctor with
    | None =>
        throw (ErrorResponse ("Doctor not found with id " +:+
                              default "" (ad_doctor appointmentData)) 404)
    | Some doctor =>
        Appointment_create newId now
          (snapshot (d_location doctor) (d_clinicAddress doctor) appointmentData)
    end
  else
    let appointmentData := set_type "lab" appointmentData in
    lab ← gets (fun db => labs db !! default "" (ad_lab appointmentData));
    match lab with
    | None =>
        throw (ErrorResponse ("Lab not found with id " +:+
                              default "" (ad_lab appointmentData)) 404)
    | Some lab =>
        Appointment_create newId now
          (snapshot (l_location lab) (l_address lab) appointmentData)
    end.

(** The body of [PUT /appointments/:id], field by field. *)
Record AppointmentUpdate := mkAppointmentUpdate {
  up_user : option string;
  up_doctor : option string;
  up_lab : option string;
  up_appointmentDate : option Z;
  up_appointmentTime : option string;
  up_type : option string;
  up_status : option string;
  up_reason : option string;
  up_createdAt : option Z;
  up_location : option ApptLocation
}.

(** The update [{ status, reason }] a doctor's request is reduced to and the
    update [{ status: 'cancelled' }] of a user's request. *)
Definition statusAndReason (status reason : option string) : AppointmentUpdate :=
  mkAppointmentUpdate None None None None None None status reason None None.

(** The casts and the validators of the paths an update sets
    ([runValidators: true]); the empty string is no ObjectId. *)
Definition updateValid (u : AppointmentUpdate) : bool :=
  from_option (fun s => negb (String.eqb s "")) true (up_user u)
  && from_option (fun s => negb (String.eqb s "")) true (up_doctor u)
  && from_option (fun s => negb (String.eqb s "")) true (up_lab u)
  && from_option (fun s => negb (String.eqb s "")) true (up_appointmentTime u)
  && from_option (fun t => existsb (String.eqb t) typeEnum) true (up_type u)
  && from_option (fun s => existsb (String.eqb s) statusEnum) true (up_status u)
  && from_option (within 500) true (up_reason u)
  && from_option (fun l => within 200 (al_address l) && String.eqb (al_type l) "Point")
       true (up_location u).

(** [$set] of the fields the update carries; a field that is absent or
    [undefined] in the update is left as it is. *)
Definition applyUpdate (u : AppointmentUpdate) (a : Appointment) : Appointment :=
  mkAppointment
    (default (a_user a) (up_user u))
    (match up_doctor u with Some x => Some x | None => a_doctor a end)
    (default (a_appointmentDate a) (up_appointmentDate u))
    (default (a_appointmentTime a) (up_appointmentTime u))
    (default (a_type a) (up_type u))
    (default (a_status a) (up_status u))
    (match up_reason u with Some x => Some x | None => a_reason a end)
    (match up_lab u with Some x => castId (Some x) | None => a_lab a end)
    (default (a_createdAt a) (up_createdAt u))
    (default (a_location a) (up_location u)).

(** [Appointment.findByIdAndUpdate(id, update, {new: true, runValidators: true})] *)
Definition Appointment_findByIdAndUpdate (id : string) (u : AppointmentUpdate)
  : Eff DB (option Appointment) :=
  if updateValid u then
    found ← gets (fun db => appointments db !! id);
    match found with
    | None => mret None
    | Some a =>
        taken ← gets (fun db =>
                        negb (bool_decide (indexKey (applyUpdate u a) = indexKey a))
                        && keyTaken id (applyUpdate u a) db);
        match taken with
        | true => throw (MongoServerError "E11000 duplicate key error")
        | false =>
            _ ← modify (set_appointments (insert id (applyUpdate u a)));
            mret (Some (applyUpdate u a))
        end
    end
  else throw (ValidationError "Validation failed").

(** [Doctor.findOne({ user: userId })]: the id and the profile. *)
Definition Doctor_findOne_byUser (userId : string) (db : DB) : option (string * Doctor) :=
  List.find (fun kv => String.eqb (d_user (snd kv)) userId) (map_to_list (doctors db)).

(** [AppointmentService.updateAppointment(id, updateData, authUser)] *)
Definition updateAppointment (id : string) (updateData : AppointmentUpdate)
    (authUser : AuthUser) : Eff DB (option Appointment) :=
  appointment ← gets (fun db => appointments db !! id);
  match appointment with
  | None => throw (ErrorResponse ("Appointment not found with id of " +:+ id) 404)
  | Some appointment =>
      if String.eqb (au_role authUser) "admin" then
        Appointment_findByIdAndUpdate id updateData
      else if String.eqb (au_role authUser) "doctor" then
        doctorProfile ← gets (Doctor_findOne_byUser (au_id authUser));
        match doctorProfile with
        | Some (doctorId, _) =>
            if negb (bool_decide (a_doctor appointment = Some doctorId)) then
              throw (ErrorResponse ("Doctor " +:+ au_id authUser +:+
                                    " is not authorized to update this appointment") 401)
            else
              Appointment_findByIdAndUpdate id
                (statusAndReason (up_status updateData) (up_reason updateData))
        | None =>
            throw (ErrorResponse ("Doctor " +:+ au_id authUser +:+
                                  " is not authorized to update this appointment") 401)
        end
      else if String.eqb (au_role authUser) "user" then
        if negb (String.eqb (a_user appointment) (au_id authUser))
           || negb (bool_decide (up_status updateData = Some "cancelled"))
        then
          throw (ErrorResponse
                   ("User " +:+ au_id authUser +:+
                    " is not authorized to update this appointment or perform this action")
                   401)
        else
          Appointment_findByIdAndUpdate id (statusAndReason (Some "cancelled") None)
      else
        throw (ErrorResponse ("User role " +:+ au_role authUser +:+
                              " is not authorized to update appointments") 403)
  end.

(** [AppointmentService.deleteAppointment(id, authUser)] *)
Definition deleteAppointment (id : string) (authUser : AuthUser) : Eff DB unit :=
  appointment ← gets (fun db => appointments db !! id);
  match appointment with
  | None => throw (ErrorResponse ("Appointment not found with id of " +:+ id) 404)
  | Some _ =>
      if negb (String.eqb (au_role authUser) "admin") then
        throw (ErrorResponse ("User " +:+ au_id authUser +:+
                              " is not authorized to delete this appointment") 401)
      else modify (set_appointments (delete id))
  end.

(** An appointment after the three [populate] calls of [getAppointment]:
    [user] replaced by the name and email of the referenced user, [doctor] by
    the doctor profile and [lab] by the name, address and location of the
    lab; a reference that is [null], or whose document no longer exists, is
    populated with [null] ([None]). *)
Record AppointmentView := mkAppointmentView {
  av_appointment : Appointment;
  av_user : option (string * string);
  av_doctor : option Doctor;
  av_lab : option (string * option string * option GeoPoint)
}.

Definition populateAppointment (db : DB) (a : Appointment) : AppointmentView :=
  mkAppointmentView a
    ((fun u => (u_name u, u_email u)) <$> users db !! a_user a)
    (a_doctor a ≫= fun doctorId => doctors db !! doctorId)
    ((fun l => (l_name l, l_address l, l_location l))
       <$> (a_lab a ≫= fun labId => labs db !! labId)).

(** [AppointmentService.getAppointment(id, authUser)]; the debugging block
    reads [appointmentUserIdStr.length], where [appointmentUserIdStr] is
    [appointment.user?._id.toString()]: [undefined] when the populated user is
    [null]. *)
Definition getAppointment (id : string) (authUser : AuthUser)
  : Eff DB AppointmentView :=
  appointment ← gets (fun db => populateAppointment db <$> appointments db !! id);
  match appointment with
  | None => throw (ErrorResponse ("Appointment not found with id of " +:+ id) 404)
  | Some appointment =>
      match av_user appointment with
      | None =>
          throw (TypeError "Cannot read properties of undefined (reading 'length')")
      | Some _ =>
          let isOwner :=
            String.eqb (a_user (av_appointment appointment)) (au_id authUser) in
          let isAssignedDoctor :=
            String.eqb (au_role authUser) "doctor"
            && match av_doctor appointment with
               | Some doctor => String.eqb (d_user doctor) (au_id authUser)
               | None => false
               end in
          let isAdminOrLabStaff :=
            String.eqb (au_role authUser) "admin"
            || String.eqb (au_role authUser) "lab_staff" in
          if negb isOwner && negb isAssignedDoctor && negb isAdminOrLabStaff then
            throw (ErrorResponse ("User " +:+ au_id authUser +:+
                                  " is not authorized to view this appointment") 401)
          else mret appointment
      end
  end.

(** The appointment data [createAppointment] hands to [Appointment.create]
    when a doctor, respectively a lab, is referenced. *)
Definition doctorBooking (data : AppointmentData) (userId : string) (doctor : Doctor)
  : AppointmentData :=
  snapshot (d_location doctor) (d_clinicAddress doctor)
    (set_type (or_else (ad_type data) "offline") (set_user userId data)).

Definition labBooking (data : AppointmentData) (userId : string) (lab : Lab)
  : AppointmentData :=
  snapshot (l_location lab) (l_address lab) (set_type "lab" (set_user userId data)).

(** Two appointments that agree on every field but [status] and [reason]. *)
Definition sameExceptStatusReason (a a' : Appointment) : Prop :=
  a_user a' = a_user a /\ a_doctor a' = a_doctor a /\
  a_appointmentDate a' = a_appointmentDate a /\
  a_appointmentTime a' = a_appointmentTime a /\
  a_type a' = a_type a /\ a_lab a' = a_lab a /\
  a_createdAt a' = a_createdAt a /\ a_location a' = a_location a.

(** The stored appointment [a] with its status forced to 'cancelled'. *)
Definition cancelled (a : Appointment) : Appointment :=
  mkAppointment (a_user a) (a_doctor a) (a_appointmentDate a) (a_appointmentTime a)
    (a_type a) "cancelled" (a_reason a) (a_lab a) (a_createdAt a) (a_location a).

Section WithDocuments.

Variable regex_test : string -> string -> string -> bool.
Variable castCompare : string -> jval -> jval -> option comparison.

(** The object a stored appointment serialises to (its coordinates are no
    integers, so the documents are not built here). *)
Variable Appointment_toObject : string -> Appointment -> Mongoose.Doc.

(** What Mongoose returns for a selected appointment: the projection the
    query asks for, with the paths [user], [doctor] and [lab] populated from
    the database. *)
Variable populated : DB -> option string -> Mongoose.Doc -> Mongoose.Doc.

(** The documents of the appointments collection. *)
Definition Appointment_collection (db : DB) : list Mongoose.Doc :=
  map (fun kv => Appointment_toObject (fst kv) (snd kv)) (map_to_list (appointments db)).

(** [AppointmentService.getAppointments(queryParams, authUser)] *)
Definition getAppointments (queryParams : list (string * jval)) (authUser : AuthUser)
  : Eff DB MedicineService.Listing :=
  fun db =>
    let list (query : Mongoose.Query) :=
      match MedicineService.listFeatures query queryParams with
      | Err e => (Err e, db)
      | Ok features =>
          match Mongoose.exec_populate regex_test castCompare (populated db)
                  (Appointment_collection db) (APIFeatures.query features) with
          | Err e => (Err e, db)
          | Ok appointments =>
              (Ok (MedicineService.mkListing (length appointments) appointments), db)
          end
      end in
    if String.eqb (au_role authUser) "user" then
      list (Mongoose.Query_find [("user", JStr (au_id authUser))] Mongoose.Model_find)
    else if String.eqb (au_role authUser) "doctor" then
      match Doctor_findOne_byUser (au_id authUser) db with
      | None => (Err (ErrorResponse "Doctor profile not found for this user" 404), db)
      | Some (doctorId, _) =>
          list (Mongoose.Query_find [("doctor", JStr doctorId)] Mongoose.Model_find)
      end
    else list Mongoose.Model_find.

End WithDocuments.

End AppointmentService.

(** ** Node's [crypto] module, as far as the reset token uses it *)

Module Crypto.

(** Two lower-case hexadecimal digits of a byte. *)
Definition hex_byte (b : Z) : string :=
  String (JSON.hex_digit (Z.to_N ((b / 16) mod 16)))
    (String (JSON.hex_digit (Z.to_N (b mod 16))) "").

(** [buffer.toString('hex')] *)
Fixpoint toHex (bytes : list Z) : string :=
  match bytes with
  | [] => ""
  | b :: r => hex_byte b +:+ toHex r
  end.

(** The bytes of a string. *)
Fixpoint bytes_of (s : string) : list Z :=
  match s with
  | EmptyString => []
  | String c r => Z.of_N (N_of_ascii c) :: bytes_of r
  end.

(** *** SHA-256 (FIPS 180-4) on 32-bit words *)

Definition w32 (x : Z) : Z := x mod 2 ^ 32.
Definition rotr (n x : Z) : Z := Z.lor (Z.shiftr x n) (w32 (Z.shiftl x (32 - n))).
Definition xor3 (a b c : Z) : Z := Z.lxor (Z.lxor a b) c.

Definition sigma0 (x : Z) : Z := xor3 (rotr 7 x) (rotr 18 x) (Z.shiftr x 3).
Definition sigma1 (x : Z) : Z := xor3 (rotr 17 x) (rotr 19 x) (Z.shiftr x 10).
Definition Sigma0 (x : Z) : Z := xor3 (rotr 2 x) (rotr 13 x) (rotr 22 x).
Definition Sigma1 (x : Z) : Z := xor3 (rotr 6 x) (rotr 11 x) (rotr 25 x).
Definition Ch (x y z : Z) : Z :=
  Z.lxor (Z.land x y) (Z.land (Z.lxor x (2 ^ 32 - 1)) z).
Definition Maj (x y z : Z) : Z :=
  xor3 (Z.land x y) (Z.land x z) (Z.land y z).

(** The primes below [bound], by trial division. *)
Definition is_prime (n : Z) : bool :=
  (2 <=? n) && forallb (fun d => negb (n mod d =? 0)) (seqZ 2 (n - 2)).
Definition primes_below (bound : Z) : list Z :=
  List.filter is_prime (seqZ 2 (bound - 2)).

(** The integer cube root of [n] below [2 ^ bits], bit by bit. *)
Fixpoint cube_root (bits : nat) (n : Z) (r : Z) : Z :=
  match bits with
  | O => r
  | S bits' =>
      let r' := r + 2 ^ Z.of_nat bits' in
      cube_root bits' n (if r' * r' * r' <=? n then r' else r)
  end.

(** The round constants: the first 32 bits of the fractional parts of the
    cube roots of the first 64 primes. *)
Definition K : list Z :=
  map (fun p => w32 (cube_root 40 (p * 2 ^ 96) 0)) (primes_below 312).

(** The eight working variables, also the intermediate hash value. *)
Record state := mkState {
  h0 : Z; h1 : Z; h2 : Z; h3 : Z; h4 : Z; h5 : Z; h6 : Z; h7 : Z
}.

(** The initial hash value: the first 32 bits of the fractional parts of the
    square roots of the first 8 primes. *)
Definition frac_sqrt (p : Z) : Z := w32 (Z.sqrt (p * 2 ^ 64)).
Definition initial : state :=
  mkState (frac_sqrt 2) (frac_sqrt 3) (frac_sqrt 5) (frac_sqrt 7)
          (frac_sqrt 11) (frac_sqrt 13) (frac_sqrt 17) (frac_sqrt 19).

(** The padded message: the bytes, [0x80], zeros up to 56 modulo 64, and
    the bit length as a 64-bit big-endian number. *)
Definition pad (msg : list Z) : list Z :=
  let len := Z.of_nat (length msg) in
  let zeros := Z.to_nat ((55 - len) mod 64) in
  (msg ++ [0x80] ++ repeat 0 zeros ++
   map (fun i => (len * 8 / 2 ^ (8 * i)) mod 256) [7; 6; 5; 4; 3; 2; 1; 0])%list.

(** Big-endian words of a byte sequence. *)
Fixpoint words (bytes : list Z) : list Z :=
  match bytes with
  | a :: b :: c :: d :: r => ((a * 256 + b) * 256 + c) * 256 + d :: words r
  | _ => []
  end.

(** The message schedule: [n] more words after the words [w]. *)
Fixpoint extend (n : nat) (w : list Z) : list Z :=
  match n with
  | O => w
  | S n' =>
      let at_ (k : nat) := nth (length w - k) w 0 in
      extend n' (w ++ [w32 (sigma1 (at_ 2%nat) + at_ 7%nat
                            + sigma0 (at_ 15%nat) + at_ 16%nat)])%list
  end.

Definition round (s : state) (kw : Z * Z) : state :=
  let t1 := h7 s + Sigma1 (h4 s) + Ch (h4 s) (h5 s) (h6 s) + fst kw + snd kw in
  let t2 := Sigma0 (h0 s) + Maj (h0 s) (h1 s) (h2 s) in
  mkState (w32 (t1 + t2)) (h0 s) (h1 s) (h2 s) (w32 (h3 s + t1)) (h4 s) (h5 s) (h6 s).

Definition compress (s : state) (block : list Z) : state :=
  let t := fold_left round (combine K (extend 48 block)) s in
  mkState (w32 (h0 s + h0 t)) (w32 (h1 s + h1 t)) (w32 (h2 s + h2 t))
          (w32 (h3 s + h3 t)) (w32 (h4 s + h4 t)) (w32 (h5 s + h5 t))
          (w32 (h6 s + h6 t)) (w32 (h7 s + h7 t)).

(** The blocks of sixteen words each. *)
Fixpoint blocks (fuel : nat) (ws : list Z) : list (list Z) :=
  match fuel, ws with
  | S fuel, _ :: _ => take 16 ws :: blocks fuel (drop 16 ws)
  | _, _ => []
  end.

Definition sha256 (msg : list Z) : state :=
  let ws := words (pad msg) in
  fold_left compress (blocks (length ws) ws) initial.

Definition hex32 (w : Z) : string :=
  hex_byte (w / 2 ^ 24) +:+ hex_byte (w / 2 ^ 16) +:+
  hex_byte (w / 2 ^ 8) +:+ hex_byte w.

(** [crypto.createHash('sha256').update(s).digest('hex')] *)
Definition sha256_hex (s : string) : string :=
  let d := sha256 (bytes_of s) in
  hex32 (h0 d) +:+ hex32 (h1 d) +:+ hex32 (h2 d) +:+ hex32 (h3 d) +:+
  hex32 (h4 d) +:+ hex32 (h5 d) +:+ hex32 (h6 d) +:+ hex32 (h7 d).

End Crypto.

(** ** models/User.js (reset token) and controllers/authController.js *)

Module AuthController.

Definition set_reset (token : option string) (expire : option Z) (u : User) : User :=
  mkUser (u_name u) (u_email u) (u_password u) (u_role u) (u_phone u) (u_address u)
    token expire.

Definition set_password (password : string) (u : User) : User :=
  mkUser (u_name u) (u_email u) password (u_role u) (u_phone u) (u_address u)
    (u_resetPasswordToken u) (u_resetPasswordExpire u).

Definition roleEnum : list string := ["user"; "doctor"; "admin"; "lab_staff"].

Definition within (max : nat) (s : string) : bool := (JS.length s <=? max)%nat.

(** [typeof v] *)
Definition typeof (v : jval) : string :=
  match v with
  | JBool _ => "boolean"
  | JNum _ => "number"
  | JStr _ => "string"
  | JNull | JArr _ | JObj _ => "object"
  end.

(** [UserSchema.methods.getResetPasswordToken]; [randomBytes] is the result
    of [crypto.randomBytes(20)] and [now] of [Date.now()].  Returns the raw
    token and the document with the two reset fields assigned. *)
Definition getResetPasswordToken (randomBytes : list Z) (now : Z) (this : User)
  : string * User :=
  let resetToken := Crypto.toHex randomBytes in
  (resetToken,
   set_reset (Some (Crypto.sha256_hex resetToken)) (Some (now + 10 * 60 * 1000)) this).

(** The argument of [sendEmail]. *)
Record EmailOptions := mkEmail {
  e_email : string;
  e_subject : string;
  e_message : string
}.

(** What a controller answers: [res.status(s).json({ success, data })], the
    answer of [sendTokenResponse], or [next(err)]. *)
Inductive Response :=
| Json (status : Z) (success : bool) (data : string)
| TokenResponse (status : Z) (token : string) (userId : string)
| Next (e : error).

(** The state a controller acts on: the database and the mail handed to the
    transport. *)
Record World := mkWorld {
  w_db : DB;
  w_outbox : list EmailOptions
}.

(** [User.findOne(filter)]: the id and the document. *)
Definition User_findOne (p : User -> bool) (db : DB) : option (string * User) :=
  List.find (fun kv => p (snd kv)) (map_to_list (users db)).

Definition line_feed : string := String (ascii_of_N 10) "".

Section WithCollaborators.

(** The collaborators outside the repository: whether the mail transport
    accepts a message, bcrypt's salted hash, the signed JSON web token of a
    user id, [bcrypt.compare(entered, hash)] on two strings, and the regular
    expression of the [email] path of the User schema. *)
Variable transportOk : EmailOptions -> bool.
Variable bcryptHash : string -> string.
Variable signJwt : string -> string.
Variable bcryptCompare : string -> string -> bool.
Variable emailValid : string -> bool.

(** [User.findOne({ email: v })] for a truthy [v] that is not a string: what
    Mongoose's cast of the value, or of the query operators that an object
    carries, and the server make of it; an error when the cast fails. *)
Variable User_findOne_cast : jval -> DB -> result (option (string * User)).

(** The validators of the User schema on a document that was loaded, the
    password apart ([select: false]: it is validated when it is assigned). *)
Definition userValid (u : User) : bool :=
  negb (String.eqb (u_name u) "") && within 50 (u_name u)
  && negb (String.eqb (u_email u) "") && emailValid (u_email u)
  && existsb (String.eqb (u_role u)) roleEnum
  && from_option (within 20) true (u_phone u)
  && from_option (within 100) true (u_address u).

(** [forgotPassword]; [user.save({ validateBeforeSave: false })] writes the
    document back, and the pre-save hook of the schema leaves the password
    alone because it was not modified. *)
Definition forgotPassword (email protocol host : string)
    (randomBytes : list Z) (now : Z) (w : World) : Response * World :=
  match User_findOne (fun u => String.eqb (u_email u) email) (w_db w) with
  | None => (Json 200 true "Email sent", w)
  | Some (userId, user) =>
      let (resetToken, user) := getResetPasswordToken randomBytes now user in
      let db := set_users (insert userId user) (w_db w) in
      let resetUrl :=
        protocol +:+ "://" +:+ host +:+ "/api/v1/auth/resetpassword/" +:+ resetToken in
      let message :=
        "You are receiving this email because you (or someone else) has requested the reset of a password. Please make a PUT request to: "
        +:+ line_feed +:+ line_feed +:+ " " +:+ resetUrl in
      let options := mkEmail (u_email user) "Password Reset Token" message in
      if transportOk options then
        (Json 200 true "Email sent", mkWorld db (options :: w_outbox w))
      else
        let user := set_reset None None user in
        (Next (ErrorResponse "Email could not be sent" 500),
         mkWorld (set_users (insert userId user) db) (w_outbox w))
  end.

(** [sendTokenResponse(user, statusCode, res)] *)
Definition sendTokenResponse (userId : string) (statusCode : Z) : Response :=
  TokenResponse statusCode (signJwt userId) userId.

(** [resetPassword]; [user.save()] runs the validators on every path of the
    loaded document and on the new password (required, at least 6 UTF-16 code
    units), then the pre-save hook replaces the modified password by its
    bcrypt hash. *)
Definition resetPassword (resettoken : string) (password : option string)
    (now : Z) (w : World) : Response * World :=
  let resetPasswordToken := Crypto.sha256_hex resettoken in
  match User_findOne
          (fun u => bool_decide (u_resetPasswordToken u = Some resetPasswordToken)
                    && from_option (fun expire => now <? expire) false
                         (u_resetPasswordExpire u))
          (w_db w) with
  | None => (Next (ErrorResponse "Invalid or expired reset token" 400), w)
  | Some (userId, user) =>
      if from_option (fun p => (6 <=? JS.length p)%nat) false password
         && userValid user then
        let user :=
          set_reset None None (set_password (bcryptHash (default "" password)) user) in
        (sendTokenResponse userId 200,
         mkWorld (set_users (insert userId user) (w_db w)) (w_outbox w))
      else (Next (ValidationError "User validation failed"), w)
  end.

(** The body of [POST /auth/register], the six fields [register] reads;
    [None] is a field that is absent. *)
Record RegisterBody := mkRegisterBody {
  rb_name : option string;
  rb_email : option string;
  rb_password : option string;
  rb_role : option string;
  rb_phone : option string;
  rb_address : option string
}.

(** The validators of the User schema on a new document: [name] (trimmed),
    [email] and [password] required, the lengths, the pattern of [email], the
    enum of [role] (default 'user'). *)
Definition registerValid (b : RegisterBody) : bool :=
  negb (String.eqb (JS.trim (default "" (rb_name b))) "")
  && within 50 (JS.trim (default "" (rb_name b)))
  && from_option (fun e => negb (String.eqb e "") && emailValid e) false (rb_email b)
  && from_option (fun p => (6 <=? JS.length p)%nat) false (rb_password b)
  && existsb (String.eqb (default "user" (rb_role b))) roleEnum
  && from_option (within 20) true (rb_phone b)
  && from_option (within 100) true (rb_address b).

(** The user [User.create] stores (of the fields the record has): the name
    trimmed, the password replaced by its bcrypt hash in the pre-save hook. *)
Definition newUser (b : RegisterBody) : User :=
  mkUser (JS.trim (default "" (rb_name b))) (default "" (rb_email b))
    (bcryptHash (default "" (rb_password b))) (default "user" (rb_role b))
    (rb_phone b) (rb_address b) None None.

(** [register]; [newId] is the generated ObjectId.  The unique index of
    [email] is checked by the server after validation. *)
Definition register (body : RegisterBody) (newId : string) (w : World)
  : Response * World :=
  if registerValid body then
    if bool_decide (is_Some (User_findOne
                               (fun u => String.eqb (u_email u) (default "" (rb_email body)))
                               (w_db w)))
       || bool_decide (is_Some (users (w_db w) !! newId))
    then (Next (MongoServerError "E11000 duplicate key error"), w)
    else (sendTokenResponse newId 200,
          mkWorld (set_users (insert newId (newUser body)) (w_db w)) (w_outbox w))
  else (Next (ValidationError "User validation failed"), w).

(** [login]; [email] and [password] are whatever the JSON body carries.
    [bcrypt.compare] of bcryptjs rejects with a plain [Error] when the entered
    password is no string. *)
Definition login (email password : option jval) (w : World) : Response * World :=
  if negb (from_option js_truthy false email)
     || negb (from_option js_truthy false password) then
    (Next (ErrorResponse "Please provide an email and password" 400), w)
  else
    let found :=
      match email with
      | Some (JStr email) =>
          Ok (User_findOne (fun u => String.eqb (u_email u) email) (w_db w))
      | Some v => User_findOne_cast v (w_db w)
      | None => Ok None
      end in
    match found with
    | Err e => (Next e, w)
    | Ok None => (Next (ErrorResponse "Invalid credentials" 401), w)
    | Ok (Some (userId, user)) =>
        match password with
        | Some (JStr password) =>
            if bcryptCompare password (u_password user) then
              (sendTokenResponse userId 200, w)
            else (Next (ErrorResponse "Invalid credentials" 401), w)
        | Some v =>
            (Next (JsError ("Illegal arguments: " +:+ typeof v +:+ ", string")), w)
        | None => (Next (JsError "Illegal arguments: undefined, string"), w)
        end
    end.

End WithCollaborators.

End AuthController.

(** ** services/userService.js *)

Module UserService.

(** [UserService.getMe(userId)]: the user without the password
    ([select('-password')]). *)
Definition getMe (userId : string)
  : Eff DB (string * string * string * option string * option Z) :=
  user ← gets (fun db => users db !! userId);
  match user with
  | None => throw (ErrorResponse "User not found" 404)
  | Some user =>
      mret (u_name user, u_email user, u_role user,
            u_resetPasswordToken user, u_resetPasswordExpire user)
  end.

(** The body of [PUT /users/updatedetails], as far as it is made of strings:
    the five fields [updateDetails] copies, and [role] and [password], which a
    request may carry as well. *)
Record UpdateData := mkUpdateData {
  ud_name : option string;
  ud_email : option string;
  ud_phone : option string;
  ud_address : option string;
  ud_imageUrl : option string;
  ud_role : option string;
  ud_password : option string
}.

Section WithEmailPattern.

(** The regular expression of the [email] path of the User schema. *)
Variable emailValid : string -> bool.

(** The validators of the paths [fieldsToUpdate] sets ([runValidators:
    true]); a field that is [undefined] is not part of the update. *)
Definition updateValid (u : UpdateData) : bool :=
  from_option (fun s => negb (String.eqb (JS.trim s) "")
                        && AuthController.within 50 (JS.trim s)) true (ud_name u)
  && from_option (fun e => negb (String.eqb e "") && emailValid e) true (ud_email u)
  && from_option (AuthController.within 20) true (ud_phone u)
  && from_option (AuthController.within 100) true (ud_address u).

(** [$set] of [name], [email], [phone] and [address], the copied fields the
    record has. *)
Definition applyUpdate (u : UpdateData) (user : User) : User :=
  mkUser (from_option JS.trim (u_name user) (ud_name u))
    (default (u_email user) (ud_email u))
    (u_password user) (u_role user)
    (match ud_phone u with Some x => Some x | None => u_phone user end)
    (match ud_address u with Some x => Some x | None => u_address user end)
    (u_resetPasswordToken user) (u_resetPasswordExpire user).

(** Whether another user already has the email (the unique index). *)
Definition emailTaken (userId : string) (email : string) (db : DB) : bool :=
  existsb (fun kv => negb (String.eqb (fst kv) userId)
                     && String.eqb (u_email (snd kv)) email)
    (map_to_list (users db)).

(** [UserService.updateDetails(userId, updateData)] *)
Definition updateDetails (userId : string) (updateData : UpdateData) : Eff DB User :=
  if updateValid updateData then
    found ← gets (fun db => users db !! userId);
    match found with
    | None => throw (ErrorResponse "User not found" 404)
    | Some user =>
        taken ← gets (emailTaken userId (u_email (applyUpdate updateData user)));
        match taken with
        | true => throw (MongoServerError "E11000 duplicate key error")
        | false =>
            _ ← modify (set_users (insert userId (applyUpdate updateData user)));
            mret (applyUpdate updateData user)
        end
    end
  else throw (ValidationError "Validation failed").

End WithEmailPattern.

End UserService.

(** ** middlewares/authMiddleware.js *)

Module AuthMiddleware.

(** What [protect] reads of a request: the [Authorization] header and the
    [token] cookie. *)
Record Credentials := mkCredentials {
  c_authorization : option string;
  c_cookie : option string
}.

(** [list[1]] *)
Definition second (l : list string) : option string :=
  match l with
  | _ :: x :: _ => Some x
  | _ => None
  end.

(** The token [protect] takes from the request. *)
Definition requestToken (c : Credentials) : option string :=
  if truthy (c_authorization c)
     && String.prefix "Bearer" (default "" (c_authorization c))
  then second (JS.split " " (default "" (c_authorization c)))
  else if truthy (c_cookie c) then c_cookie c
  else None.

Section WithJwt.

(** [jwt.verify(token, process.env.JWT_SECRET)]: the [id] of the payload, or
    [None] when the verification throws. *)
Variable jwtVerify : string -> option string.

(** [protect]: the principal it attaches to the request as [req.user], or
    the error it hands to [next]. *)
Definition protect (c : Credentials) : Eff DB AuthUser :=
  match requestToken c with
  | Some token =>
      if String.eqb token "" then
        throw (ErrorResponse "Not authorized to access this route" 401)
      else
        match jwtVerify token with
        | Some id =>
            user ← gets (fun db => users db !! id);
            match user with
            | Some user => mret (mkAuthUser id (u_role user))
            | None => throw (ErrorResponse "User not found for this token" 401)
            end
        | None => throw (ErrorResponse "Not authorized to access this route" 401)
        end
  | None => throw (ErrorResponse "Not authorized to access this route" 401)
  end.

End WithJwt.

(** [authorize(...roles)] *)
Definition authorize (roles : list string) (user : AuthUser) : Eff DB unit :=
  if existsb (String.eqb (au_role user)) roles then mret tt
  else throw (ErrorResponse ("User role " +:+ au_role user +:+
                             " is not authorized to access this route") 403).

End AuthMiddleware.

(** ** routes/orderRoutes.js and routes/appointmentRoutes.js

    A route is the chain of its middlewares and its controller; the
    controller calls the service with [req.params.id] and [req.user] and
    hands what the service throws to [next]. *)

Module Routes.
Import AuthMiddleware.

Section WithCollaborators.

Variable jwtVerify : string -> option string.
Variable orderSchemaValid : Order -> bool.

(** [router.route('/:id').delete(authorize('admin'), deleteOrder)], behind
    [router.use(protect)]. *)
Definition DELETE_order (c : Credentials) (id : string) : Eff DB unit :=
  user ← protect jwtVerify c;
  _ ← authorize ["admin"] user;
  OrderService.deleteOrder id user.

(** [router.route('/:id/pay').put(authorize('admin'), updateOrderToPaid)] *)
Definition PUT_order_pay (c : Credentials) (id : string) (body : jval) (now : Z)
  : Eff DB Order :=
  user ← protect jwtVerify c;
  _ ← authorize ["admin"] user;
  OrderService.updateOrderToPaid orderSchemaValid id body user now.

(** [router.route('/:id/deliver').put(authorize('admin'), updateOrderToDelivered)] *)
Definition PUT_order_deliver (c : Credentials) (id : string) (now : Z) : Eff DB Order :=
  user ← protect jwtVerify c;
  _ ← authorize ["admin"] user;
  OrderService.updateOrderToDelivered orderSchemaValid id user now.

(** [router.route('/:id').delete(authorize('admin'), deleteAppointment)],
    behind [router.use(protect)]. *)
Definition DELETE_appointment (c : Credentials) (id : string) : Eff DB unit :=
  user ← protect jwtVerify c;
  _ ← authorize ["admin"] user;
  AppointmentService.deleteAppointment id user.

End WithCollaborators.

End Routes.

(** ** features/cart/cartSlice.js *)

Module CartSlice.

(** A line of the cart, as the medicine page dispatches it: the id of the
    medicine, its name, price, images and stock, and the quantity asked. *)
Record CartItem := mkCartItem {
  ci_medicine : string;
  ci_name : string;
  ci_price : Z;
  ci_imageUrl : list string;
  ci_quantity : Z;
  ci_stock : Z
}.

Definition set_quantity (quantity : Z) (item : CartItem) : CartItem :=
  mkCartItem (ci_medicine item) (ci_name item) (ci_price item) (ci_imageUrl item)
    quantity (ci_stock item).

(** The object of a line, its properties in the order of the literal that
    builds it. *)
Definition toJSON (item : CartItem) : jval :=
  JObj [("medicine", JStr (ci_medicine item)); ("name", JStr (ci_name item));
        ("price", JNum (ci_price item));
        ("imageUrl", JArr (map JStr (ci_imageUrl item)));
        ("quantity", JNum (ci_quantity item)); ("stock", JNum (ci_stock item))].

(** The browser: the state of the slice and the item [cartItems] of
    [localStorage]. *)
Record Browser := mkBrowser {
  cartItems : list CartItem;
  storedCart : option string
}.

(** [state.cartItems.find(item => item.medicine === id)] *)
Definition findItem (id : string) (items : list CartItem) : option CartItem :=
  List.find (fun item => String.eqb (ci_medicine item) id) items.

(** [existItem.quantity = quantity] on the line that [find] returned, the
    first one with the id. *)
Fixpoint assignQuantity (id : string) (quantity : Z) (items : list CartItem)
  : list CartItem :=
  match items with
  | [] => []
  | item :: rest =>
      if String.eqb (ci_medicine item) id then set_quantity quantity item :: rest
      else item :: assignQuantity id quantity rest
  end.

Section WithStorage.

(** Whether [localStorage.setItem] takes the text; it throws when the quota
    is exceeded. *)
Variable setItemOk : string -> bool.

(** [saveCartToLocalStorage(cartItems)]: an error is logged and swallowed. *)
Definition saveCartToLocalStorage (items : list CartItem) (storage : option string)
  : option string :=
  let serializedCartItems := JSON.stringify (JArr (map toJSON items)) in
  if setItemOk serializedCartItems then Some serializedCartItems else storage.

(** [initializeCart] *)
Definition initializeCart (payload : list CartItem) (b : Browser) : Browser :=
  mkBrowser payload (storedCart b).

(** [addToCart] *)
Definition addToCart (newItem : CartItem) (b : Browser) : Browser :=
  let items :=
    match findItem (ci_medicine newItem) (cartItems b) with
    | Some _ => assignQuantity (ci_medicine newItem) (ci_quantity newItem) (cartItems b)
    | None => (cartItems b ++ [newItem])%list
    end in
  mkBrowser items (saveCartToLocalStorage items (storedCart b)).

(** [removeFromCart] *)
Definition removeFromCart (idToRemove : string) (b : Browser) : Browser :=
  let items :=
    List.filter (fun item => negb (String.eqb (ci_medicine item) idToRemove))
      (cartItems b) in
  mkBrowser items (saveCartToLocalStorage items (storedCart b)).

(** [clearCart] *)
Definition clearCart (b : Browser) : Browser :=
  mkBrowser [] (saveCartToLocalStorage [] (storedCart b)).

(** [updateCartItemQuantity] *)
Definition updateCartItemQuantity (medicineId : string) (quantity : Z) (b : Browser)
  : Browser :=
  match findItem medicineId (cartItems b) with
  | Some _ =>
      let items := assignQuantity medicineId quantity (cartItems b) in
      mkBrowser items (saveCartToLocalStorage items (storedCart b))
  | None => b
  end.

End WithStorage.

(** The stored text reads as the cart of the state: what the initializer of
    the application parses at the next load and hands to [initializeCart]. *)
Definition saved (b : Browser) : Prop :=
  exists text, storedCart b = Some text /\
               JSON.parse text = Some (JArr (map toJSON (cartItems b))).

(** How a reducer that saves leaves the storage: with a text that reads as
    the new cart, or, when [setItem] threw, as it was. *)
Definition persisted (setItemOk : string -> bool) (b b' : Browser) : Prop :=
  if setItemOk (JSON.stringify (JArr (map toJSON (cartItems b'))))
  then saved b'
  else storedCart b' = storedCart b.

End CartSlice.

(** ** The scenarios of the specification, as concrete data *)

Module Scenario.

Definition paracetamol : Medicine :=
  mkMedicine "Paracetamol" "Relieves pain and fever" 5 10 "Pain Relief" []
    None None 1000 (Some "admin1").

Definition vitaminC : Medicine :=
  mkMedicine "Vitamin C" "Ascorbic acid tablets" 3 40 "Vitamins" []
    None None 2000 (Some "admin1").

(** A medicine stored without its optional owner. *)
Definition ownerless : Medicine :=
  mkMedicine "Aspirin" "Relieves pain" 4 25 "Pain Relief" []
    None None 3000 None.

Definition doctorD : Doctor :=
  mkDoctor "u-doc" "Dr. D" (Some "Clinic X")
    (Some (mkGeoPoint (Some [Qmake 748 10; Qmake 341 10]))).

Definition labL : Lab :=
  mkLab "Lab L" (Some "Lab Road 1")
    (Some (mkGeoPoint (Some [Qmake 748 10; Qmake 341 10]))) None.

Definition alice : User :=
  mkUser "Alice" "alice@example.com" "bcrypt-of-old-password" "user" None None
    None None.

Definition booking : Appointment :=
  mkAppointment "u1" (Some "d1") 20250101 "10:00 AM" "offline" "pending"
    (Some "check-up") None 500 (mkApptLocation "Point" [Qmake 748 10; Qmake 341 10] "Clinic X").

Definition order1 : Order :=
  mkOrder "u1" [mkOrderItem "m1" "Paracetamol" 5 3] (JStr "Srinagar") (JStr "COD")
    0 0 15 false None None false None "pending".

Definition db0 : DB :=
  mkDB {[ "u1" := alice ]}
       {[ "m1" := paracetamol; "m2" := vitaminC; "m3" := ownerless ]}
       {[ "d1" := doctorD ]}
       {[ "l1" := labL ]}
       {[ "a1" := booking ]}
       {[ "o1" := order1 ]}.

(** Modelled from the spec: the Order schema lets a line item through when
    its quantity is at least 1 (section 3). *)
Definition quantitiesPositive (o : Order) : bool :=
  forallb (fun item => 1 <=? oi_quantity item) (o_orderItems o).

End Scenario.

(* ================================================================== *)
(** * Properties *)

(** Unfolding of the monad's operations in a goal. *)
Ltac eff_simpl :=
  unfold mbind, mret, eff_bind, eff_ret, throw, gets, modify; cbn.

(** ** Orders *)

Section OrderProperties.
Import OrderService.
Variable orderSchemaValid : Order -> bool.



(** C9. Marking a stored order paid: an admin on an unpaid order succeeds,
    and the stored order becomes the old one with paid=true, the payment
    timestamp and the supplied payload; on an already paid order, or for a
    principal who is not admin, the call throws an ErrorResponse and the
    database is unchanged; hence any success is an admin's on an unpaid
    order. *)
Theorem updateOrderToPaid_transition db id payload authUser now order :
  orders db !! id = Some order ->
  let paid := markPaid now payload order in
  let run := updateOrderToPaid orderSchemaValid id payload authUser now db in
  (au_role authUser = "admin" -> o_isPaid order = false ->
   orderSchemaValid paid = true ->
   run = (Ok paid, set_orders (insert id paid) db) /\
   o_isPaid paid = true /\ o_paidAt paid = Some now /\
   o_paymentResult paid = Some payload) /\
  (o_isPaid order = true \/ au_role authUser <> "admin" ->
   exists msg code, run = (Err (ErrorResponse msg code), db)) /\
  (forall o db', run = (Ok o, db') ->
   au_role authUser = "admin" /\ o_isPaid order = false).
Proof.
  intros Hfind paid run. subst paid run.
  unfold updateOrderToPaid, Order_save. eff_simpl. rewrite Hfind.
  destruct (o_isPaid order) eqn:Hpaid.
  - split; [discriminate|]. split; [eauto|]. discriminate.
  - destruct (String.eqb_spec (au_role authUser) "admin") as [Hadm|Hadm]; cbn.
    + split.
      * intros _ _ Hvalid. rewrite Hvalid. eff_simpl. auto.
      * split; [intros [?|?]; congruence | auto].
    + split; [congruence|]. split; [eauto|]. discriminate.
Qed.

End OrderProperties.

(** ** Orders: the life of an order *)

Section OrderLifecycle.
Import OrderService.
Variable orderSchemaValid : Order -> bool.

Lemma set_stock_same m : set_stock (m_stock m) m = m.
Proof. destruct m; reflexivity. Qed.

Lemma reserved_nil db : reserved [] db db.
Proof.
  unfold reserved. repeat split. intros id. cbn.
  destruct (medicines db !! id) as [m|]; cbn; [|reflexivity].
  rewrite Z.sub_0_r, set_stock_same. reflexivity.
Qed.

(** What one turn of the loop does: it throws and writes nothing, or it
    takes the quantity from the stock of the medicine. *)
Lemma reserveItem_inv item db r db' :
  reserveItem item db = (r, db') ->
  (exists e, r = Err e /\ db' = db) \/
  (exists med, r = Ok tt /\ medicines db !! oi_medicine item = Some med /\
     oi_quantity item <= m_stock med /\
     db' = set_medicines
             (insert (oi_medicine item)
                (set_stock (m_stock med - oi_quantity item) med)) db).
Proof.
  unfold reserveItem, Medicine_findById, Medicine_save. eff_simpl.
  destruct (medicines db !! oi_medicine item) as [med|] eqn:Hmed; cbn;
    [|intros [= <- <-]; eauto].
  destruct (Z.ltb_spec (m_stock med) (oi_quantity item)); cbn;
    [intros [= <- <-]; eauto|].
  destruct (MedicineService.medicineValid _); cbn;
    [|intros [= <- <-]; eauto].
  intros [= <- <-]. right. exists med. auto.
Qed.

(** A turn of the loop that succeeds wrote a document that passes the
    validators. *)
Lemma reserveItem_Ok_valid item db db' med :
  reserveItem item db = (Ok tt, db') ->
  medicines db !! oi_medicine item = Some med ->
  MedicineService.medicineValid (set_stock (m_stock med - oi_quantity item) med) = true.
Proof.
  unfold reserveItem, Medicine_findById, Medicine_save. eff_simpl.
  intros Hrun Hmed. rewrite Hmed in Hrun. cbn in Hrun.
  destruct (m_stock med <? oi_quantity item); cbn in Hrun; [discriminate|].
  destruct (MedicineService.medicineValid _); [reflexivity | discriminate].
Qed.

Lemma reserved_cons item med done db db' :
  medicines db !! oi_medicine item = Some med ->
  reserved done
    (set_medicines
       (insert (oi_medicine item) (set_stock (m_stock med - oi_quantity item) med)) db)
    db' ->
  reserved (item :: done) db db'.
Proof.
  intros Hmed (Hu & Hd & Hl & Ha & Ho & Hm). unfold reserved.
  repeat split; try assumption.
  intros id. rewrite Hm. cbn.
  destruct (String.eqb_spec (oi_medicine item) id) as [<-|Hne].
  - rewrite lookup_insert_eq, Hmed. cbn. f_equal.
    destruct med; unfold set_stock, ordered; cbn. f_equal. lia.
  - rewrite lookup_insert_ne by assumption.
    destruct (medicines db !! id); cbn; [|reflexivity].
    now rewrite Z.add_0_l.
Qed.

(** The loop over the line items: the items before the first that throws
    have been taken from stock, and only they. *)
Lemma forEach_reserved items db r db' :
  forEach items reserveItem db = (r, db') ->
  exists done rest, items = (done ++ rest)%list /\ reserved done db db' /\
    (is_ok r = true -> rest = []).
Proof.
  revert db. induction items as [|item items IH]; intros db.
  - cbn. intros [= <- <-]. exists [], []. split; [reflexivity|].
    split; [apply reserved_nil | reflexivity].
  - cbn [forEach]. unfold mbind, eff_bind.
    destruct (reserveItem item db) as [r1 db1] eqn:Hitem.
    apply reserveItem_inv in Hitem as [(e & -> & ->) | (med & -> & Hmed & _ & ->)].
    + intros [= <- <-]. exists [], (item :: items). split; [reflexivity|].
      split; [apply reserved_nil | discriminate].
    + intros Hrest. apply IH in Hrest as (done & rest & -> & Hres & Hok).
      exists (item :: done), rest. split; [reflexivity|].
      split; [eapply reserved_cons; eauto | exact Hok].
Qed.





(** An invariant of the database that every turn of a loop keeps is kept by
    the loop, whether it completes or throws. *)
Lemma forEach_invariant {A} (P : DB -> Prop) (body : A -> Eff DB unit) xs db :
  (forall x db, P db -> P (snd (body x db))) ->
  P db -> P (snd (forEach xs body db)).
Proof.
  intros Hbody. revert db. induction xs as [|x xs IH]; intros db HP; [exact HP|].
  cbn [forEach]. unfold mbind, eff_bind.
  specialize (Hbody x db HP).
  destruct (body x db) as [[[]|e] db1]; cbn in *; [apply IH, Hbody | exact Hbody].
Qed.

Lemma reserveItem_keeps_stock_nonnegative item db :
  stockNonNegative db -> stockNonNegative (snd (reserveItem item db)).
Proof.
  intros HP. destruct (reserveItem item db) as [r db'] eqn:Hitem.
  apply reserveItem_inv in Hitem as [(e & -> & ->) | (med & -> & Hmed & Hle & ->)];
    [exact HP|].
  cbn. intros id m. cbn. destruct (decide (oi_medicine item = id)) as [<-|Hne].
  - rewrite lookup_insert_eq. intros [= <-]. cbn. lia.
  - rewrite lookup_insert_ne by assumption. apply HP.
Qed.

(** X3. Whatever the request and whatever the outcome, [createOrder] never
    leaves a negative stock behind: if no stock is negative before the call,
    none is after it. *)
Theorem createOrder_keeps_stock_nonnegative db data userId newId :
  stockNonNegative db ->
  stockNonNegative (snd (createOrder orderSchemaValid data userId newId db)).
Proof.
  intros Hdb. unfold createOrder.
  destruct (od_orderItems data) as [[|item items]|]; try exact Hdb.
  unfold mbind, eff_bind.
  pose proof (forEach_invariant stockNonNegative reserveItem (item :: items) db
                reserveItem_keeps_stock_nonnegative Hdb) as Hloop.
  destruct (forEach (item :: items) reserveItem db) as [[[]|e] db1]; cbn in Hloop;
    [|exact Hloop].
  unfold Order_create. destruct (orderSchemaValid _); cbn; [|exact Hloop].
  eff_simpl. destruct (orders db1 !! newId); cbn; exact Hloop.
Qed.

(** X4. Marking a stored order delivered: an admin on an order that is not
    yet delivered succeeds, and the stored order becomes the old one with
    delivered=true, the delivery timestamp and the status 'delivered' (the
    payment fields are as before); on a delivered order, or for a principal
    who is not admin, the call throws and the database is unchanged. *)
Theorem updateOrderToDelivered_transition db id authUser now order :
  orders db !! id = Some order ->
  let delivered := markDelivered now order in
  let run := updateOrderToDelivered orderSchemaValid id authUser now db in
  (au_role authUser = "admin" -> o_isDelivered order = false ->
   orderSchemaValid delivered = true ->
   run = (Ok delivered, set_orders (insert id delivered) db) /\
   o_isDelivered delivered = true /\ o_deliveredAt delivered = Some now /\
   o_orderStatus delivered = "delivered" /\
   o_isPaid delivered = o_isPaid order /\ o_paidAt delivered = o_paidAt order) /\
  (o_isDelivered order = true ->
   run = (Err (ErrorResponse "Order is already delivered" 400), db)) /\
  (o_isDelivered order = false -> au_role authUser <> "admin" ->
   run = (Err (ErrorResponse "Not authorized to mark order as delivered" 403), db)) /\
  (forall o db', run = (Ok o, db') ->
   au_role authUser = "admin" /\ o_isDelivered order = false).
Proof.
  intros Hfind delivered run. subst delivered run.
  unfold updateOrderToDelivered, Order_save. eff_simpl. rewrite Hfind.
  destruct (o_isDelivered order) eqn:Hdel.
  - repeat split; try discriminate; auto.
  - destruct (String.eqb_spec (au_role authUser) "admin") as [Hadm|Hadm]; cbn.
    + split; [|repeat split; try discriminate; auto; congruence].
      intros _ _ Hvalid. rewrite Hvalid. eff_simpl. auto 10.
    + repeat split; try discriminate; auto; congruence.
Qed.

(** X5. Changing the status of a stored order: an admin sets any status; a
    principal who is not admin succeeds exactly when they own the order and
    ask for 'cancelled'; anybody else gets status 403 and nothing is written.
    A success changes the status field of that order and nothing else: the
    paid and delivered flags stay, and no stock is given back. *)
Theorem updateOrderStatus_rules db id newStatus authUser order :
  orders db !! id = Some order ->
  let run := updateOrderStatus orderSchemaValid id newStatus authUser db in
  let allowed :=
    String.eqb (au_role authUser) "admin"
    || String.eqb (o_user order) (au_id authUser) && String.eqb newStatus "cancelled" in
  (allowed = true -> orderSchemaValid (set_orderStatus newStatus order) = true ->
   run = (Ok (set_orderStatus newStatus order),
          set_orders (insert id (set_orderStatus newStatus order)) db)) /\
  (allowed = false ->
   run = (Err (ErrorResponse "Not authorized to update this order status" 403), db)) /\
  (forall o db', run = (Ok o, db') ->
   allowed = true /\ medicines db' = medicines db /\
   o_isPaid o = o_isPaid order /\ o_isDelivered o = o_isDelivered order /\
   o_orderItems o = o_orderItems order).
Proof.
  intros Hfind run allowed. subst run allowed.
  unfold updateOrderStatus, Order_save. eff_simpl. rewrite Hfind.
  destruct (String.eqb (au_role authUser) "admin"); cbn.
  - split; [intros _ ->; reflexivity|]. split; [discriminate|].
    intros o db'. destruct (orderSchemaValid _); cbn; [|discriminate].
    intros [= <- <-]. auto.
  - destruct (String.eqb (o_user order) (au_id authUser)); cbn;
      [|repeat split; try discriminate; auto].
    destruct (String.eqb_spec newStatus "cancelled") as [->|Hne]; cbn;
      [|repeat split; try discriminate; auto].
    split; [intros _ ->; reflexivity|]. split; [discriminate|].
    intros o db'. destruct (orderSchemaValid _); cbn; [|discriminate].
    intros [= <- <-]. auto.
Qed.

(** X6. Deleting an order is the admin's alone, and does not give the stock
    back: after a successful [createOrder], the admin's [deleteOrder] of the
    new order restores the orders collection and leaves the medicines as
    [createOrder] left them; any other principal gets status 401 and nothing
    is deleted. *)
Theorem deleteOrder_keeps_stock db data userId newId order db1 authUser :
  createOrder orderSchemaValid data userId newId db = (Ok order, db1) ->
  let run := deleteOrder newId authUser db1 in
  (au_role authUser = "admin" ->
   fst run = Ok tt /\ orders (snd run) = orders db /\
   medicines (snd run) = medicines db1) /\
  (au_role authUser <> "admin" ->
   run = (Err (ErrorResponse ("User " +:+ au_id authUser +:+
                              " is not authorized to delete this order") 401), db1)).
Proof.
  intros Hcreate run. subst run.
  assert (Hstored : orders db !! newId = None
                    /\ orders db1 = <[newId := order]> (orders db)).
  { revert Hcreate. unfold createOrder.
    destruct (od_orderItems data) as [[|item items]|]; try discriminate.
    unfold mbind, eff_bind.
    destruct (forEach (item :: items) reserveItem db) as [[[]|e] db0] eqn:Hloop;
      [|discriminate].
    apply forEach_reserved in Hloop as (done & rest & _ & Hres & _).
    destruct Hres as (_ & _ & _ & _ & Ho & _).
    unfold Order_create. destruct (orderSchemaValid _); [|discriminate]. eff_simpl.
    destruct (orders db0 !! newId) eqn:Hfresh; cbn; [discriminate|].
    intros [= <- <-]. cbn. rewrite <- Ho. auto. }
  destruct Hstored as [Hfresh Hstored].
  unfold deleteOrder. eff_simpl. rewrite Hstored, lookup_insert_eq.
  destruct (String.eqb_spec (au_role authUser) "admin") as [Hadm|Hadm]; cbn.
  - split; [|congruence]. intros _. split; [reflexivity|].
    split; [|reflexivity]. rewrite Hstored. apply delete_insert_id, Hfresh.
  - split; [congruence | reflexivity].
Qed.

(** X7. Reading one order changes nothing; for an order whose user exists,
    the owner and every admin get the order, anybody else status 401; for an
    order whose user is gone every principal, an admin included, gets a
    TypeError. *)
Theorem getOrder_access db id authUser order :
  orders db !! id = Some order ->
  let run := getOrder id authUser db in
  snd run = db /\
  (users db !! o_user order = None -> exists msg, fst run = Err (TypeError msg)) /\
  (is_Some (users db !! o_user order) ->
   if String.eqb (o_user order) (au_id authUser) || String.eqb (au_role authUser) "admin"
   then fst run = Ok (populateOrder db order)
   else fst run = Err (ErrorResponse ("User " +:+ au_id authUser +:+
                                      " is not authorized to view this order") 401)).
Proof.
  intros Hfind run. subst run. unfold getOrder. eff_simpl. rewrite Hfind. cbn.
  destruct (users db !! o_user order) as [user|]; cbn.
  - destruct (String.eqb (o_user order) (au_id authUser)),
             (String.eqb (au_role authUser) "admin"); cbn;
      (split; [reflexivity|]); (split; [discriminate|]); intros _; reflexivity.
  - split; [reflexivity|]. split; [eauto|]. intros [? ?]. discriminate.
Qed.

End OrderLifecycle.

(** ** Medicines: ownership check *)

Section MedicineOwnership.
Import MedicineService.
Variable applyOperators : list (string * jval) -> Medicine -> option Medicine.

(** C10. On a stored medicine without owner, [updateMedicine] and
    [deleteMedicine] throw a TypeError for every principal (admins
    included) and change nothing: [medicine.user.toString()] is evaluated
    before the role is looked at.  When the owner is present neither throws a
    TypeError: the owner or an admin proceeds to the mutation, anybody else is
    denied with status 401. *)
Theorem medicine_mutations_need_owner db id updateData authUser med :
  medicines db !! id = Some med ->
  (m_user med = None ->
   (exists msg, updateMedicine applyOperators id updateData authUser db = (Err (TypeError msg), db)) /\
   (exists msg, deleteMedicine id authUser db = (Err (TypeError msg), db))) /\
  (forall owner, m_user med = Some owner ->
   let allowed := String.eqb owner (au_id authUser)
                  || String.eqb (au_role authUser) "admin" in
   (if allowed
    then updateMedicine applyOperators id updateData authUser db
         = Medicine_findByIdAndUpdate applyOperators id updateData db
    else exists msg, updateMedicine applyOperators id updateData authUser db
                     = (Err (ErrorResponse msg 401), db)) /\
   (if allowed
    then deleteMedicine id authUser db = (Ok tt, set_medicines (delete id) db)
    else exists msg, deleteMedicine id authUser db
                     = (Err (ErrorResponse msg 401), db)) /\
   (forall msg, fst (updateMedicine applyOperators id updateData authUser db) <> Err (TypeError msg)) /\
   (forall msg, fst (deleteMedicine id authUser db) <> Err (TypeError msg))).
Proof.
  intros Hfind. split.
  - intros Hnone. unfold updateMedicine, deleteMedicine, user_toString.
    eff_simpl. rewrite Hfind, Hnone. cbn. eauto.
  - intros owner Hsome allowed. subst allowed.
    assert (Hupd : forall msg,
               fst (Medicine_findByIdAndUpdate applyOperators id updateData db) <> Err (TypeError msg)).
    { intros msg. unfold Medicine_findByIdAndUpdate. eff_simpl.
      destruct (updateValid (upd_fields updateData)); cbn; [|congruence].
      rewrite Hfind. destruct (updated applyOperators updateData med); cbn;
        [|congruence].
      case_match; cbn; congruence. }
    unfold updateMedicine, deleteMedicine, user_toString.
    eff_simpl. rewrite Hfind, Hsome. cbn.
    destruct (String.eqb owner (au_id authUser)),
             (String.eqb (au_role authUser) "admin"); cbn;
      repeat split; eauto; congruence.
Qed.

End MedicineOwnership.

(** ** Medicines: the catalogue *)

Section MedicineCatalog.
Import MedicineService.
Variable applyOperators : list (string * jval) -> Medicine -> option Medicine.

(** A success of [Medicine.create] means that the document passed the
    validators and that its id and its name were free. *)
Lemma Medicine_create_inv newId now d db m db' :
  Medicine_create newId now d db = (Ok m, db') ->
  m = toDocument now d /\ medicineValid m = true /\
  medicines db !! newId = None /\ nameTaken newId (m_name m) db = false /\
  db' = set_medicines (insert newId m) db.
Proof.
  unfold Medicine_create.
  destruct (bool_decide (is_Some (md_price d))); cbn; [|discriminate].
  destruct (medicineValid (toDocument now d)) eqn:Hvalid; cbn; [|discriminate].
  eff_simpl.
  destruct (nameTaken newId _ db) eqn:Htaken; cbn; [discriminate|].
  destruct (medicines db !! newId) as [old|] eqn:Hold.
  - rewrite (bool_decide_eq_true_2 _ (mk_is_Some _ _ eq_refl)). discriminate.
  - rewrite bool_decide_eq_false_2 by (intros [? ?]; discriminate). cbn.
    intros [= <- <-]. auto.
Qed.

Lemma set_medicines_delete_insert id m db :
  medicines db !! id = None ->
  set_medicines (delete id) (set_medicines (insert id m) db) = db.
Proof.
  intros Hfresh. destruct db as [us ms ds ls apps os]. unfold set_medicines. cbn in *.
  f_equal. apply delete_insert_id, Hfresh.
Qed.

(** X12. A medicine added through the service belongs to who added it: the
    stored document carries the caller as [user], so the ownership check of
    [updateMedicine] and [deleteMedicine] never throws a TypeError on it; the
    caller's [deleteMedicine] gives back the database as it was before the
    addition, and a principal who is neither the caller nor an admin gets
    status 401. *)
Theorem addMedicine_owner db data userId newId now m db1 :
  addMedicine data userId newId now db = (Ok m, db1) ->
  m_user m = Some userId /\
  medicines db1 !! newId = Some m /\
  (forall role, deleteMedicine newId (mkAuthUser userId role) db1 = (Ok tt, db)) /\
  (forall other role, other <> userId -> role <> "admin" ->
   exists msg, deleteMedicine newId (mkAuthUser other role) db1
               = (Err (ErrorResponse msg 401), db1)) /\
  (forall updateData authUser msg,
   fst (updateMedicine applyOperators newId updateData authUser db1)
   <> Err (TypeError msg)).
Proof.
  unfold addMedicine. intros Hcreate.
  apply Medicine_create_inv in Hcreate as (-> & _ & Hfresh & _ & ->).
  split; [reflexivity|]. split; [cbn; apply lookup_insert_eq|].
  split; [|split].
  - intros role. unfold deleteMedicine, user_toString. eff_simpl.
    rewrite lookup_insert_eq. cbn. rewrite String.eqb_refl. cbn.
    f_equal. now apply set_medicines_delete_insert.
  - intros other role Hother Hrole. unfold deleteMedicine, user_toString. eff_simpl.
    rewrite lookup_insert_eq. cbn.
    destruct (String.eqb_spec userId other) as [?|_]; [congruence|].
    destruct (String.eqb_spec role "admin") as [?|_]; [congruence|]. cbn. eauto.
  - intros updateData authUser msg.
    unfold updateMedicine, user_toString. eff_simpl.
    rewrite lookup_insert_eq. cbn.
    destruct (negb (String.eqb userId (au_id authUser))
              && negb (String.eqb (au_role authUser) "admin")); cbn; [congruence|].
    unfold Medicine_findByIdAndUpdate.
    destruct (updateValid (upd_fields updateData)); cbn; [|congruence].
    eff_simpl. rewrite lookup_insert_eq. cbn.
    destruct (updated applyOperators updateData _); cbn; [|congruence].
    case_match; cbn; congruence.
Qed.

Lemma nameTaken_false id name db :
  nameTaken id name db = false ->
  forall id' m', medicines db !! id' = Some m' -> id' <> id -> m_name m' <> name.
Proof.
  unfold nameTaken. intros Hnone id' m' Hfind Hne Hname.
  assert (Hin : In (id', m') (map_to_list (medicines db)))
    by (apply list_elem_of_In, elem_of_map_to_list, Hfind).
  assert (Hex : existsb (fun kv => negb (String.eqb (fst kv) id)
                                   && String.eqb (m_name (snd kv)) name)
                  (map_to_list (medicines db)) = true).
  { apply existsb_exists. exists (id', m'). split; [exact Hin|]. cbn.
    destruct (String.eqb_spec id' id) as [?|_]; [contradiction|].
    rewrite Hname, String.eqb_refl. reflexivity. }
  congruence.
Qed.

(** The invariant after a document that passes the validators is written
    under an id, when no other medicine has its name. *)
Lemma catalogValid_insert id m db :
  catalogValid db -> medicineValid m = true ->
  nameTaken id (m_name m) db = false ->
  catalogValid (set_medicines (insert id m) db).
Proof.
  intros [Hvalid Hunique] Hm Htaken. split; cbn.
  - apply map_Forall_insert_2; assumption.
  - intros id1 id2 m1 m2. cbn.
    destruct (decide (id1 = id)) as [->|H1], (decide (id2 = id)) as [->|H2];
      rewrite ?lookup_insert_eq, ?lookup_insert_ne by congruence.
    + reflexivity.
    + intros [= <-] H2' Hname. exfalso.
      exact (nameTaken_false _ _ _ Htaken _ _ H2' H2 (eq_sym Hname)).
    + intros H1' [= <-] Hname. exfalso.
      exact (nameTaken_false _ _ _ Htaken _ _ H1' H1 Hname).
    + apply Hunique.
Qed.

Lemma catalogValid_delete id db :
  catalogValid db -> catalogValid (set_medicines (delete id) db).
Proof.
  intros [Hvalid Hunique]. split; cbn.
  - apply map_Forall_delete, Hvalid.
  - intros id1 id2 m1 m2 H1 H2. cbn in *.
    apply lookup_delete_Some in H1 as [_ H1]. apply lookup_delete_Some in H2 as [_ H2].
    eapply Hunique; eauto.
Qed.

(** The names are unique when the list of the stored names has no
    duplicate. *)
Lemma namesUnique_intro db :
  NoDup ((fun kv => m_name (snd kv)) <$> map_to_list (medicines db)) ->
  namesUnique db.
Proof.
  intros Hnodup id1 id2 m1 m2 H1 H2 Hname.
  apply elem_of_map_to_list in H1, H2.
  revert Hnodup H1 H2. generalize (map_to_list (medicines db)).
  induction l as [|z l IH]; intros Hnd H1 H2.
  - now apply elem_of_nil in H1.
  - cbn in Hnd. apply NoDup_cons in Hnd as [Hz Hnd].
    apply elem_of_cons in H1 as [H1|H1], H2 as [H2|H2].
    + congruence.
    + exfalso. apply Hz, list_elem_of_fmap. exists (id2, m2). subst z. cbn. auto.
    + exfalso. apply Hz, list_elem_of_fmap. exists (id1, m1). subst z. cbn. auto.
    + now apply IH.
Qed.

Lemma applyUpdate_valid u m :
  updateValid u = true -> medicineValid m = true -> medicineValid (applyUpdate u m) = true.
Proof.
  unfold updateValid, medicineValid, applyUpdate. cbn.
  rewrite !andb_true_iff.
  intros (((((Hn & Hd) & Hp) & Hs) & Hc) & Hm) (((((((N1 & N2) & D1) & D2) & P) & S) & C) & M).
  destruct (mu_name u), (mu_description u), (mu_price u), (mu_stock u),
    (mu_category u), (mu_manufacturer u); cbn in *;
    rewrite ?andb_true_iff in *; intuition.
Qed.

(** An update without operators keeps the invariant. *)
Lemma Medicine_findByIdAndUpdate_valid id u db :
  upd_operators u = [] ->
  catalogValid db ->
  catalogValid (snd (Medicine_findByIdAndUpdate applyOperators id u db)).
Proof.
  intros Hplain Hdb. unfold Medicine_findByIdAndUpdate, updated. rewrite Hplain.
  destruct (updateValid (upd_fields u)) eqn:Hu; cbn; [|exact Hdb]. eff_simpl.
  destruct (medicines db !! id) as [m|] eqn:Hfind; cbn; [|exact Hdb].
  destruct (nameTaken id (from_option JS.trim (m_name m) (mu_name (upd_fields u))) db)
    eqn:Htaken; cbn; [exact Hdb|].
  apply catalogValid_insert; [exact Hdb | | exact Htaken].
  apply applyUpdate_valid; [exact Hu|]. destruct Hdb as [Hvalid _].
  exact (Hvalid id m Hfind).
Qed.

Lemma reserveItem_valid item db :
  catalogValid db -> catalogValid (snd (OrderService.reserveItem item db)).
Proof.
  intros Hdb. destruct (OrderService.reserveItem item db) as [r db'] eqn:Hitem.
  pose proof Hitem as Hrun.
  apply reserveItem_inv in Hitem as [(e & -> & ->) | (med & -> & Hmed & Hle & ->)];
    [exact Hdb|].
  cbn. apply catalogValid_insert; [exact Hdb | |].
  - exact (reserveItem_Ok_valid _ _ _ _ Hrun Hmed).
  - cbn. destruct (nameTaken (oi_medicine item) (m_name med) db) eqn:Htaken;
      [|reflexivity].
    exfalso. unfold nameTaken in Htaken. apply existsb_exists in Htaken as ([k m'] & Hin & Hk).
    cbn in Hk. apply andb_true_iff in Hk as [Hk Hname].
    apply list_elem_of_In, elem_of_map_to_list in Hin.
    apply String.eqb_eq in Hname.
    destruct Hdb as [_ Hunique]. rewrite (Hunique _ _ _ _ Hin Hmed Hname) in Hk.
    rewrite String.eqb_refl in Hk. discriminate.
Qed.

(** X13. The catalogue stays well formed: if every stored medicine passes
    the validators of the schema (name and description present and within
    their lengths, price and stock not negative, category of the enum) and the
    names are unique, then the same holds after [addMedicine], after
    [deleteMedicine], after [createOrder], and after an [updateMedicine] whose
    body is made of plain fields, whether they succeed or throw.  (A body that
    carries update operators is not covered: the update validators do not
    run on [$inc].) *)
Theorem medicine_catalog_invariant db :
  catalogValid db ->
  (forall data userId newId now,
   catalogValid (snd (addMedicine data userId newId now db))) /\
  (forall id fields authUser,
   catalogValid (snd (updateMedicine applyOperators id (fieldsOnly fields) authUser
                        db))) /\
  (forall id authUser, catalogValid (snd (deleteMedicine id authUser db))) /\
  (forall orderSchemaValid data userId newId,
   catalogValid (snd (OrderService.createOrder orderSchemaValid data userId newId db))).
Proof.
  intros Hdb. split; [|split; [|split]].
  - intros data userId newId now.
    destruct (addMedicine data userId newId now db) as [[m|e] db'] eqn:Hadd.
    + apply Medicine_create_inv in Hadd as (_ & Hm & _ & Htaken & ->).
      now apply catalogValid_insert.
    + revert Hadd. unfold addMedicine, Medicine_create.
      destruct (_ && _); cbn; [|now intros [= _ <-]].
      eff_simpl. case_match; cbn; [now intros [= _ <-] | discriminate].
  - intros id fields authUser. unfold updateMedicine, user_toString. eff_simpl.
    destruct (medicines db !! id) as [m|]; cbn; [|exact Hdb].
    destruct (m_user m) as [owner|]; cbn; [|exact Hdb].
    destruct (negb (String.eqb owner (au_id authUser))
              && negb (String.eqb (au_role authUser) "admin")); cbn; [exact Hdb|].
    now apply Medicine_findByIdAndUpdate_valid.
  - intros id authUser. unfold deleteMedicine, user_toString. eff_simpl.
    destruct (medicines db !! id) as [m|]; cbn; [|exact Hdb].
    destruct (m_user m) as [owner|]; cbn; [|exact Hdb].
    destruct (negb (String.eqb owner (au_id authUser))
              && negb (String.eqb (au_role authUser) "admin")); cbn; [exact Hdb|].
    now apply catalogValid_delete.
  - intros orderSchemaValid data userId newId. unfold OrderService.createOrder.
    destruct (OrderService.od_orderItems data) as [[|item items]|]; try exact Hdb.
    unfold mbind, eff_bind.
    pose proof (forEach_invariant catalogValid OrderService.reserveItem (item :: items) db
                  reserveItem_valid Hdb) as Hloop.
    destruct (forEach (item :: items) OrderService.reserveItem db) as [[[]|e] db1];
      cbn in Hloop; [|exact Hloop].
    unfold OrderService.Order_create. destruct (orderSchemaValid _); cbn; [|exact Hloop].
    eff_simpl. destruct (orders db1 !! newId); cbn; exact Hloop.
Qed.

End MedicineCatalog.

(** ** Appointments *)

Section AppointmentProperties.
Import AppointmentService.

Lemma snapshot_keeps location address d :
  ad_user (snapshot location address d) = ad_user d /\
  ad_doctor (snapshot location address d) = ad_doctor d /\
  ad_lab (snapshot location address d) = ad_lab d /\
  ad_type (snapshot location address d) = ad_type d.
Proof.
  unfold snapshot. destruct location as [[[c|]]|]; [|auto..].
  destruct (truthy address); auto.
Qed.

Lemma validRefs_snapshot location address d :
  validRefs (snapshot location address d) = validRefs d.
Proof.
  destruct (snapshot_keeps location address d) as (_ & Hd & Hl & Ht).
  unfold validRefs, docType. rewrite Hd, Hl, Ht. reflexivity.
Qed.

Lemma docType_snapshot location address d :
  docType (snapshot location address d) = docType d.
Proof.
  destruct (snapshot_keeps location address d) as (_ & _ & _ & Ht).
  unfold docType. rewrite Ht. reflexivity.
Qed.

(** What [Appointment.create] does with data that passes the validators. *)
Lemma Appointment_create_ok newId now d db :
  validRefs d = true -> validRest d = true ->
  keyTaken newId (toDocument now d) db = false ->
  appointments db !! newId = None ->
  Appointment_create newId now d db
    = (Ok (toDocument now d), set_appointments (insert newId (toDocument now d)) db).
Proof.
  intros Hrefs Hrest Hkey Hfresh. unfold Appointment_create.
  rewrite Hrefs, Hrest. eff_simpl. rewrite Hkey, Hfresh. cbn. reflexivity.
Qed.

(** A success of [Appointment.create] means the validators passed. *)
Lemma Appointment_create_inv newId now d db a db' :
  Appointment_create newId now d db = (Ok a, db') ->
  validRefs d = true /\ a = toDocument now d /\
  db' = set_appointments (insert newId a) db.
Proof.
  unfold Appointment_create.
  destruct (validRefs d); cbn; [|discriminate].
  destruct (validRest d); cbn; [|discriminate].
  eff_simpl. case_match; cbn; [discriminate|].
  intros [= <- <-]. auto.
Qed.

(** C3 (as amended). Both references: rejected with status 400; neither:
    rejected with status 400.  Exactly one reference to an existing entity,
    the other one absent, with data that passes the remaining validators of
    the schema and does not collide with a stored appointment: the appointment
    is persisted, with type 'lab' for a lab (whatever type the caller sent),
    'offline' for a doctor when the caller sent no type, and the caller's type
    for a doctor when that type is 'online' or 'offline'.  When the other
    reference is the empty string the service lets the request through and
    Mongoose refuses it with a cast error: nothing is stored.  Whenever a
    creation succeeds the persisted type is 'lab' with a lab and 'online' or
    'offline' with a doctor. *)
Theorem createAppointment_exclusive_and_typed db data userId newId now :
  let run := createAppointment data userId newId now db in
  let free (a : Appointment) :=
    keyTaken newId a db = false /\ appointments db !! newId = None in
  (truthy (ad_doctor data) = true -> truthy (ad_lab data) = true ->
   run = (Err (ErrorResponse
                 "An appointment cannot be associated with both a doctor and a lab."
                 400), db)) /\
  (truthy (ad_doctor data) = false -> truthy (ad_lab data) = false ->
   run = (Err (ErrorResponse
                 "An appointment must be associated with either a doctor or a lab."
                 400), db)) /\
  (forall lab,
   ad_doctor data = None -> truthy (ad_lab data) = true ->
   labs db !! default "" (ad_lab data) = Some lab ->
   let a := toDocument now (labBooking data userId lab) in
   validRest (labBooking data userId lab) = true -> free a ->
   run = (Ok a, set_appointments (insert newId a) db) /\ a_type a = "lab") /\
  (forall doctor,
   truthy (ad_doctor data) = true -> ad_lab data = None ->
   doctors db !! default "" (ad_doctor data) = Some doctor ->
   let a := toDocument now (doctorBooking data userId doctor) in
   validRest (doctorBooking data userId doctor) = true -> free a ->
   (truthy (ad_type data) = false ->
    run = (Ok a, set_appointments (insert newId a) db) /\ a_type a = "offline") /\
   (forall type, ad_type data = Some type -> type = "online" \/ type = "offline" ->
    run = (Ok a, set_appointments (insert newId a) db) /\ a_type a = type)) /\
  (forall lab,
   ad_doctor data = Some "" -> truthy (ad_lab data) = true ->
   labs db !! default "" (ad_lab data) = Some lab ->
   exists msg, run = (Err (ValidationError msg), db)) /\
  (forall doctor,
   truthy (ad_doctor data) = true -> ad_lab data = Some "" ->
   doctors db !! default "" (ad_doctor data) = Some doctor ->
   exists msg, run = (Err (ValidationError msg), db)) /\
  (forall a db', run = (Ok a, db') ->
   appointments db' !! newId = Some a /\
   (truthy (ad_lab data) = true -> a_type a = "lab") /\
   (truthy (ad_doctor data) = true -> a_type a = "online" \/ a_type a = "offline")).
Proof.
  intros run free. subst run free. unfold createAppointment. cbn.
  assert (Hcast : forall x : option string, truthy x = true -> castable x = true).
  { intros [x|]; [|discriminate]. unfold truthy, castable.
    destruct (String.eqb_spec x "") as [->|Hne]; [discriminate|]. intros _.
    rewrite bool_decide_eq_false_2 by congruence. reflexivity. }
  destruct (truthy (ad_doctor data)) eqn:Hdoc, (truthy (ad_lab data)) eqn:Hlab; cbn.
  - (* both *)
    repeat split; try discriminate; auto; intros;
      repeat match goal with
             | H : ad_doctor data = _ |- _ => rewrite H in Hdoc; clear H
             | H : ad_lab data = _ |- _ => rewrite H in Hlab; clear H
             end; discriminate.
  - (* doctor only *)
    split; [discriminate|]. split; [discriminate|]. split; [discriminate|].
    eff_simpl. split; [|split; [discriminate|split]].
    + intros doctor _ Hnolab Hfind Hrest [Hkey Hfresh]. rewrite Hfind.
      fold (doctorBooking data userId doctor).
      assert (Htype : docType (set_type (or_else (ad_type data) "offline")
                                 (set_user userId data))
                      = or_else (ad_type data) "offline") by reflexivity.
      assert (Hok : forall t, or_else (ad_type data) "offline" = t ->
                t = "online" \/ t = "offline" ->
                Appointment_create newId now (doctorBooking data userId doctor) db
                = (Ok (toDocument now (doctorBooking data userId doctor)),
                   set_appointments
                     (insert newId (toDocument now (doctorBooking data userId doctor))) db)
                /\ a_type (toDocument now (doctorBooking data userId doctor)) = t).
      { intros t Ht Hcases. split.
        - apply Appointment_create_ok; auto.
          unfold doctorBooking. rewrite validRefs_snapshot.
          unfold validRefs. rewrite Htype, Ht. cbn. rewrite Hdoc, (Hcast _ Hdoc), Hnolab.
          destruct Hcases as [-> | ->]; reflexivity.
        - cbn. unfold doctorBooking. rewrite docType_snapshot, Htype. exact Ht. }
      split.
      * intros Hnotype. apply Hok; [|auto].
        unfold or_else. unfold truthy in Hnotype.
        destruct (ad_type data) as [t|]; [|reflexivity].
        destruct (String.eqb t ""); [reflexivity|discriminate].
      * intros type Htype' Hcases. apply Hok; [|auto].
        unfold or_else. rewrite Htype'.
        destruct Hcases as [-> | ->]; reflexivity.
    + intros doctor _ Hempty Hfind. rewrite Hfind. eexists.
      unfold Appointment_create. rewrite validRefs_snapshot.
      unfold validRefs. cbn. rewrite Hempty. cbn. rewrite andb_false_r. reflexivity.
    + intros a db'. destruct (doctors db !! default "" (ad_doctor data)) as [doctor|];
        [|discriminate].
      intros Hrun. apply Appointment_create_inv in Hrun as (Hrefs & -> & ->).
      split; [cbn; apply lookup_insert_eq|]. split; [discriminate|]. intros _.
      cbn. rewrite docType_snapshot. rewrite validRefs_snapshot in Hrefs.
      unfold validRefs in Hrefs. cbn in Hrefs. rewrite Hdoc, Hlab in Hrefs.
      unfold docType in *. cbn in *.
      destruct (castable (ad_doctor data) && castable (ad_lab data)); [|discriminate].
      cbn in Hrefs.
      destruct (String.eqb_spec (or_else (ad_type data) "offline") "online") as [->|_];
        [auto|].
      destruct (String.eqb_spec (or_else (ad_type data) "offline") "offline") as [->|_];
        [auto|].
      destruct (String.eqb (or_else (ad_type data) "offline") "lab"); discriminate.
  - (* lab only *)
    split; [discriminate|]. split; [discriminate|].
    eff_simpl. split; [|split; [discriminate|split; [|split; [discriminate|]]]].
    + intros lab Hnodoc _ Hfind Hrest [Hkey Hfresh]. rewrite Hfind.
      fold (labBooking data userId lab). split.
      * apply Appointment_create_ok; auto.
        unfold labBooking. rewrite validRefs_snapshot.
        unfold validRefs. cbn. rewrite Hlab, (Hcast _ Hlab), Hnodoc. reflexivity.
      * unfold labBooking. rewrite docType_snapshot. reflexivity.
    + intros lab Hempty _ Hfind. rewrite Hfind. eexists.
      unfold Appointment_create. rewrite validRefs_snapshot.
      unfold validRefs. cbn. rewrite Hempty. reflexivity.
    + intros a db'. destruct (labs db !! default "" (ad_lab data)) as [lab|];
        [|discriminate].
      intros Hrun. apply Appointment_create_inv in Hrun as (Hrefs & -> & ->).
      split; [cbn; apply lookup_insert_eq|]. split; [|discriminate]. intros _.
      cbn. rewrite docType_snapshot. reflexivity.
  - (* neither *)
    repeat split; try discriminate; auto.
Qed.

(** The effect of an update that carries at most [status] and [reason]. *)
Lemma statusAndReason_update id status reason db r db' :
  Appointment_findByIdAndUpdate id (statusAndReason status reason) db = (r, db') ->
  db' = db \/
  exists a, appointments db !! id = Some a /\
    db' = set_appointments
            (insert id (applyUpdate (statusAndReason status reason) a)) db /\
    r = Ok (Some (applyUpdate (statusAndReason status reason) a)).
Proof.
  unfold Appointment_findByIdAndUpdate.
  destruct (updateValid (statusAndReason status reason)); cbn;
    [|intros [= <- <-]; auto].
  eff_simpl. destruct (appointments db !! id) as [a|] eqn:Hfind; cbn;
    [|intros [= <- <-]; auto].
  rewrite bool_decide_eq_true_2 by reflexivity. cbn.
  intros [= <- <-]. right. exists a. auto.
Qed.

(** C5. An update by a doctor-role principal, whatever the payload: the
    other collections and the other appointments are untouched, and the
    stored appointment keeps every field except possibly [status] and
    [reason]. *)
Theorem doctor_update_frame db id updateData authUser :
  au_role authUser = "doctor" ->
  let db' := snd (updateAppointment id updateData authUser db) in
  users db' = users db /\ medicines db' = medicines db /\
  doctors db' = doctors db /\ labs db' = labs db /\ orders db' = orders db /\
  (forall id', id' <> id -> appointments db' !! id' = appointments db !! id') /\
  match appointments db !! id with
  | None => appointments db' !! id = None
  | Some a =>
      exists a', appointments db' !! id = Some a' /\ sameExceptStatusReason a a'
  end.
Proof.
  intros Hrole db'. subst db'.
  assert (Hsame : forall a, sameExceptStatusReason a a) by (unfold sameExceptStatusReason; auto 10).
  assert (Hkeep : let db' := db in
            users db' = users db /\ medicines db' = medicines db /\
            doctors db' = doctors db /\ labs db' = labs db /\ orders db' = orders db /\
            (forall id', id' <> id -> appointments db' !! id' = appointments db !! id') /\
            match appointments db !! id with
            | None => appointments db' !! id = None
            | Some a =>
                exists a', appointments db' !! id = Some a' /\ sameExceptStatusReason a a'
            end).
  { cbn. repeat split; auto. destruct (appointments db !! id); eauto. }
  unfold updateAppointment. eff_simpl. rewrite Hrole. cbn.
  destruct (appointments db !! id) as [a|] eqn:Hfind; cbn; [|exact Hkeep].
  destruct (Doctor_findOne_byUser (au_id authUser) db) as [[doctorId doctor]|];
    cbn; [|exact Hkeep].
  destruct (bool_decide (a_doctor a = Some doctorId)); cbn; [|exact Hkeep].
  destruct (Appointment_findByIdAndUpdate id
              (statusAndReason (up_status updateData) (up_reason updateData)) db)
    as [r db'] eqn:Hupd.
  apply statusAndReason_update in Hupd as [-> | (a0 & Ha0 & -> & _)]; cbn;
    [exact Hkeep|].
  rewrite Hfind in Ha0. injection Ha0 as <-.
  repeat split; auto.
  - intros id' Hne. apply lookup_insert_ne. congruence.
  - rewrite lookup_insert_eq. eexists. split; [reflexivity|].
    unfold sameExceptStatusReason. cbn. auto 10.
Qed.

(** What the assigned doctor's update writes: the payload's status and
    reason (each kept when the payload does not carry it), provided they
    pass the validators. *)
Lemma doctor_update_effect db id updateData authUser a doctorId doctor :
  au_role authUser = "doctor" ->
  appointments db !! id = Some a ->
  Doctor_findOne_byUser (au_id authUser) db = Some (doctorId, doctor) ->
  a_doctor a = Some doctorId ->
  updateValid (statusAndReason (up_status updateData) (up_reason updateData)) = true ->
  let a' := applyUpdate (statusAndReason (up_status updateData) (up_reason updateData)) a in
  updateAppointment id updateData authUser db
    = (Ok (Some a'), set_appointments (insert id a') db) /\
  a_status a' = default (a_status a) (up_status updateData) /\
  a_reason a' = match up_reason updateData with
                | Some x => Some x
                | None => a_reason a
                end.
Proof.
  intros Hrole Hfind Hprofile Hdoc Hvalid a'. subst a'.
  unfold updateAppointment. eff_simpl. rewrite Hrole, Hfind. cbn.
  rewrite Hprofile. cbn. rewrite bool_decide_eq_true_2 by assumption. cbn.
  unfold Appointment_findByIdAndUpdate. rewrite Hvalid. eff_simpl.
  rewrite Hfind. cbn. rewrite bool_decide_eq_true_2 by reflexivity. cbn. auto.
Qed.

(** C6. An update by a user-role principal of a stored appointment: the
    owner asking for status 'cancelled' succeeds and the stored appointment
    becomes the old one with status 'cancelled'; any other requested status,
    or a requester who is not the owner, is rejected with status 401 and the
    database is unchanged; so every success is the owner's cancellation. *)
Theorem user_update_cancel_only db id updateData authUser a :
  au_role authUser = "user" ->
  appointments db !! id = Some a ->
  let run := updateAppointment id updateData authUser db in
  (a_user a = au_id authUser -> up_status updateData = Some "cancelled" ->
   run = (Ok (Some (cancelled a)), set_appointments (insert id (cancelled a)) db)) /\
  (a_user a <> au_id authUser \/ up_status updateData <> Some "cancelled" ->
   exists msg, run = (Err (ErrorResponse msg 401), db)) /\
  (forall r db', run = (Ok r, db') ->
   a_user a = au_id authUser /\ up_status updateData = Some "cancelled").
Proof.
  intros Hrole Hfind run. subst run.
  unfold updateAppointment. eff_simpl. rewrite Hrole, Hfind. cbn.
  destruct (String.eqb_spec (a_user a) (au_id authUser)) as [Howner|Howner]; cbn.
  - destruct (bool_decide_reflect (up_status updateData = Some "cancelled"))
      as [Hstatus|Hstatus]; cbn.
    + split; [|split; [intros [?|?]; congruence | auto]].
      intros _ _. unfold Appointment_findByIdAndUpdate. cbn. eff_simpl.
      rewrite Hfind. cbn. rewrite bool_decide_eq_true_2 by reflexivity.
      reflexivity.
    + split; [congruence|]. split; [eauto|]. discriminate.
  - split; [congruence|]. split; [eauto|]. discriminate.
Qed.

End AppointmentProperties.

(** ** Appointments: reading, deleting, and the booked slot *)

Section AppointmentLifecycle.
Import AppointmentService.

(** X8. Reading one appointment changes nothing; when the user of the
    appointment exists, it is returned to its owner, to a doctor-role
    principal whose profile is the appointment's doctor, and to every admin
    and lab_staff principal; anybody else gets status 401.  When the user of
    the appointment is gone, every principal gets a TypeError. *)
Theorem getAppointment_access db id authUser a :
  appointments db !! id = Some a ->
  let run := getAppointment id authUser db in
  let assigned :=
    match a_doctor a ≫= (fun doctorId => doctors db !! doctorId) with
    | Some doctor => String.eqb (d_user doctor) (au_id authUser)
    | None => false
    end in
  snd run = db /\
  (users db !! a_user a = None -> exists msg, fst run = Err (TypeError msg)) /\
  (is_Some (users db !! a_user a) ->
   if String.eqb (a_user a) (au_id authUser)
      || String.eqb (au_role authUser) "doctor" && assigned
      || String.eqb (au_role authUser) "admin"
      || String.eqb (au_role authUser) "lab_staff"
   then fst run = Ok (populateAppointment db a)
   else fst run = Err (ErrorResponse ("User " +:+ au_id authUser +:+
                                      " is not authorized to view this appointment") 401)).
Proof.
  intros Hfind run assigned. subst run assigned.
  unfold getAppointment. eff_simpl. rewrite Hfind. cbn.
  destruct (users db !! a_user a) as [user|]; cbn.
  - destruct (a_doctor a) as [doctorId|]; cbn;
      [destruct (doctors db !! doctorId) as [doctor|]; cbn;
       [destruct (String.eqb (d_user doctor) (au_id authUser))|]|];
      destruct (String.eqb (a_user a) (au_id authUser)),
               (String.eqb (au_role authUser) "doctor"),
               (String.eqb (au_role authUser) "admin"),
               (String.eqb (au_role authUser) "lab_staff");
      cbn; (split; [reflexivity | split; [discriminate | intros _; reflexivity]]).
  - split; [reflexivity|]. split; [eauto|]. intros [? ?]. discriminate.
Qed.

Lemma snapshot_keeps_slot location address d :
  ad_user (snapshot location address d) = ad_user d /\
  ad_doctor (snapshot location address d) = ad_doctor d /\
  ad_appointmentDate (snapshot location address d) = ad_appointmentDate d /\
  ad_appointmentTime (snapshot location address d) = ad_appointmentTime d.
Proof.
  unfold snapshot. destruct location as [[[c|]]|]; [|auto..].
  destruct (truthy address); auto.
Qed.

(** [Appointment.create] refuses a document whose index key is stored. *)
Lemma Appointment_create_slot_taken newId now d db id0 a0 :
  appointments db !! id0 = Some a0 ->
  indexKey (toDocument now d) = indexKey a0 ->
  exists e, Appointment_create newId now d db = (Err e, db).
Proof.
  intros Hfind Hkey. unfold Appointment_create.
  destruct (validRefs d && validRest d); [|eauto]. eff_simpl.
  assert (Htaken : keyTaken newId (toDocument now d) db
                   || bool_decide (is_Some (appointments db !! newId)) = true).
  { destruct (decide (id0 = newId)) as [<-|Hne].
    - rewrite Hfind. rewrite (bool_decide_eq_true_2 _ (mk_is_Some _ _ eq_refl)).
      apply orb_true_r.
    - apply orb_true_intro. left. unfold keyTaken. apply existsb_exists.
      exists (id0, a0). split.
      + apply list_elem_of_In, elem_of_map_to_list, Hfind.
      + cbn. destruct (String.eqb_spec id0 newId) as [?|_]; [contradiction|]. cbn.
        apply bool_decide_eq_true_2. now symmetry. }
  rewrite Htaken. cbn. eauto.
Qed.

(** X9. A slot is booked once: when the stored appointments hold one of the
    caller for the doctor reference, the date and the time of the request (a
    request for a lab has the doctor reference [null], whatever the lab),
    [createAppointment] fails and writes nothing; the status of the stored
    appointment does not matter, so a cancelled one blocks the slot too. *)
Theorem createAppointment_slot_taken db data userId newId now id0 a0 :
  appointments db !! id0 = Some a0 ->
  a_user a0 = userId ->
  a_doctor a0 = castId (ad_doctor data) ->
  ad_appointmentDate data = Some (a_appointmentDate a0) ->
  ad_appointmentTime data = Some (a_appointmentTime a0) ->
  exists e, createAppointment data userId newId now db = (Err e, db).
Proof.
  intros Hfind Huser Hdoctor Hdate Htime. unfold createAppointment. cbn.
  destruct (truthy (ad_doctor data) && truthy (ad_lab data)); [eauto|].
  destruct (negb (truthy (ad_doctor data)) && negb (truthy (ad_lab data))); [eauto|].
  assert (Hkey : forall location address type,
             indexKey (toDocument now
                         (snapshot location address
                            (set_type type (set_user userId data))))
             = indexKey a0).
  { intros location address type. unfold indexKey, toDocument.
    destruct (snapshot_keeps_slot location address
                (set_type type (set_user userId data))) as (-> & -> & -> & ->).
    cbn. rewrite Hdate, Htime, <- Hdoctor, Huser. reflexivity. }
  destruct (truthy (ad_doctor data)); eff_simpl.
  - destruct (doctors db !! default "" (ad_doctor data)) as [doctor|]; [|eauto].
    eapply Appointment_create_slot_taken; eauto.
  - destruct (labs db !! default "" (ad_lab data)) as [lab|]; [|eauto].
    eapply Appointment_create_slot_taken; eauto.
Qed.

(** A success of [Appointment.create] inserts the document under an id that
    was free. *)
Lemma Appointment_create_fresh newId now d db a db' :
  Appointment_create newId now d db = (Ok a, db') ->
  appointments db !! newId = None /\ db' = set_appointments (insert newId a) db.
Proof.
  unfold Appointment_create.
  destruct (validRefs d && validRest d); [|discriminate]. eff_simpl.
  destruct (appointments db !! newId) as [old|] eqn:Hold.
  - rewrite (bool_decide_eq_true_2 _ (mk_is_Some _ _ eq_refl)), orb_true_r.
    discriminate.
  - case_match; cbn; [discriminate|]. intros [= <- <-]. auto.
Qed.

Lemma createAppointment_fresh data userId newId now db a db' :
  createAppointment data userId newId now db = (Ok a, db') ->
  appointments db !! newId = None /\ db' = set_appointments (insert newId a) db.
Proof.
  unfold createAppointment. cbn.
  destruct (truthy (ad_doctor data) && truthy (ad_lab data)); [discriminate|].
  destruct (negb (truthy (ad_doctor data)) && negb (truthy (ad_lab data)));
    [discriminate|].
  destruct (truthy (ad_doctor data)); eff_simpl.
  - destruct (doctors db !! default "" (ad_doctor data)); [|discriminate].
    apply Appointment_create_fresh.
  - destruct (labs db !! default "" (ad_lab data)); [|discriminate].
    apply Appointment_create_fresh.
Qed.

(** X10. Deleting is the admin's alone and undoes a creation exactly: after a
    successful [createAppointment], the admin's [deleteAppointment] of the
    new appointment gives back the database as it was before the creation;
    any other principal gets status 401 and nothing is deleted. *)
Theorem deleteAppointment_undoes_create db data userId newId now a db1 authUser :
  createAppointment data userId newId now db = (Ok a, db1) ->
  (au_role authUser = "admin" ->
   deleteAppointment newId authUser db1 = (Ok tt, db)) /\
  (au_role authUser <> "admin" ->
   deleteAppointment newId authUser db1
   = (Err (ErrorResponse ("User " +:+ au_id authUser +:+
                          " is not authorized to delete this appointment") 401), db1)).
Proof.
  intros Hcreate. apply createAppointment_fresh in Hcreate as [Hfresh ->].
  unfold deleteAppointment. eff_simpl. rewrite lookup_insert_eq.
  destruct (String.eqb_spec (au_role authUser) "admin") as [Hadm|Hadm]; cbn.
  - split; [|congruence]. intros _. f_equal.
    destruct db as [us ms ds ls apps os]. unfold set_appointments. cbn in *.
    f_equal. apply delete_insert_id, Hfresh.
  - split; [congruence | reflexivity].
Qed.

(** What [findByIdAndUpdate] can do to the database: nothing, or replace the
    document stored under the id. *)
Lemma Appointment_findByIdAndUpdate_effect id u db :
  snd (Appointment_findByIdAndUpdate id u db) = db \/
  exists a, appointments db !! id = Some a /\
    snd (Appointment_findByIdAndUpdate id u db)
    = set_appointments (insert id (applyUpdate u a)) db.
Proof.
  unfold Appointment_findByIdAndUpdate.
  destruct (updateValid u); cbn; [|auto].
  eff_simpl. destruct (appointments db !! id) as [a|] eqn:Hfind; cbn; [|auto].
  case_match; cbn; [auto|]. right. exists a. auto.
Qed.

(** What [updateAppointment] can do to the database: nothing, or replace
    the appointment stored under the id by an update of it. *)
Lemma updateAppointment_effect id updateData authUser db :
  snd (updateAppointment id updateData authUser db) = db \/
  exists a u, appointments db !! id = Some a /\
    snd (updateAppointment id updateData authUser db)
    = set_appointments (insert id (applyUpdate u a)) db.
Proof.
  assert (Hupd : forall u,
             snd (Appointment_findByIdAndUpdate id u db) = db \/
             exists a u0, appointments db !! id = Some a /\
               snd (Appointment_findByIdAndUpdate id u db)
               = set_appointments (insert id (applyUpdate u0 a)) db).
  { intros u.
    destruct (Appointment_findByIdAndUpdate_effect id u db) as [H|(a & Ha & H)];
      [auto|]. right. exists a, u. auto. }
  unfold updateAppointment. revert Hupd.
  generalize (Appointment_findByIdAndUpdate id). intros update Hupd. eff_simpl.
  destruct (appointments db !! id) as [a|]; cbn; [|auto].
  destruct (String.eqb (au_role authUser) "admin"); [apply Hupd|].
  destruct (String.eqb (au_role authUser) "doctor"); cbn.
  { destruct (Doctor_findOne_byUser (au_id authUser) db) as [[doctorId doctor]|];
      cbn; [|auto].
    destruct (negb (bool_decide (a_doctor a = Some doctorId))); cbn; [auto|].
    apply Hupd. }
  destruct (String.eqb (au_role authUser) "user"); cbn; [|auto].
  destruct (negb (String.eqb (a_user a) (au_id authUser))
            || negb (bool_decide (up_status updateData = Some "cancelled")));
    [cbn; auto | apply Hupd].
Qed.

(** X11. An update never creates or removes an appointment and never touches
    another appointment or another collection, whatever the role and the
    payload; for an id that is not stored every principal gets status 404, and
    on a stored appointment a principal whose role is none of admin, doctor
    and user gets status 403. *)
Theorem updateAppointment_frame db id updateData authUser :
  let run := updateAppointment id updateData authUser db in
  (users (snd run) = users db /\ medicines (snd run) = medicines db /\
   doctors (snd run) = doctors db /\ labs (snd run) = labs db /\
   orders (snd run) = orders db /\
   (forall id', id' <> id -> appointments (snd run) !! id' = appointments db !! id') /\
   (is_Some (appointments (snd run) !! id) <-> is_Some (appointments db !! id))) /\
  (appointments db !! id = None ->
   run = (Err (ErrorResponse ("Appointment not found with id of " +:+ id) 404), db)) /\
  (is_Some (appointments db !! id) ->
   au_role authUser <> "admin" -> au_role authUser <> "doctor" ->
   au_role authUser <> "user" ->
   run = (Err (ErrorResponse ("User role " +:+ au_role authUser +:+
                              " is not authorized to update appointments") 403), db)).
Proof.
  intros run. subst run. split; [|split].
  - destruct (updateAppointment_effect id updateData authUser db)
      as [-> | (a & u & Ha & ->)]; [repeat split; auto|].
    cbn. repeat split; auto.
    + intros id' Hne. apply lookup_insert_ne. congruence.
    + intros _. rewrite lookup_insert_eq. eauto.
  - intros Hnone. unfold updateAppointment. eff_simpl. now rewrite Hnone.
  - intros [a Ha] Hadm Hdoc Husr. unfold updateAppointment. eff_simpl. rewrite Ha. cbn.
    destruct (String.eqb_spec (au_role authUser) "admin"); [contradiction|].
    destruct (String.eqb_spec (au_role authUser) "doctor"); [contradiction|].
    destruct (String.eqb_spec (au_role authUser) "user"); [contradiction|].
    reflexivity.
Qed.

End AppointmentLifecycle.

(** ** Password reset *)

Section ResetProperties.
Import AuthController.
Variable transportOk : EmailOptions -> bool.
Variable bcryptHash : string -> string.
Variable signJwt : string -> string.
Variable emailValid : string -> bool.

Lemma length_append (s t : string) :
  String.length (s +:+ t) = (String.length s + String.length t)%nat.
Proof.
  induction s as [|c s IH]; [reflexivity|].
  change (String c s +:+ t) with (String c (s +:+ t)). cbn. now rewrite IH.
Qed.

Lemma append_assoc (s t u : string) : (s +:+ t) +:+ u = s +:+ (t +:+ u).
Proof.
  induction s as [|c s IH]; [reflexivity|].
  change (String c ((s +:+ t) +:+ u) = String c (s +:+ (t +:+ u))). now rewrite IH.
Qed.

(** The digest function agrees with the test vectors of FIPS 180-4 (one
    block, the empty message, two blocks). *)
Example sha256_abc :
  Crypto.sha256_hex "abc"
  = "ba7816bf8f01cfea414140de5dae2223b00361a396177a9cb410ff61f20015ad".
Proof. vm_compute. reflexivity. Qed.

Example sha256_empty :
  Crypto.sha256_hex ""
  = "e3b0c44298fc1c149afbf4c8996fb92427ae41e4649b934ca495991b7852b855".
Proof. vm_compute. reflexivity. Qed.

Example sha256_two_blocks :
  Crypto.sha256_hex "abcdbcdecdefdefgefghfghighijhijkijkljklmklmnlmnomnopnopq"
  = "248d6a61d20638b8e5c026930c3e6039a33ce45964ff2167f6ecedd419db06c1".
Proof. vm_compute. reflexivity. Qed.




Lemma find_none_intro {A} (f : A -> bool) (l : list A) :
  (forall x, In x l -> f x = false) -> List.find f l = None.
Proof.
  induction l as [|x l IH]; intros H; [reflexivity|].
  cbn. rewrite (H x (or_introl eq_refl)). apply IH. intros y Hy. apply H. now right.
Qed.

(** [findOne] returns a stored document that satisfies the filter. *)
Lemma User_findOne_Some p db userId user :
  User_findOne p db = Some (userId, user) ->
  users db !! userId = Some user /\ p user = true.
Proof.
  unfold User_findOne. intros H. apply find_some in H as [Hin Hp].
  split; [|exact Hp]. apply elem_of_map_to_list, list_elem_of_In, Hin.
Qed.

(** [findOne] finds the only stored document that satisfies the filter. *)
Lemma User_findOne_unique p db userId user :
  users db !! userId = Some user -> p user = true ->
  (forall k u, users db !! k = Some u -> k <> userId -> p u = false) ->
  User_findOne p db = Some (userId, user).
Proof.
  intros Hfind Hp Hothers.
  destruct (User_findOne p db) as [[k u]|] eqn:Hres.
  - apply User_findOne_Some in Hres as [Hk Hu].
    destruct (decide (k = userId)) as [->|Hne]; [congruence|].
    rewrite (Hothers k u Hk Hne) in Hu. discriminate.
  - unfold User_findOne in Hres.
    apply find_none with (x := (userId, user)) in Hres; [cbn in Hres; congruence|].
    apply list_elem_of_In, elem_of_map_to_list, Hfind.
Qed.

Lemma User_findOne_None p db :
  (forall k u, users db !! k = Some u -> p u = false) ->
  User_findOne p db = None.
Proof.
  intros H. apply find_none_intro. intros [k u] Hin. cbn.
  apply (H k). apply elem_of_map_to_list, list_elem_of_In, Hin.
Qed.

(** C8. A forgot-password request for an email no user has is answered
    with status 200, [success: true], 'Email sent', and changes neither the
    database nor the outbox: no token is issued.  A request for the email of
    a stored user whose mail is accepted by the transport gets the same
    answer (and there a token is stored and the mail is sent). *)
Theorem forgotPassword_does_not_reveal_accounts email protocol host randomBytes now w :
  User_findOne (fun u => String.eqb (u_email u) email) (w_db w) = None ->
  forgotPassword transportOk email protocol host randomBytes now w
    = (Json 200 true "Email sent", w) /\
  (forall email' protocol' host' randomBytes' now' w' userId user,
   User_findOne (fun u => String.eqb (u_email u) email') (w_db w')
     = Some (userId, user) ->
   (forall options, transportOk options = true) ->
   let genuine := forgotPassword transportOk email' protocol' host' randomBytes' now' w' in
   fst genuine = fst (forgotPassword transportOk email protocol host randomBytes now w) /\
   users (w_db (snd genuine)) !! userId
     = Some (snd (getResetPasswordToken randomBytes' now' user)) /\
   length (w_outbox (snd genuine)) = S (length (w_outbox w'))).
Proof.
  intros Hnone. unfold forgotPassword. rewrite Hnone. split; [reflexivity|].
  intros email' protocol' host' randomBytes' now' w' userId user Hsome Hok.
  rewrite Hsome. cbn. rewrite Hok. cbn.
  split; [reflexivity|]. split; [apply lookup_insert_eq | reflexivity].
Qed.


(** Who reads the stored digest cannot use it as a token: presenting the
    digest of the scenario's token is refused (it is hashed once more). *)
Example stored_digest_is_no_token :
  let raw := Crypto.toHex (repeat 171 20) in
  let issued := forgotPassword (fun _ => true) "alice@example.com" "https"
                  "wellness.example" (repeat 171 20) 1000
                  (mkWorld Scenario.db0 []) in
  (u_resetPasswordToken <$> users (w_db (snd issued)) !! "u1")
  = Some (Some (Crypto.sha256_hex raw)) /\
  fst (resetPassword bcryptHash signJwt emailValid (Crypto.sha256_hex raw) (Some "s3cret!") 2000
         (snd issued))
  = Next (ErrorResponse "Invalid or expired reset token" 400).
Proof. vm_compute. split; reflexivity. Qed.

End ResetProperties.

(** ** Accounts: registration, login, and the life of a reset token *)

Section AccountProperties.
Import AuthController.
Variable transportOk : EmailOptions -> bool.
Variable bcryptHash : string -> string.
Variable signJwt : string -> string.
Variable bcryptCompare : string -> string -> bool.
Variable emailValid : string -> bool.
Variable User_findOne_cast : jval -> DB -> result (option (string * User)).

(** X15. [login] writes nothing.  With an email and a password that are
    non-empty strings it fails in one way only: whether no user has the email
    or the password is wrong, the answer is status 401 with 'Invalid
    credentials'; it succeeds only for a stored user with that email whose
    stored hash matches the password, and then answers with that user's
    token.  The failure is not uniform for a password that is truthy but no
    string (a number, [true], an array, an object): with the email of a
    stored user [bcrypt.compare] rejects and the answer is that plain error,
    with an email that no user has it is status 401. *)
Theorem login_uniform_failure email password w :
  let run := login signJwt bcryptCompare User_findOne_cast email password w in
  snd run = w /\
  (forall e p, email = Some (JStr e) -> password = Some (JStr p) ->
   e <> "" -> p <> "" ->
   (exists userId user,
      users (w_db w) !! userId = Some user /\ u_email user = e /\
      bcryptCompare p (u_password user) = true /\
      fst run = TokenResponse 200 (signJwt userId) userId) \/
   fst run = Next (ErrorResponse "Invalid credentials" 401)) /\
  (forall e v, email = Some (JStr e) -> password = Some v ->
   e <> "" -> js_truthy v = true -> (forall p, v <> JStr p) ->
   ((exists userId user, users (w_db w) !! userId = Some user /\ u_email user = e) ->
    fst run = Next (JsError ("Illegal arguments: " +:+ typeof v +:+ ", string"))) /\
   ((forall userId user, users (w_db w) !! userId = Some user -> u_email user <> e) ->
    fst run = Next (ErrorResponse "Invalid credentials" 401))).
Proof.
  intros run. subst run. split; [|split].
  - unfold login.
    destruct (negb (from_option js_truthy false email)
              || negb (from_option js_truthy false password)); [reflexivity|].
    destruct email as [[| | |e| |]|]; cbn;
      try (destruct (User_findOne_cast _ (w_db w)) as [[[userId user]|]|err]);
      try (destruct (User_findOne _ (w_db w)) as [[userId user]|]);
      try reflexivity;
      destruct password as [[| | |p| |]|]; try reflexivity;
      destruct (bcryptCompare p (u_password user)); reflexivity.
  - intros e p -> -> He Hp. unfold login. cbn.
    destruct (String.eqb_spec e ""); [contradiction|].
    destruct (String.eqb_spec p ""); [contradiction|]. cbn.
    destruct (User_findOne _ (w_db w)) as [[userId user]|] eqn:Hfind; [|auto].
    apply User_findOne_Some in Hfind as [Hlookup Hemail].
    apply String.eqb_eq in Hemail.
    destruct (bcryptCompare p (u_password user)) eqn:Hmatch; cbn; [|auto].
    left. exists userId, user. auto.
  - intros e v -> -> He Hv Hnostring. unfold login. cbn [from_option].
    rewrite Hv. cbn [js_truthy].
    destruct (String.eqb_spec e ""); [contradiction|]. cbn [negb orb].
    split.
    + intros (userId & user & Hlookup & Hemail).
      destruct (User_findOne _ (w_db w)) as [[userId' user']|] eqn:Hfind.
      * destruct v; try reflexivity; try discriminate.
        exfalso. eapply Hnostring. reflexivity.
      * exfalso.
        pose proof (find_none _ _ Hfind (userId, user)) as Hnone.
        cbn in Hnone. rewrite Hemail, String.eqb_refl in Hnone.
        enough (false = true) by discriminate. symmetry. apply Hnone.
        apply list_elem_of_In, elem_of_map_to_list, Hlookup.
    + intros Hnone. rewrite User_findOne_None; [reflexivity|].
      intros k u Hk. apply String.eqb_neq. eauto.
Qed.

Lemma User_findOne_None_inv p db :
  User_findOne p db = None ->
  forall k u, users db !! k = Some u -> p u = false.
Proof.
  unfold User_findOne. intros Hnone k u Hk.
  apply (find_none _ _ Hnone (k, u)).
  apply list_elem_of_In, elem_of_map_to_list, Hk.
Qed.

(** X16. A registration that is answered with a token stored a new user
    under the new id, with the name trimmed, the email as sent, the bcrypt
    hash of the password (not the password), no reset token, and the role
    the body asked for ('user' when it asked for none): any role of the enum,
    'admin' included.  If bcrypt matches a password with its own hash, the
    new user can log in with the email and the password at once. *)
Theorem register_then_login body newId w status token userId w' :
  register bcryptHash signJwt emailValid body newId w
  = (TokenResponse status token userId, w') ->
  exists name email password,
    rb_name body = Some name /\ rb_email body = Some email /\
    rb_password body = Some password /\
    userId = newId /\ token = signJwt newId /\ status = 200 /\
    users (w_db w) !! newId = None /\
    w' = mkWorld (set_users
                    (insert newId
                       (mkUser (JS.trim name) email (bcryptHash password)
                          (default "user" (rb_role body))
                          (rb_phone body) (rb_address body) None None))
                    (w_db w)) (w_outbox w) /\
    In (default "user" (rb_role body)) roleEnum /\
    (bcryptCompare password (bcryptHash password) = true ->
     login signJwt bcryptCompare User_findOne_cast
       (Some (JStr email)) (Some (JStr password)) w'
     = (TokenResponse 200 (signJwt newId) newId, w')).
Proof.
  unfold register.
  destruct (registerValid emailValid body) eqn:Hvalid; [|discriminate].
  destruct (User_findOne _ (w_db w)) as [found|] eqn:Hfind.
  { rewrite (bool_decide_eq_true_2 _ (mk_is_Some _ _ eq_refl)). discriminate. }
  rewrite (bool_decide_eq_false_2 (is_Some None)) by (intros [? ?]; discriminate).
  destruct (users (w_db w) !! newId) as [old|] eqn:Hfresh.
  { rewrite (bool_decide_eq_true_2 _ (mk_is_Some _ _ eq_refl)). discriminate. }
  rewrite (bool_decide_eq_false_2 (is_Some None)) by (intros [? ?]; discriminate).
  cbn. unfold sendTokenResponse. intros [= <- <- <- <-].
  revert Hvalid. unfold registerValid. rewrite !andb_true_iff.
  intros ((((([Hname _] & Hemail) & Hpw) & Hrole) & _) & _).
  apply existsb_exists in Hrole as (r & Hin & Heq).
  apply String.eqb_eq in Heq. subst r.
  destruct (rb_name body) as [name|] eqn:Hn; [|discriminate].
  destruct (rb_email body) as [email|] eqn:He; [|discriminate].
  destruct (rb_password body) as [password|] eqn:Hp; [|discriminate].
  cbn in *. apply andb_true_iff in Hemail as [Hemail _].
  exists name, email, password. unfold newUser. rewrite Hn, He, Hp. cbn.
  repeat split; auto.
  intros Hmatch. unfold login. cbn.
  assert (Hnonempty : forall s : string, (6 <=? JS.length s)%nat = true ->
                                         negb (String.eqb s "") = true).
  { intros [|c s]; [discriminate | reflexivity]. }
  rewrite Hemail, (Hnonempty _ Hpw). cbn.
  rewrite (User_findOne_unique (fun u => String.eqb (u_email u) email) _ newId
             (mkUser (JS.trim name) email (bcryptHash password)
                (default "user" (rb_role body))
                (rb_phone body) (rb_address body) None None)).
  - cbn. rewrite Hmatch. reflexivity.
  - cbn. apply lookup_insert_eq.
  - cbn. apply String.eqb_refl.
  - intros k u Hk Hne. cbn in Hk. rewrite lookup_insert_ne in Hk by congruence.
    exact (User_findOne_None_inv _ _ Hfind k u Hk).
Qed.

(** X17. The life of a reset token.  After a reset token was issued at time
    [now] (and mailed), a reset with it at a time that is not before [now]
    plus ten minutes is refused with status 400; a reset in time is refused
    by the validation of [user.save()] when the password is absent or shorter
    than six UTF-16 code units, or when the stored user does not pass the
    validators of its schema; in these cases nothing is written, so the token
    is still good for a reset in time, which succeeds for a valid stored user
    and a password of six code units or more. *)
Theorem reset_token_lifetime email protocol host randomBytes now w userId user :
  User_findOne (fun u => String.eqb (u_email u) email) (w_db w) = Some (userId, user) ->
  (forall options, transportOk options = true) ->
  let raw := Crypto.toHex randomBytes in
  (forall k u, users (w_db w) !! k = Some u -> k <> userId ->
               u_resetPasswordToken u <> Some (Crypto.sha256_hex raw)) ->
  let issued := snd (forgotPassword transportOk email protocol host randomBytes now w) in
  (forall password now', now + 10 * 60 * 1000 <= now' ->
   resetPassword bcryptHash signJwt emailValid raw password now' issued
   = (Next (ErrorResponse "Invalid or expired reset token" 400), issued)) /\
  (forall password now', now' < now + 10 * 60 * 1000 ->
   from_option (fun p => (JS.length p <? 6)%nat) true password = true
   \/ userValid emailValid user = false ->
   exists msg, resetPassword bcryptHash signJwt emailValid raw password now' issued
               = (Next (ValidationError msg), issued)) /\
  (forall password now', now' < now + 10 * 60 * 1000 ->
   (6 <= JS.length password)%nat -> userValid emailValid user = true ->
   fst (resetPassword bcryptHash signJwt emailValid raw (Some password) now' issued)
   = TokenResponse 200 (signJwt userId) userId).
Proof.
  intros Hfind Hok raw Hfresh issued.
  pose proof (User_findOne_Some _ _ _ _ Hfind) as [Hlookup _].
  set (stored := set_reset (Some (Crypto.sha256_hex raw)) (Some (now + 10 * 60 * 1000))
                   user).
  assert (Hissued : w_db issued = set_users (insert userId stored) (w_db w)).
  { subst issued. unfold forgotPassword. rewrite Hfind. cbn. rewrite Hok. reflexivity. }
  assert (Hothers : forall k u, users (w_db issued) !! k = Some u -> k <> userId ->
                      u_resetPasswordToken u <> Some (Crypto.sha256_hex raw)).
  { intros k u Hk Hne. rewrite Hissued in Hk. cbn in Hk.
    rewrite lookup_insert_ne in Hk by congruence. eauto. }
  assert (Hstored : users (w_db issued) !! userId = Some stored).
  { rewrite Hissued. cbn. apply lookup_insert_eq. }
  assert (Hlate : forall now', now + 10 * 60 * 1000 <= now' ->
            User_findOne
              (fun u => bool_decide (u_resetPasswordToken u = Some (Crypto.sha256_hex raw))
                        && from_option (fun expire => now' <? expire) false
                             (u_resetPasswordExpire u))
              (w_db issued) = None).
  { intros now' Hnow. apply User_findOne_None. intros k u Hk.
    destruct (decide (k = userId)) as [->|Hne].
    - rewrite Hstored in Hk. injection Hk as <-. cbn.
      rewrite bool_decide_eq_true_2 by reflexivity. cbn. apply Z.ltb_ge. lia.
    - rewrite bool_decide_eq_false_2 by eauto. reflexivity. }
  assert (Hintime : forall now', now' < now + 10 * 60 * 1000 ->
            User_findOne
              (fun u => bool_decide (u_resetPasswordToken u = Some (Crypto.sha256_hex raw))
                        && from_option (fun expire => now' <? expire) false
                             (u_resetPasswordExpire u))
              (w_db issued) = Some (userId, stored)).
  { intros now' Hnow. apply User_findOne_unique; [exact Hstored | |].
    - cbn. rewrite bool_decide_eq_true_2 by reflexivity. cbn. apply Z.ltb_lt. lia.
    - intros k u Hk Hne. rewrite bool_decide_eq_false_2 by eauto. reflexivity. }
  split; [|split].
  - intros password now' Hnow. unfold resetPassword. fold raw.
    now rewrite (Hlate now' Hnow).
  - intros password now' Hnow Hweak. unfold resetPassword. fold raw.
    rewrite (Hintime now' Hnow).
    change (userValid emailValid stored) with (userValid emailValid user).
    destruct Hweak as [Hweak|Hweak].
    + destruct password as [p|]; [|eexists; reflexivity].
      cbn [from_option] in Hweak. apply Nat.ltb_lt in Hweak. cbn [from_option].
      destruct (Nat.leb_spec 6 (JS.length p)); [lia | eexists; reflexivity].
    + rewrite Hweak, andb_false_r. eexists. reflexivity.
  - intros password now' Hnow Hlen Hvalid. unfold resetPassword. fold raw.
    rewrite (Hintime now' Hnow).
    change (userValid emailValid stored) with (userValid emailValid user).
    rewrite Hvalid. cbn [from_option].
    destruct (Nat.leb_spec 6 (JS.length password)); [reflexivity | lia].
Qed.

(** X18. When the mail cannot be sent, [forgotPassword] answers with status
    500, sends nothing, and leaves the user without any reset token: the new
    one is withdrawn, and one that was outstanding is gone with it.  The
    token that was generated is refused afterwards. *)
Theorem forgotPassword_failed_mail email protocol host randomBytes now w userId user :
  User_findOne (fun u => String.eqb (u_email u) email) (w_db w) = Some (userId, user) ->
  (forall options, transportOk options = false) ->
  let raw := Crypto.toHex randomBytes in
  (forall k u, users (w_db w) !! k = Some u -> k <> userId ->
               u_resetPasswordToken u <> Some (Crypto.sha256_hex raw)) ->
  let run := forgotPassword transportOk email protocol host randomBytes now w in
  fst run = Next (ErrorResponse "Email could not be sent" 500) /\
  w_outbox (snd run) = w_outbox w /\
  users (w_db (snd run)) !! userId = Some (set_reset None None user) /\
  (forall k, k <> userId -> users (w_db (snd run)) !! k = users (w_db w) !! k) /\
  (forall password now',
   resetPassword bcryptHash signJwt emailValid raw password now' (snd run)
   = (Next (ErrorResponse "Invalid or expired reset token" 400), snd run)).
Proof.
  intros Hfind Hfail raw Hfresh run.
  assert (Hrun : run = (Next (ErrorResponse "Email could not be sent" 500),
                        mkWorld (set_users (insert userId (set_reset None None user))
                                   (set_users
                                      (insert userId
                                         (snd (getResetPasswordToken randomBytes now user)))
                                      (w_db w)))
                          (w_outbox w))).
  { subst run. unfold forgotPassword. rewrite Hfind. cbn. rewrite Hfail. reflexivity. }
  rewrite Hrun. cbn [fst snd w_db w_outbox].
  split; [reflexivity|]. split; [reflexivity|]. split; [cbn; apply lookup_insert_eq|].
  split.
  - intros k Hne. cbn. now rewrite !lookup_insert_ne by congruence.
  - intros password now'. unfold resetPassword. fold raw.
    rewrite User_findOne_None; [reflexivity|].
    intros k u Hk. cbn in Hk.
    destruct (decide (k = userId)) as [->|Hne].
    + rewrite lookup_insert_eq in Hk. injection Hk as <-. reflexivity.
    + rewrite !lookup_insert_ne in Hk by congruence.
      rewrite bool_decide_eq_false_2 by eauto. reflexivity.
Qed.

(** X19. [updateDetails] copies five fields of the request and no other: the
    role, the password hash and the reset token of every user are after the
    call what they were before it, whatever the request carries; no user is
    created or removed, no other user is changed, and the other collections
    are untouched. *)
Theorem updateDetails_keeps_credentials userId updateData db :
  let db' := snd (UserService.updateDetails emailValid userId updateData db) in
  (forall k, match users db !! k, users db' !! k with
             | Some u, Some u' =>
                 u_role u' = u_role u /\ u_password u' = u_password u /\
                 u_resetPasswordToken u' = u_resetPasswordToken u /\
                 u_resetPasswordExpire u' = u_resetPasswordExpire u /\
                 (k <> userId -> u' = u)
             | None, None => True
             | _, _ => False
             end) /\
  medicines db' = medicines db /\ doctors db' = doctors db /\ labs db' = labs db /\
  appointments db' = appointments db /\ orders db' = orders db.
Proof.
  intros db'. subst db'.
  assert (Hsame : forall r : result User,
             let db' := snd (r, db) in
             (forall k, match users db !! k, users db' !! k with
                        | Some u, Some u' =>
                            u_role u' = u_role u /\ u_password u' = u_password u /\
                            u_resetPasswordToken u' = u_resetPasswordToken u /\
                            u_resetPasswordExpire u' = u_resetPasswordExpire u /\
                            (k <> userId -> u' = u)
                        | None, None => True
                        | _, _ => False
                        end) /\
             medicines db' = medicines db /\ doctors db' = doctors db /\
             labs db' = labs db /\ appointments db' = appointments db /\
             orders db' = orders db).
  { intros r. cbn. split; [|auto 10]. intros k. destruct (users db !! k); auto 10. }
  unfold UserService.updateDetails.
  destruct (UserService.updateValid emailValid updateData); cbn;
    [|apply (Hsame (Err (ValidationError "")))].
  eff_simpl. destruct (users db !! userId) as [user|] eqn:Hfind; cbn;
    [|apply (Hsame (Err (ValidationError "")))].
  case_match; cbn; [apply (Hsame (Err (ValidationError "")))|].
  split; [|auto 10]. intros k. destruct (decide (k = userId)) as [->|Hne].
  - rewrite Hfind, lookup_insert_eq. cbn. repeat split; auto. congruence.
  - rewrite lookup_insert_ne by congruence. destruct (users db !! k); auto 10.
Qed.

End AccountProperties.

(** ** The query composer *)

Section QueryProperties.
Import Mongoose.
Variable regex_test : string -> string -> string -> bool.
Variable castCompare : string -> jval -> jval -> option comparison.

Lemma obj_set_keys kvs k v k' :
  k' ∈ map fst (obj_set kvs k v) <-> k' ∈ map fst kvs \/ k' = k.
Proof.
  induction kvs as [|[k0 v0] kvs IH]; cbn.
  - rewrite list_elem_of_singleton. split; [auto|].
    intros [Hin | ->]; [|reflexivity]. now apply elem_of_nil in Hin.
  - destruct (String.eqb_spec k0 k) as [->|Hne]; cbn.
    + rewrite elem_of_cons. split; [auto|]. intros [H | ->]; [exact H | now left].
    + rewrite !elem_of_cons, IH. tauto.
Qed.

(** Assigning a property keeps the keys of an object distinct. *)
Lemma obj_set_NoDup kvs k v :
  NoDup (map fst kvs) -> NoDup (map fst (obj_set kvs k v)).
Proof.
  induction kvs as [|[k0 v0] kvs IH]; cbn; intros Hnd.
  - apply NoDup_singleton.
  - apply NoDup_cons in Hnd as [Hk0 Hnd].
    destruct (String.eqb_spec k0 k) as [->|Hne]; cbn.
    + apply NoDup_cons. auto.
    + apply NoDup_cons. split; [|auto].
      rewrite obj_set_keys. intros [?|?]; congruence.
Qed.

(** The members of an object parse to an object with distinct keys. *)
Lemma parse_members_object fuel s acc v rest :
  NoDup (map fst acc) ->
  JSON.parse_members fuel s acc = Some (v, rest) ->
  exists kvs, v = JObj kvs /\ NoDup (map fst kvs).
Proof.
  revert s acc. induction fuel as [|fuel IH]; intros s acc Hnd; [cbn; done|].
  cbn. repeat case_match; try done.
  - intros [= <- <-]. eauto using obj_set_NoDup.
  - apply IH. apply obj_set_NoDup, Hnd.
Qed.

(** Reading an object: the empty one, or its members. *)
Lemma parse_value_brace fuel r :
  JSON.parse_value (S fuel) (String "{" r)
  = match JSON.skip_ws r with
    | String "}" r' => Some (JObj [], r')
    | _ => JSON.parse_members fuel r []
    end.
Proof. reflexivity. Qed.

(** A text that opens with a brace parses to an object, if it parses. *)
Lemma parse_brace_object r v :
  JSON.parse (String "{" r) = Some v ->
  exists kvs, v = JObj kvs /\ NoDup (map fst kvs).
Proof.
  unfold JSON.parse. rewrite parse_value_brace.
  destruct (match JSON.skip_ws r with
            | String "}" r' => Some (JObj [], r')
            | _ => JSON.parse_members (String.length (String "{" r)) r []
            end) as [[v' rest]|] eqn:Hv; [|done].
  intros Hrest. assert (v' = v) as -> by (repeat case_match; congruence).
  clear Hrest.
  repeat case_match;
    try (apply parse_members_object in Hv; [exact Hv | apply NoDup_nil_2]).
  injection Hv as <- _. exists []. split; [reflexivity | apply NoDup_nil_2].
Qed.

(** [filter()] always leaves an object in [filterConditions]. *)
Lemma filterConditions_object this :
  exists kvs, APIFeatures.filterConditions (APIFeatures.filter this) = JObj kvs
              /\ NoDup (map fst kvs).
Proof.
  unfold APIFeatures.filter. cbn [APIFeatures.filterConditions].
  set (queryObj := foldl obj_delete _ _).
  change (JSON.stringify (JObj queryObj))
    with (String "{" (JSON.join ","
            (map (fun kv => JSON.quote (fst kv) +:+ ":" +:+ JSON.stringify (snd kv))
               queryObj) +:+ "}")).
  set (body := JSON.join _ _ +:+ "}").
  change (APIFeatures.replace_operators (String "{" body))
    with (String "{" (APIFeatures.replace_from "" body)).
  destruct (JSON.parse _) as [v|] eqn:Hparse.
  - apply parse_brace_object in Hparse. exact Hparse.
  - exists []. split; [reflexivity | apply NoDup_nil_2].
Qed.

Lemma matches_and a b d :
  matches regex_test castCompare (JObj [("$and", JArr [a; b])]) d
  = matches regex_test castCompare a d && matches regex_test castCompare b d.
Proof. cbn. now rewrite !andb_true_r. Qed.

(** The condition [search] builds is the disjunction of the one-field
    filters, one per search field. *)
Lemma matches_search fields keyword d :
  matches regex_test castCompare
    (JObj [("$or",
            JArr (map (fun field =>
                         JObj [(field, JObj [("$regex", keyword);
                                             ("$options", JStr "i")])])
                    fields))]) d
  = existsb (fun field =>
               matches regex_test castCompare
                 (JObj [(field, JObj [("$regex", keyword); ("$options", JStr "i")])]) d)
      fields.
Proof.
  cbn. rewrite andb_true_r. induction fields as [|f fields IH]; [reflexivity|].
  cbn. rewrite IH. reflexivity.
Qed.

(** A one-field filter on an ordinary field name is the test of that field. *)
Lemma matches_field f c d :
  f <> "$and" -> f <> "$or" ->
  matches regex_test castCompare (JObj [(f, c)]) d = field_test regex_test castCompare f c d.
Proof.
  intros Hand Hor. cbn.
  destruct (String.eqb_spec f "$and"); [done|].
  destruct (String.eqb_spec f "$or"); [done|].
  apply andb_true_r.
Qed.

(** Merging into the conditions of a query, key by key. *)
Lemma merge_nil to : merge [] to = to.
Proof. reflexivity. Qed.

Lemma merge_cons k fv from to :
  merge ((k, fv) :: from) to
  = merge from (obj_set to k (match obj_get to k with
                              | Some tv => merge_val fv tv
                              | None => fv
                              end)).
Proof. reflexivity. Qed.

Lemma obj_get_None kvs k : obj_get kvs k = None <-> k ∉ map fst kvs.
Proof.
  induction kvs as [|[k0 v0] kvs IH]; cbn.
  - split; [intros _; apply not_elem_of_nil | done].
  - rewrite not_elem_of_cons, <- IH.
    destruct (String.eqb_spec k0 k); split; try done; intros [? ?]; congruence.
Qed.

Lemma obj_set_fresh kvs k v :
  k ∉ map fst kvs -> obj_set kvs k v = (kvs ++ [(k, v)])%list.
Proof.
  induction kvs as [|[k0 v0] kvs IH]; cbn; [done|].
  rewrite not_elem_of_cons. intros [Hne Hk].
  destruct (String.eqb_spec k0 k); [congruence|]. now rewrite IH.
Qed.

(** Conditions with distinct keys that the query does not have yet are
    appended as they are. *)
Lemma merge_fresh from to :
  NoDup (map fst from) ->
  (forall k, k ∈ map fst from -> k ∉ map fst to) ->
  merge from to = (to ++ from)%list.
Proof.
  revert to. induction from as [|[k v] from IH]; intros to Hnd Hfresh.
  - rewrite merge_nil. now rewrite app_nil_r.
  - cbn in Hnd. apply NoDup_cons in Hnd as [Hk Hnd].
    assert (Hkto : k ∉ map fst to) by (apply Hfresh; cbn; left).
    rewrite merge_cons. apply obj_get_None in Hkto as Hget. rewrite Hget.
    rewrite obj_set_fresh by exact Hkto.
    rewrite IH; [now rewrite <- app_assoc | exact Hnd |].
    intros k' Hk'. rewrite map_app, elem_of_app. cbn.
    rewrite list_elem_of_singleton. intros [Hto | ->]; [|done].
    revert Hto. apply Hfresh. cbn. now right.
Qed.

Lemma Query_find_Model_find cond :
  NoDup (map fst cond) -> q_conditions (Query_find cond Model_find) = cond.
Proof.
  intros Hnd. cbn. rewrite merge_fresh; [reflexivity | exact Hnd |].
  intros k _. apply not_elem_of_nil.
Qed.

(** *** [filter()] on one equality parameter *)

Lemma append_String c s t : String c s +:+ t = String c (s +:+ t).
Proof. reflexivity. Qed.

(** [escape] leaves an unescaped string as it is. *)
Lemma escape_unescaped s : JSON.unescaped s = true -> JSON.escape s = s.
Proof.
  induction s as [|c s IH]; [reflexivity|]. cbn [JSON.unescaped JSON.escape].
  intros H. apply andb_prop in H as [H Hs]. apply andb_prop in H as [H H32].
  apply andb_prop in H as [H34 H92]. rewrite (IH Hs).
  unfold JSON.escape_char.
  apply negb_true_iff in H34, H92. rewrite H34, H92.
  apply N.leb_le in H32.
  destruct (N.eqb_spec (N_of_ascii c) 8); [lia|].
  destruct (N.eqb_spec (N_of_ascii c) 12); [lia|].
  destruct (N.eqb_spec (N_of_ascii c) 10); [lia|].
  destruct (N.eqb_spec (N_of_ascii c) 13); [lia|].
  destruct (N.eqb_spec (N_of_ascii c) 9); [lia|].
  destruct (N.ltb_spec (N_of_ascii c) 32); [lia|]. reflexivity.
Qed.

(** Reading the body of a string literal whose content is unescaped. *)
Lemma parse_string_unescaped s rest :
  JSON.unescaped s = true ->
  JSON.parse_string (s +:+ String JSON.dquote rest) = Some (s, rest).
Proof.
  induction s as [|c s IH]; [reflexivity|]. cbn [JSON.unescaped].
  intros H. apply andb_prop in H as [H Hs]. apply andb_prop in H as [H H32].
  apply andb_prop in H as [H34 H92]. rewrite append_String.
  cbn [JSON.parse_string]. rewrite (IH Hs).
  apply negb_true_iff in H34, H92. apply N.leb_le in H32.
  assert (Hq : Ascii.eqb c JSON.dquote = false).
  { apply Ascii.eqb_neq. intros ->. now vm_compute in H34. }
  assert (Hb : Ascii.eqb c JSON.backslash = false).
  { apply Ascii.eqb_neq. intros ->. now vm_compute in H92. }
  rewrite Hq, Hb.
  destruct (N.ltb_spec (N_of_ascii c) 32); [lia|]. reflexivity.
Qed.

(** The rewriting of operators works run by run: a character that is not a
    word character ends the run before it. *)
Lemma replace_from_app word s q t :
  JS.is_word q = false ->
  APIFeatures.replace_from word (s +:+ String q t)
  = APIFeatures.replace_from word s +:+ String q (APIFeatures.replace_from "" t).
Proof.
  intros Hq. revert word. induction s as [|c s IH]; intros word.
  - change ("" +:+ String q t) with (String q t).
    cbn [APIFeatures.replace_from]. now rewrite Hq.
  - rewrite append_String. cbn [APIFeatures.replace_from].
    destruct (JS.is_word c).
    + apply IH.
    + rewrite IH. rewrite append_assoc, append_String. reflexivity.
Qed.

(** The text of an object with one string member, when neither the key nor
    the value needs escaping. *)
Lemma stringify_member f v :
  JSON.unescaped f = true -> JSON.unescaped v = true ->
  JSON.stringify (JObj [(f, JStr v)])
  = String "{" (String JSON.dquote
      (f +:+ String JSON.dquote (String ":" (String JSON.dquote
         (v +:+ String JSON.dquote "}"))))).
Proof.
  intros Hf Hv. cbn [JSON.stringify map JSON.join fst snd]. unfold JSON.quote.
  rewrite (escape_unescaped f Hf), (escape_unescaped v Hv).
  change ("{" +:+ ?x) with (String "{" x).
  repeat (rewrite ?append_String, ?append_assoc; change ("" +:+ ?x) with x).
  reflexivity.
Qed.

Lemma replace_from_nonword word q t :
  JS.is_word q = false ->
  APIFeatures.replace_from word (String q t)
  = APIFeatures.mark word +:+ String q (APIFeatures.replace_from "" t).
Proof. intros Hq. cbn [APIFeatures.replace_from]. now rewrite Hq. Qed.

(** The text of such an object is left as it is when neither the key nor the
    value has a run of word characters that is an operator. *)
Lemma replace_operators_member f v :
  APIFeatures.replace_operators f = f -> APIFeatures.replace_operators v = v ->
  APIFeatures.replace_operators
    (String "{" (String JSON.dquote
       (f +:+ String JSON.dquote (String ":" (String JSON.dquote
          (v +:+ String JSON.dquote "}"))))))
  = String "{" (String JSON.dquote
      (f +:+ String JSON.dquote (String ":" (String JSON.dquote
         (v +:+ String JSON.dquote "}"))))).
Proof.
  unfold APIFeatures.replace_operators. intros Hf Hv.
  rewrite (replace_from_nonword "" "{") by reflexivity.
  rewrite (replace_from_nonword "" JSON.dquote) by reflexivity.
  rewrite (replace_from_app "" f JSON.dquote) by reflexivity.
  rewrite (replace_from_nonword "" ":") by reflexivity.
  rewrite (replace_from_nonword "" JSON.dquote) by reflexivity.
  rewrite (replace_from_app "" v JSON.dquote) by reflexivity.
  rewrite (replace_from_nonword "" "}") by reflexivity.
  rewrite Hf, Hv. reflexivity.
Qed.

(** Reading an object whose first member starts. *)
Lemma parse_value_member fuel r :
  JSON.parse_value (S (S fuel)) (String "{" (String JSON.dquote r))
  = match JSON.parse_string r with
    | Some (k, r1) =>
        match JSON.skip_ws r1 with
        | String ":" r2 =>
            match JSON.parse_value fuel r2 with
            | Some (v, r3) =>
                match JSON.skip_ws r3 with
                | String "," r4 => JSON.parse_members fuel r4 (obj_set [] k v)
                | String "}" r4 => Some (JObj (obj_set [] k v), r4)
                | _ => None
                end
            | None => None
            end
        | _ => None
        end
    | None => None
    end.
Proof. reflexivity. Qed.

Lemma parse_value_string fuel r :
  JSON.parse_value (S fuel) (String JSON.dquote r)
  = match JSON.parse_string r with
    | Some (t, rest) => Some (JStr t, rest)
    | None => None
    end.
Proof. reflexivity. Qed.

Lemma parse_member f v :
  JSON.unescaped f = true -> JSON.unescaped v = true ->
  JSON.parse
    (String "{" (String JSON.dquote
       (f +:+ String JSON.dquote (String ":" (String JSON.dquote
          (v +:+ String JSON.dquote "}"))))))
  = Some (JObj [(f, JStr v)]).
Proof.
  intros Hf Hv. unfold JSON.parse. cbn [String.length].
  rewrite parse_value_member, (parse_string_unescaped f _ Hf).
  change (JSON.skip_ws (String ":" ?x)) with (String ":" x). cbv iota beta.
  rewrite length_append. cbn [String.length]. rewrite Nat.add_succ_r.
  rewrite parse_value_string, (parse_string_unescaped v _ Hv).
  reflexivity.
Qed.

(** [filter()] on a request that carries a keyword and one equality
    parameter: the condition is that equality. *)
Lemma filter_keyword_and_equality keyword f v this :
  APIFeatures.queryString this = [("keyword", keyword); (f, JStr v)] ->
  ~ In f APIFeatures.excludedFields ->
  JSON.unescaped f = true -> JSON.unescaped v = true ->
  APIFeatures.replace_operators f = f -> APIFeatures.replace_operators v = v ->
  APIFeatures.filterConditions (APIFeatures.filter this) = JObj [(f, JStr v)].
Proof.
  intros Hqs Hres Hf Hv Hrf Hrv. unfold APIFeatures.filter.
  cbn [APIFeatures.filterConditions]. rewrite Hqs.
  assert (Hobj : foldl obj_delete [("keyword", keyword); (f, JStr v)]
                   APIFeatures.excludedFields = [(f, JStr v)]).
  { cbn.
    repeat match goal with
           | |- context [String.eqb f ?k] =>
               destruct (String.eqb_spec f k) as [->|_];
               [exfalso; apply Hres; cbn; tauto|]; cbn
           end.
    reflexivity. }
  rewrite Hobj, (stringify_member f v Hf Hv), (replace_operators_member f v Hrf Hrv).
  now rewrite (parse_member f v Hf Hv).
Qed.

(** The query that [search], [filter] and [applyFind] compose: the
    conditions it carries hold for a document exactly when the keyword
    OR-group and the filter conditions both hold (an absent group holds for
    every document), and executing it returns the documents of the collection
    that satisfy both, in the order of the collection. *)
Lemma applyFind_conjunction searchFields queryString coll :
  let features :=
    APIFeatures.applyFind
      (APIFeatures.filter
         (APIFeatures.search searchFields
            (APIFeatures.new Model_find queryString))) in
  let both (d : Doc) :=
    matches regex_test castCompare (APIFeatures.searchConditions features) d
    && matches regex_test castCompare (APIFeatures.filterConditions features) d in
  (forall d, matches regex_test castCompare (JObj (q_conditions (APIFeatures.query features))) d
             = both d) /\
  exec regex_test castCompare coll (APIFeatures.query features) = Ok (List.filter both coll).
Proof.
  intros features both.
  assert (Hconds : forall d,
             matches regex_test castCompare (JObj (q_conditions (APIFeatures.query features))) d
             = both d).
  { intros d. subst both features. cbn beta.
    set (searched := APIFeatures.search searchFields
                       (APIFeatures.new Model_find queryString)).
    destruct (filterConditions_object searched) as (kvs & Hf & Hnd).
    assert (Hs : APIFeatures.searchConditions searched = JObj []
                 \/ exists c, APIFeatures.searchConditions searched
                              = JObj [("$or", c)]).
    { subst searched. unfold APIFeatures.search. cbn.
      repeat case_match; cbn; eauto. }
    assert (Hq : APIFeatures.query (APIFeatures.filter searched) = Model_find)
      by (subst searched; unfold APIFeatures.search; repeat case_match; reflexivity).
    unfold APIFeatures.applyFind.
    cbn [APIFeatures.set_query APIFeatures.query APIFeatures.searchConditions
         APIFeatures.filterConditions].
    change (APIFeatures.searchConditions (APIFeatures.filter searched))
      with (APIFeatures.searchConditions searched).
    rewrite Hq, Hf.
    destruct Hs as [-> | [c ->]]; destruct kvs as [|kv kvs]; cbn [APIFeatures.has_keys app];
      cbn [APIFeatures.own_properties].
    - reflexivity.
    - rewrite Query_find_Model_find by exact Hnd. reflexivity.
    - rewrite Query_find_Model_find by (apply NoDup_singleton).
      now rewrite andb_true_r.
    - rewrite Query_find_Model_find by (apply NoDup_singleton).
      apply matches_and. }
  split; [exact Hconds|].
  assert (Hopts : q_sort (APIFeatures.query features) = None /\
                  q_select (APIFeatures.query features) = None /\
                  q_skip (APIFeatures.query features) = None /\
                  q_limit (APIFeatures.query features) = None).
  { subst features. unfold APIFeatures.applyFind, APIFeatures.search.
    repeat case_match; cbn; auto. }
  destruct Hopts as (Hsort & Hselect & Hskip & Hlimit).
  unfold exec. rewrite Hsort, Hselect, Hskip, Hlimit. cbn.
  rewrite map_id. f_equal. apply filter_ext. exact Hconds.
Qed.

(** The rewriting does not tell a key from a value: an equality parameter
    whose value is one of the four words becomes an equality with the
    prefixed word. *)
Example filter_rewrites_values :
  APIFeatures.filterConditions
    (APIFeatures.filter
       (APIFeatures.new Model_find
          [("price", JObj [("gte", JStr "10")]); ("name", JStr "gt")]))
  = JObj [("price", JObj [("$gte", JStr "10")]); ("name", JStr "$gt")].
Proof. vm_compute. reflexivity. Qed.

(** The composer on its own, which no service calls: a list read composed
    with [search], [filter] and [applyFind] would return the documents that
    satisfy the keyword OR-group and the filter conditions, both.  For a
    request with a keyword and one equality
    parameter (a field name and a value that hold no character JSON escapes
    and no word gte, gt, lte, lt): a document is returned exactly when it is
    in the collection, one of the search fields matches the keyword without
    regard to case, and the field of the parameter equals its value; so a
    document that matches the keyword and fails the equality is not returned,
    and one that satisfies both is. *)
Theorem composer_keyword_and_filter searchFields queryString coll :
  let features :=
    APIFeatures.applyFind
      (APIFeatures.filter
         (APIFeatures.search searchFields
            (APIFeatures.new Model_find queryString))) in
  exec regex_test castCompare coll (APIFeatures.query features)
  = Ok (List.filter
          (fun d => matches regex_test castCompare (APIFeatures.searchConditions features) d
                    && matches regex_test castCompare (APIFeatures.filterConditions features) d)
          coll) /\
  (forall keyword f v,
   queryString = [("keyword", JStr keyword); (f, JStr v)] ->
   keyword <> "" ->
   ~ In "$and" searchFields -> ~ In "$or" searchFields ->
   ~ In f APIFeatures.excludedFields -> f <> "$and" -> f <> "$or" ->
   JSON.unescaped f = true -> JSON.unescaped v = true ->
   APIFeatures.replace_operators f = f -> APIFeatures.replace_operators v = v ->
   exists found,
     exec regex_test castCompare coll (APIFeatures.query features) = Ok found /\
     forall d,
       In d found <->
       In d coll /\
       (exists field, In field searchFields /\
          field_test regex_test castCompare field
            (JObj [("$regex", JStr keyword); ("$options", JStr "i")]) d = true) /\
       field_test regex_test castCompare f (JStr v) d = true).
Proof.
  intros features.
  destruct (applyFind_conjunction searchFields queryString coll) as [_ Hexec].
  fold features in Hexec. split; [exact Hexec|].
  intros keyword f v Hqs Hkw Hand Hor Hres Hfand Hfor Hf Hv Hrf Hrv.
  eexists. split; [exact Hexec|].
  assert (Hsearch : APIFeatures.searchConditions features
                    = JObj [("$or",
                             JArr (map (fun field =>
                                          JObj [(field, JObj [("$regex", JStr keyword);
                                                              ("$options", JStr "i")])])
                                     searchFields))]).
  { subst features. unfold APIFeatures.applyFind, APIFeatures.filter.
    cbn [APIFeatures.set_query APIFeatures.searchConditions].
    unfold APIFeatures.search. rewrite Hqs. cbn.
    destruct (String.eqb_spec keyword ""); [done | reflexivity]. }
  assert (Hfilter : APIFeatures.filterConditions features = JObj [(f, JStr v)]).
  { subst features. unfold APIFeatures.applyFind.
    cbn [APIFeatures.set_query APIFeatures.filterConditions].
    apply (filter_keyword_and_equality (JStr keyword)); auto.
    unfold APIFeatures.search. rewrite Hqs. cbn.
    destruct (String.eqb keyword ""); reflexivity. }
  intros d. rewrite filter_In, Hsearch, Hfilter, matches_search.
  rewrite (matches_field f (JStr v) d Hfand Hfor).
  rewrite andb_true_iff, existsb_exists.
  split.
  - intros (Hin & (field & Hfield & Hm) & Heq).
    split; [exact Hin|]. split; [|exact Heq].
    exists field. split; [exact Hfield|].
    rewrite matches_field in Hm; [exact Hm | |]; intros ->; auto.
  - intros (Hin & (field & Hfield & Hm) & Heq).
    split; [exact Hin|]. split; [|exact Heq].
    exists field. split; [exact Hfield|].
    rewrite matches_field; [exact Hm | |]; intros ->; auto.
Qed.

(** [sort()] and [limitFields()] only set an option of the query. *)
Lemma sort_inv this features :
  APIFeatures.sort this = Ok features ->
  exists arg, features
              = APIFeatures.set_query (Query_sort arg (APIFeatures.query this)) this.
Proof.
  unfold APIFeatures.sort, APIFeatures.comma_list.
  repeat case_match; try done; intros [= <-]; eauto.
Qed.

Lemma limitFields_inv this features :
  APIFeatures.limitFields this = Ok features ->
  exists arg, features
              = APIFeatures.set_query (Query_select arg (APIFeatures.query this)) this.
Proof.
  unfold APIFeatures.limitFields, APIFeatures.comma_list.
  repeat case_match; try done; intros [= <-]; eauto.
Qed.

(** What the list reads build: the query [listFeatures] returns is the base
    query with the sort, the projection and the window set, and nothing
    else: the conditions [filter] computed are not in it. *)
Lemma listFeatures_query base params features :
  MedicineService.listFeatures base params = Ok features ->
  q_conditions (APIFeatures.query features) = q_conditions base /\
  q_limit (APIFeatures.query features)
    = Some (JS.num_or (JS.parseInt (obj_get params "limit")) 25) /\
  APIFeatures.filterConditions features
    = APIFeatures.filterConditions (APIFeatures.filter (APIFeatures.new base params)).
Proof.
  unfold MedicineService.listFeatures.
  set (filtered := APIFeatures.filter (APIFeatures.new base params)).
  destruct (APIFeatures.sort filtered) as [sorted|] eqn:Hsort; [|done].
  destruct (APIFeatures.limitFields sorted) as [limited|] eqn:Hfields; [|done].
  apply sort_inv in Hsort as [arg1 ->].
  apply limitFields_inv in Hfields as [arg2 ->].
  intros [= <-]. cbn. auto.
Qed.

(** The listing has at most |limit| entries, where limit is the [limit]
    parameter read by [parseInt], or 25. *)
Lemma getMedicines_size params db listing db' :
  MedicineService.getMedicines regex_test castCompare params db = (Ok listing, db') ->
  (Z.of_nat (MedicineService.count listing)
   <= Z.abs (JS.num_or (JS.parseInt (obj_get params "limit")) 25)).
Proof.
  unfold MedicineService.getMedicines.
  destruct (MedicineService.listFeatures Model_find params) as [features|] eqn:Hf;
    [|done].
  apply listFeatures_query in Hf as (_ & Hlimit & _).
  unfold exec. rewrite Hlimit. cbv zeta.
  assert (Hnz : JS.num_or (JS.parseInt (obj_get params "limit")) 25 <> 0).
  { unfold JS.num_or. destruct (JS.parseInt _) as [n|]; [|done].
    destruct (Z.eqb_spec n 0); [done | assumption]. }
  destruct (Z.eqb_spec (JS.num_or (JS.parseInt (obj_get params "limit")) 25) 0);
    [done|].
  destruct (default 0 (q_skip (APIFeatures.query features)) <? 0); [done|].
  destruct (mixed (q_select (APIFeatures.query features))); [done|].
  intros [= <- <-]. cbn.
  rewrite length_map, length_take. lia.
Qed.

Lemma sort_sameWindow this this' :
  APIFeatures.sameWindow this this' -> APIFeatures.sameOutcome (APIFeatures.sort this) (APIFeatures.sort this').
Proof.
  intros [Hq Hk]. unfold APIFeatures.sort.
  rewrite <- (Hk "sort") by (cbn; auto).
  destruct (obj_get (APIFeatures.queryString this) "sort") as [v|]; cbn.
  - destruct (js_truthy v); cbn.
    + destruct (APIFeatures.comma_list v); cbn; [|reflexivity].
      split; cbn; [now rewrite Hq | exact Hk].
    + split; cbn; [now rewrite Hq | exact Hk].
  - split; cbn; [now rewrite Hq | exact Hk].
Qed.

Lemma limitFields_sameWindow this this' :
  APIFeatures.sameWindow this this' ->
  APIFeatures.sameOutcome (APIFeatures.limitFields this) (APIFeatures.limitFields this').
Proof.
  intros [Hq Hk]. unfold APIFeatures.limitFields.
  rewrite <- (Hk "fields") by (cbn; auto).
  destruct (obj_get (APIFeatures.queryString this) "fields") as [v|]; cbn.
  - destruct (js_truthy v); cbn.
    + destruct (APIFeatures.comma_list v); cbn; [|reflexivity].
      split; cbn; [now rewrite Hq | exact Hk].
    + split; cbn; [now rewrite Hq | exact Hk].
  - split; cbn; [now rewrite Hq | exact Hk].
Qed.

Lemma paginate_sameWindow this this' :
  APIFeatures.sameWindow this this' ->
  APIFeatures.query (APIFeatures.paginate this)
  = APIFeatures.query (APIFeatures.paginate this').
Proof.
  intros [Hq Hk]. unfold APIFeatures.paginate. cbn.
  rewrite <- (Hk "page") by (cbn; auto 10).
  rewrite <- (Hk "limit") by (cbn; auto 10).
  now rewrite Hq.
Qed.

(** The filters of a request have no influence on the listing: two requests
    that agree on [sort], [fields], [page] and [limit] get the same answer. *)
Lemma getMedicines_filters_ignored params params' db :
  (forall k, In k ["sort"; "fields"; "page"; "limit"] ->
             obj_get params k = obj_get params' k) ->
  MedicineService.getMedicines regex_test castCompare params db
  = MedicineService.getMedicines regex_test castCompare params' db.
Proof.
  intros Hsame.
  assert (H0 : APIFeatures.sameWindow (APIFeatures.filter (APIFeatures.new Model_find params))
                 (APIFeatures.filter (APIFeatures.new Model_find params')))
    by (split; [reflexivity | exact Hsame]).
  unfold MedicineService.getMedicines, MedicineService.listFeatures.
  apply sort_sameWindow in H0.
  destruct (APIFeatures.sort _) as [f1|e1], (APIFeatures.sort _) as [f1'|e1'];
    cbn in H0; try done; [|now subst].
  apply limitFields_sameWindow in H0.
  destruct (APIFeatures.limitFields f1) as [f2|e2],
           (APIFeatures.limitFields f1') as [f2'|e2'];
    cbn in H0; try done; [|now subst].
  apply paginate_sameWindow in H0. now rewrite H0.
Qed.

(** C2 (failing input). With the medicines of the scenario stored, the
    request [?category=Pain Relief] makes [filter] compute the condition
    [category = 'Pain Relief'], which Vitamin C fails; [getMedicines]
    nevertheless lists all three medicines, Vitamin C among them. *)
Theorem getMedicines_returns_unfiltered :
  let params := [("category", JStr "Pain Relief")] in
  let conditions :=
    APIFeatures.filterConditions
      (APIFeatures.filter (APIFeatures.new Model_find params)) in
  conditions = JObj [("category", JStr "Pain Relief")] /\
  map (fun d => (obj_get d "name", matches regex_test castCompare conditions d))
    (MedicineService.Medicine_collection Scenario.db0)
  = [(Some (JStr "Aspirin"), true); (Some (JStr "Paracetamol"), true);
     (Some (JStr "Vitamin C"), false)] /\
  (fun r => match r with
            | Ok listing =>
                Some (MedicineService.count listing,
                      map (fun d => obj_get d "name") (MedicineService.data listing))
            | Err _ => None
            end) (fst (MedicineService.getMedicines regex_test castCompare params Scenario.db0))
  = Some (3%nat, [Some (JStr "Aspirin"); Some (JStr "Vitamin C");
                  Some (JStr "Paracetamol")]).
Proof. vm_compute. auto. Qed.

(** C4 (failing input). With the medicines of the scenario stored, the
    request [?keyword=pain&category=Vitamins] carries a keyword that Aspirin
    and Paracetamol match in their description and an equality filter that
    both fail, while Vitamin C passes the filter and does not match the
    keyword: no medicine satisfies the two, and the conjunction has no match.
    [getMedicines] nevertheless lists all three medicines, as it does for a
    request without parameters: the chain it builds calls neither [search]
    nor [applyFind]. *)
Theorem getMedicines_keyword_and_filter_ignored :
  let regex := fun pattern (_ : string) subject => JS.icontains pattern subject in
  let params := [("keyword", JStr "pain"); ("category", JStr "Vitamins")] in
  let composed :=
    APIFeatures.filter
      (APIFeatures.search ["name"; "description"]
         (APIFeatures.new Model_find params)) in
  map (fun d => (obj_get d "name",
                 matches regex castCompare (APIFeatures.searchConditions composed) d,
                 matches regex castCompare (APIFeatures.filterConditions composed) d))
    (MedicineService.Medicine_collection Scenario.db0)
  = [(Some (JStr "Aspirin"), true, false); (Some (JStr "Paracetamol"), true, false);
     (Some (JStr "Vitamin C"), false, true)] /\
  (fun r => match r with
            | Ok listing =>
                Some (MedicineService.count listing,
                      map (fun d => obj_get d "name") (MedicineService.data listing))
            | Err _ => None
            end) (fst (MedicineService.getMedicines regex castCompare params Scenario.db0))
  = Some (3%nat, [Some (JStr "Aspirin"); Some (JStr "Vitamin C");
                  Some (JStr "Paracetamol")]) /\
  MedicineService.getMedicines regex castCompare params Scenario.db0
  = MedicineService.getMedicines regex castCompare [] Scenario.db0.
Proof. vm_compute. auto. Qed.

End QueryProperties.

(** ** Medicines: the pages of the listing *)

Section Pagination.
Import Mongoose MedicineService.
Variable regex_test : string -> string -> string -> bool.
Variable castCompare : string -> jval -> jval -> option comparison.

Lemma insert_sorted_perm keys d l : insert_sorted keys d l ≡ₚ d :: l.
Proof.
  induction l as [|x l IH]; cbn; [reflexivity|].
  destruct (compare_docs keys d x); try reflexivity.
  rewrite IH. apply perm_swap.
Qed.

(** Sorting rearranges the documents and loses none. *)
Lemma sort_docs_perm arg l : sort_docs arg l ≡ₚ l.
Proof.
  destruct arg as [arg|]; cbn; [|reflexivity].
  induction l as [|x l IH]; cbn; [reflexivity|].
  rewrite insert_sorted_perm. now constructor.
Qed.





(** A projection that includes one path and excludes another is refused by
    the server, and [parseInt] reads a Number: past 2^53 the integers are
    rounded. *)
Example getMedicines_mixed_fields :
  fst (getMedicines regex_test castCompare [("fields", JStr "name,-price")] Scenario.db0)
  = Err (MongoServerError "Projection cannot have a mix of inclusion and exclusion.")
  /\ JS.parseInt (Some (JStr "9007199254740993")) = Some 9007199254740992.
Proof. vm_compute. auto. Qed.

End Pagination.

(** ** JSON text: what is written is read back *)

Section JsonText.

Lemma append_nil_r (s : string) : s +:+ "" = s.
Proof.
  induction s as [|c s IH]; [reflexivity|]. rewrite append_String. now rewrite IH.
Qed.

(** *** Strings *)

(** Reading one escaped character gives the character back. *)
Lemma parse_string_escape_char c t :
  JSON.parse_string (JSON.escape_char c +:+ t)
  = match JSON.parse_string t with
    | Some (u, rest) => Some (String c u, rest)
    | None => None
    end.
Proof.
  destruct c as [[] [] [] [] [] [] [] []]; reflexivity.
Qed.

(** Reading the body of a string literal gives the string back. *)
Lemma parse_string_escape s rest :
  JSON.parse_string (JSON.escape s +:+ String JSON.dquote rest) = Some (s, rest).
Proof.
  induction s as [|c s IH]; [reflexivity|].
  cbn [JSON.escape]. rewrite append_assoc, parse_string_escape_char, IH. reflexivity.
Qed.

(** *** Numbers *)

Lemma pretty_N_char_digit x :
  (x < 10)%N ->
  JSON.is_digit (pretty_N_char x) = true /\
  Z.of_N (N_of_ascii (pretty_N_char x)) - 48 = Z.of_N x.
Proof.
  intros Hx.
  assert (x = 0 \/ x = 1 \/ x = 2 \/ x = 3 \/ x = 4 \/ x = 5 \/ x = 6 \/ x = 7
          \/ x = 8 \/ x = 9)%N as H by lia.
  repeat (destruct H as [->|H]; [split; reflexivity|]). subst x. split; reflexivity.
Qed.

(** The digits of [x], written in front of [s], are read back in front of
    what [s] reads as. *)
Lemma parse_digits_pretty_N_go x :
  forall s, exists k : Z, 0 <= k /\ forall acc,
    JSON.parse_digits acc (pretty_N_go x s)
    = JSON.parse_digits (acc * 10 ^ k + Z.of_N x) s.
Proof.
  induction (N.lt_wf_0 x) as [x _ IH]. intros s.
  assert (x = 0 \/ 0 < x)%N as [->|Hpos] by lia.
  - exists 0. split; [lia|]. intros acc. rewrite pretty_N_go_0. f_equal. lia.
  - rewrite pretty_N_go_step by exact Hpos.
    destruct (IH (x `div` 10)%N (N.div_lt x 10 Hpos eq_refl)
                (String (pretty_N_char (x `mod` 10)) s)) as (k & Hk & Hread).
    exists (k + 1). split; [lia|]. intros acc. rewrite Hread.
    cbn [JSON.parse_digits].
    destruct (pretty_N_char_digit (x `mod` 10)%N) as [-> ->];
      [apply N.mod_lt; lia|].
    f_equal. rewrite Z.pow_add_r by lia.
    pose proof (N.div_mod x 10 ltac:(lia)) as Hdm.
    rewrite N2Z.inj_div, N2Z.inj_mod. cbn.
    pose proof (Z.div_mod (Z.of_N x) 10 ltac:(lia)). lia.
Qed.

(** The text of a positive number starts with a digit. *)
Lemma pretty_N_go_head x :
  forall s, (exists c r, s = String c r /\ JSON.is_digit c = true) ->
            exists c r, pretty_N_go x s = String c r /\ JSON.is_digit c = true.
Proof.
  induction (N.lt_wf_0 x) as [x _ IH]. intros s Hs.
  assert (x = 0 \/ 0 < x)%N as [->|Hpos] by lia.
  - now rewrite pretty_N_go_0.
  - rewrite pretty_N_go_step by exact Hpos.
    apply IH; [apply N.div_lt; [exact Hpos | reflexivity]|].
    eexists _, _. split; [reflexivity|].
    apply pretty_N_char_digit, N.mod_lt. lia.
Qed.

Lemma parse_digits_end acc rest :
  JSON.number_end rest = true -> JSON.parse_digits acc rest = (acc, rest).
Proof.
  destruct rest as [|c r]; [reflexivity|]. cbn.
  destruct (JSON.is_digit c); [discriminate | reflexivity].
Qed.

Lemma number_end_tail (A : Type) (x y : A) rest :
  JSON.number_end rest = true ->
  match rest with
  | String "." _ | String "e" _ | String "E" _ => x
  | _ => y
  end = y.
Proof.
  destruct rest as [|c r]; [reflexivity|]. cbn.
  destruct c as [[] [] [] [] [] [] [] []]; try reflexivity; discriminate.
Qed.

Lemma not_minus_head (A : Type) c r (x : string -> A) (y : A) :
  JSON.is_digit c = true ->
  match String c r with
  | String "-" r0 => x r0
  | _ => y
  end = y.
Proof.
  destruct c as [[] [] [] [] [] [] [] []]; try reflexivity; discriminate.
Qed.

(** A run of digits that is followed by the end of a number reads as the
    number, with its sign. *)
Lemma parse_number_unsigned c r n rest :
  JSON.is_digit c = true ->
  JSON.parse_digits 0 (String c r) = (n, rest) ->
  JSON.number_end rest = true ->
  JSON.parse_number (String c r) = Some (JNum n, rest).
Proof.
  intros Hdigit Hread Hend. unfold JSON.parse_number.
  rewrite (not_minus_head _ c r (fun r0 => (true, r0)) (false, String c r) Hdigit).
  cbv beta iota zeta. rewrite Hdigit, Hread.
  apply number_end_tail, Hend.
Qed.

Lemma parse_number_negative c r n rest :
  JSON.is_digit c = true ->
  JSON.parse_digits 0 (String c r) = (n, rest) ->
  JSON.number_end rest = true ->
  JSON.parse_number (String "-" (String c r)) = Some (JNum (- n), rest).
Proof.
  intros Hdigit Hread Hend. unfold JSON.parse_number.
  cbv beta iota zeta. rewrite Hdigit, Hread.
  apply number_end_tail, Hend.
Qed.

(** The digits of a natural number, followed by [rest]. *)
Lemma pretty_N_digits (x : N) rest :
  JSON.number_end rest = true ->
  exists c r, pretty x +:+ rest = String c r /\ JSON.is_digit c = true /\
              JSON.parse_digits 0 (String c r) = (Z.of_N x, rest).
Proof.
  intros Hend. unfold pretty, pretty_N.
  destruct (decide (x = 0)%N) as [->|Hne].
  - exists "0"%char, rest. split; [reflexivity|]. split; [reflexivity|].
    cbn. apply parse_digits_end, Hend.
  - assert (Hpos : (0 < x)%N) by lia.
    rewrite pretty_N_go_step by exact Hpos.
    set (d := pretty_N_char (x `mod` 10)).
    assert (Hd : JSON.is_digit d = true)
      by (apply pretty_N_char_digit, N.mod_lt; lia).
    assert (Hshift : forall y s, pretty_N_go y s +:+ rest = pretty_N_go y (s +:+ rest)).
    { clear. intros y. induction (N.lt_wf_0 y) as [y _ IH]. intros s.
      assert (y = 0 \/ 0 < y)%N as [->|Hpos] by lia.
      - now rewrite !pretty_N_go_0.
      - rewrite (pretty_N_go_step y s), (pretty_N_go_step y (s +:+ rest)) by exact Hpos.
        rewrite IH by (apply N.div_lt; [exact Hpos | reflexivity]).
        reflexivity. }
    rewrite Hshift, append_String.
    destruct (pretty_N_go_head (x `div` 10)%N (String d ("" +:+ rest)))
      as (c & r & Heq & Hc); [eauto|].
    exists c, r. split; [exact Heq|]. split; [exact Hc|].
    rewrite <- Heq, <- pretty_N_go_step by exact Hpos.
    destruct (parse_digits_pretty_N_go x ("" +:+ rest)) as (k & _ & ->).
    cbn. apply parse_digits_end, Hend.
Qed.

(** The text of an integer reads as the integer. *)
Lemma parse_number_pretty (n : Z) rest :
  JSON.number_end rest = true ->
  JSON.parse_number (pretty n +:+ rest) = Some (JNum n, rest).
Proof.
  intros Hend. destruct n as [|p|p].
  - destruct (pretty_N_digits 0%N rest Hend) as (c & r & Heq & Hc & Hread).
    change (pretty 0%Z) with (pretty 0%N). rewrite Heq.
    now apply parse_number_unsigned.
  - destruct (pretty_N_digits (Npos p) rest Hend) as (c & r & Heq & Hc & Hread).
    change (pretty (Zpos p)) with (pretty (Npos p)). rewrite Heq.
    now apply parse_number_unsigned.
  - destruct (pretty_N_digits (Npos p) rest Hend) as (c & r & Heq & Hc & Hread).
    change (pretty (Zneg p)) with ("-" +:+ pretty (Npos p)).
    rewrite append_assoc, Heq.
    change ("-" +:+ String c r) with (String "-" (String c r)).
    now apply (parse_number_negative c r (Z.of_N (Npos p)) rest).
Qed.

(** *** Values *)

Lemma jval_nested_ind (P : jval -> Prop) :
  P JNull -> (forall b, P (JBool b)) -> (forall n, P (JNum n)) ->
  (forall s, P (JStr s)) ->
  (forall xs, Forall P xs -> P (JArr xs)) ->
  (forall kvs, Forall (fun kv => P (snd kv)) kvs -> P (JObj kvs)) ->
  forall v, P v.
Proof.
  intros HN HB Hn Hs HA HO. fix IH 1.
  intros [|b|n|s|xs|kvs]; [exact HN | apply HB | apply Hn | apply Hs | |].
  - apply HA. induction xs as [|x xs IHxs]; constructor; [apply IH | exact IHxs].
  - apply HO. induction kvs as [|[k v] kvs IHkvs]; constructor; [apply IH | exact IHkvs].
Qed.

Lemma value_end_number_end rest : JSON.value_end rest = true -> JSON.number_end rest = true.
Proof.
  destruct rest as [|c r]; [reflexivity|].
  destruct c as [[] [] [] [] [] [] [] []]; cbn; intros H; try discriminate H; reflexivity.
Qed.

Lemma value_end_skip_ws rest : JSON.value_end rest = true -> JSON.skip_ws rest = rest.
Proof.
  destruct rest as [|c r]; [reflexivity|].
  destruct c as [[] [] [] [] [] [] [] []]; cbn; intros H; try discriminate H; reflexivity.
Qed.

Lemma parse_value_number fuel c r :
  JSON.is_digit c || Ascii.eqb c "-" = true ->
  JSON.parse_value (S fuel) (String c r) = JSON.parse_number (String c r).
Proof.
  destruct c as [[] [] [] [] [] [] [] []]; cbn; intros H; try discriminate H; reflexivity.
Qed.

Lemma parse_value_bracket fuel c r :
  JSON.value_start c = true ->
  JSON.parse_value (S fuel) (String "[" (String c r))
  = JSON.parse_elements fuel (String c r) [].
Proof.
  destruct c as [[] [] [] [] [] [] [] []]; cbn; intros H; try discriminate H; reflexivity.
Qed.

Lemma parse_value_members fuel r :
  JSON.parse_value (S fuel) (String "{" (String JSON.dquote r))
  = JSON.parse_members fuel (String JSON.dquote r) [].
Proof. reflexivity. Qed.

Lemma parse_members_quote fuel r acc :
  JSON.parse_members (S fuel) (String JSON.dquote r) acc
  = match JSON.parse_string r with
    | Some (k, r1) =>
        match JSON.skip_ws r1 with
        | String ":" r2 =>
            match JSON.parse_value fuel r2 with
            | Some (v, r3) =>
                match JSON.skip_ws r3 with
                | String "," r4 => JSON.parse_members fuel r4 (obj_set acc k v)
                | String "}" r4 => Some (JObj (obj_set acc k v), r4)
                | _ => None
                end
            | None => None
            end
        | _ => None
        end
    | None => None
    end.
Proof. reflexivity. Qed.

Lemma pretty_Z_head (n : Z) rest :
  JSON.number_end rest = true ->
  exists c r, pretty n +:+ rest = String c r /\
              JSON.is_digit c || Ascii.eqb c "-" = true.
Proof.
  intros Hend. destruct n as [|p|p].
  - destruct (pretty_N_digits 0%N rest Hend) as (c & r & Heq & Hc & _).
    exists c, r. split; [exact Heq | now rewrite Hc].
  - destruct (pretty_N_digits (Npos p) rest Hend) as (c & r & Heq & Hc & _).
    exists c, r. split; [exact Heq | now rewrite Hc].
  - exists "-"%char, (pretty (Npos p) +:+ rest). split; [|reflexivity].
    change (pretty (Zneg p)) with ("-" +:+ pretty (Npos p)).
    now rewrite append_assoc.
Qed.

(** Every text of a value starts with a character that starts a value. *)
Lemma stringify_head v rest :
  JSON.value_end rest = true ->
  exists c r, JSON.stringify v +:+ rest = String c r /\ JSON.value_start c = true.
Proof.
  intros Hend. destruct v as [|[]|n|s|xs|kvs]; try (eexists _, _; split; reflexivity).
  destruct (pretty_Z_head n rest (value_end_number_end _ Hend)) as (c & r & Heq & Hc).
  exists c, r. split; [exact Heq|].
  unfold JSON.value_start. apply orb_true_iff in Hc as [-> | ->];
    rewrite ?orb_true_r; reflexivity.
Qed.

Lemma foldl_obj_set_fresh kvs :
  forall acc, NoDup (map fst (acc ++ kvs)) ->
              foldl (fun a kv => obj_set a (fst kv) (snd kv)) acc kvs = (acc ++ kvs)%list.
Proof.
  induction kvs as [|[k v] kvs IH]; intros acc Hnd; cbn.
  - now rewrite app_nil_r.
  - rewrite obj_set_fresh.
    + rewrite IH; rewrite <- app_assoc; [reflexivity | exact Hnd].
    + rewrite map_app in Hnd. apply NoDup_app in Hnd as (_ & Hdisj & _).
      intros Hin. apply (Hdisj k Hin). cbn. left.
Qed.

(** The elements of an array. *)
Lemma elements_roundTrip xs :
  Forall JSON.roundTrip xs -> xs <> [] ->
  forall fuel acc rest,
    (sum_list (map (fun x => S (JSON.weight x)) xs) <= fuel)%nat ->
    JSON.parse_elements fuel
      (JSON.join "," (map JSON.stringify xs) +:+ String "]" rest) acc
    = Some (JArr (acc ++ xs), rest).
Proof.
  induction 1 as [|x xs Hx Hxs IH]; [done|]. intros _ fuel acc rest Hfuel.
  cbn [map sum_list] in Hfuel. cbn in Hfuel.
  destruct fuel as [|fuel]; [lia|]. cbn [JSON.parse_elements].
  destruct xs as [|y ys].
  - cbn [map JSON.join]. rewrite Hx by (cbn in *; (lia || reflexivity)).
    reflexivity.
  - change (JSON.join "," (map JSON.stringify (x :: y :: ys)))
      with (JSON.stringify x +:+ "," +:+ JSON.join "," (map JSON.stringify (y :: ys))).
    rewrite !append_assoc. rewrite append_String.
    change ("" +:+ ?z) with z.
    rewrite Hx by (cbn in *; (lia || reflexivity)).
    rewrite value_end_skip_ws by reflexivity. cbv iota beta.
    rewrite IH by (done || lia). now rewrite <- app_assoc.
Qed.

(** The members of an object. *)
Lemma members_roundTrip kvs :
  Forall (fun kv => JSON.roundTrip (snd kv)) kvs -> kvs <> [] ->
  forall fuel acc rest,
    (sum_list (map (fun kv => S (JSON.weight (snd kv))) kvs) <= fuel)%nat ->
    JSON.parse_members fuel
      (JSON.join "," (map JSON.member kvs) +:+ String "}" rest) acc
    = Some (JObj (foldl (fun a kv => obj_set a (fst kv) (snd kv)) acc kvs), rest).
Proof.
  induction 1 as [|[k v] kvs Hv Hkvs IH]; [done|]. intros _ fuel acc rest Hfuel.
  cbn [map sum_list snd] in Hfuel. cbn in Hfuel. cbn [snd] in Hv.
  destruct fuel as [|fuel]; [lia|].
  destruct kvs as [|kv kvs].
  - cbn [map JSON.join]. unfold JSON.member, JSON.quote. cbn [fst snd].
    repeat (rewrite ?append_String, ?append_assoc; change ("" +:+ ?z) with z).
    rewrite parse_members_quote, parse_string_escape.
    change (JSON.skip_ws (String ":" ?z)) with (String ":" z).
    cbv iota beta.
    rewrite Hv by (cbn in *; (lia || reflexivity)).
    reflexivity.
  - change (JSON.join "," (map JSON.member ((k, v) :: kv :: kvs)))
      with (JSON.member (k, v) +:+ "," +:+ JSON.join "," (map JSON.member (kv :: kvs))).
    unfold JSON.member at 1, JSON.quote. cbn [fst snd].
    repeat (rewrite ?append_String, ?append_assoc; change ("" +:+ ?z) with z).
    rewrite parse_members_quote, parse_string_escape.
    change (JSON.skip_ws (String ":" ?z)) with (String ":" z).
    cbv iota beta.
    rewrite Hv by (cbn in *; (lia || reflexivity)).
    rewrite value_end_skip_ws by reflexivity. cbv iota beta.
    rewrite IH by (done || lia). reflexivity.
Qed.

(** Reading the text of a value with distinct keys gives the value back,
    whatever follows it. *)
Lemma stringify_roundTrip v : JSON.keysDistinct v = true -> JSON.roundTrip v.
Proof.
  induction v as [|b|n|s|xs IH|kvs IH] using jval_nested_ind; intros Hkeys fuel rest Hfuel Hend.
  - destruct fuel as [|fuel]; [cbn in Hfuel; lia|]. reflexivity.
  - destruct fuel as [|fuel]; [cbn in Hfuel; lia|]. destruct b; reflexivity.
  - destruct fuel as [|fuel]; [cbn in Hfuel; lia|]. cbn [JSON.stringify].
    apply value_end_number_end in Hend.
    destruct (pretty_Z_head n rest Hend) as (c & r & Heq & Hc).
    rewrite Heq, parse_value_number by exact Hc. rewrite <- Heq.
    now apply parse_number_pretty.
  - destruct fuel as [|fuel]; [cbn in Hfuel; lia|]. cbn [JSON.stringify].
    unfold JSON.quote.
    repeat (rewrite ?append_String, ?append_assoc; change ("" +:+ ?z) with z).
    rewrite parse_value_string, parse_string_escape. reflexivity.
  - destruct fuel as [|fuel]; [cbn in Hfuel; lia|].
    cbn [JSON.keysDistinct] in Hkeys. cbn [JSON.weight] in Hfuel.
    assert (Hxs : Forall JSON.roundTrip xs).
    { apply Forall_forall. intros x Hx.
      rewrite Forall_forall in IH. apply IH; [exact Hx|].
      rewrite forallb_forall in Hkeys. apply Hkeys, list_elem_of_In, Hx. }
    destruct xs as [|x xs]; [reflexivity|].
    cbn [JSON.stringify].
    repeat (rewrite ?append_String, ?append_assoc; change ("" +:+ ?z) with z).
    assert (Hhead : exists c r,
               JSON.join "," (map JSON.stringify (x :: xs)) +:+ String "]" rest
               = String c r /\ JSON.value_start c = true).
    { destruct xs as [|y ys]; cbn [map JSON.join].
      - now apply stringify_head.
      - rewrite append_assoc. now apply stringify_head. }
    destruct Hhead as (c & r & Heq & Hc).
    rewrite Heq, parse_value_bracket by exact Hc. rewrite <- Heq.
    rewrite elements_roundTrip by (done || lia). reflexivity.
  - destruct fuel as [|fuel]; [cbn in Hfuel; lia|].
    cbn [JSON.keysDistinct] in Hkeys. cbn [JSON.weight] in Hfuel.
    apply andb_prop in Hkeys as [Hnd Hkeys]. apply bool_decide_eq_true in Hnd.
    assert (Hkvs : Forall (fun kv => JSON.roundTrip (snd kv)) kvs).
    { apply Forall_forall. intros kv Hkv.
      rewrite Forall_forall in IH. apply IH; [exact Hkv|].
      rewrite forallb_forall in Hkeys. apply Hkeys, list_elem_of_In, Hkv. }
    destruct kvs as [|[k v] kvs]; [reflexivity|].
    cbn [JSON.stringify].
    change (map (fun kv => JSON.quote (fst kv) +:+ ":" +:+ JSON.stringify (snd kv)))
      with (map JSON.member).
    repeat (rewrite ?append_String, ?append_assoc; change ("" +:+ ?z) with z).
    assert (Hhead : exists r,
               JSON.join "," (map JSON.member ((k, v) :: kvs)) +:+ String "}" rest
               = String JSON.dquote r).
    { destruct kvs as [|kv kvs']; cbn [map JSON.join]; unfold JSON.member at 1, JSON.quote;
        repeat (rewrite ?append_String, ?append_assoc; change ("" +:+ ?z) with z);
        eauto. }
    destruct Hhead as (r & Heq).
    rewrite Heq, parse_value_members. rewrite <- Heq.
    rewrite members_roundTrip by (done || lia).
    now rewrite (foldl_obj_set_fresh _ []).
Qed.

Lemma length_join_elements (f : jval -> string) xs :
  Forall (fun x => (JSON.weight x <= String.length (f x))%nat) xs ->
  (sum_list (map (fun x => S (JSON.weight x)) xs)
   <= S (String.length (JSON.join "," (map f xs))))%nat.
Proof.
  induction 1 as [|x xs Hx Hxs IH]; [cbn; lia|].
  destruct xs as [|y ys]; [cbn in *; lia|].
  change (JSON.join "," (map f (x :: y :: ys)))
    with (f x +:+ "," +:+ JSON.join "," (map f (y :: ys))).
  change (sum_list (map (fun x => S (JSON.weight x)) (x :: y :: ys)))
    with (S (JSON.weight x) + sum_list (map (fun x => S (JSON.weight x)) (y :: ys)))%nat.
  rewrite !length_append. change (String.length ",") with 1%nat. lia.
Qed.

(** The text of a value is at least as long as the value has parts. *)
Lemma weight_length v : (JSON.weight v <= String.length (JSON.stringify v))%nat.
Proof.
  induction v as [|b|n|s|xs IH|kvs IH] using jval_nested_ind.
  - cbn. lia.
  - destruct b; cbn; lia.
  - destruct (pretty_Z_head n "" eq_refl) as (c & r & Heq & _).
    rewrite append_nil_r in Heq. cbn [JSON.stringify JSON.weight]. rewrite Heq. cbn. lia.
  - cbn. lia.
  - cbn [JSON.stringify JSON.weight].
    pose proof (length_join_elements JSON.stringify xs IH) as Hsum.
    rewrite !length_append. cbn [String.length]. lia.
  - cbn [JSON.stringify JSON.weight].
    change (map (fun kv => JSON.quote (fst kv) +:+ ":" +:+ JSON.stringify (snd kv)))
      with (map JSON.member).
    assert (Hsum : (sum_list (map (fun kv => S (JSON.weight (snd kv))) kvs)
                    <= S (String.length (JSON.join "," (map JSON.member kvs))))%nat).
    { clear -IH. induction IH as [|[k v] kvs Hv Hkvs IHk]; [cbn; lia|].
      assert (Hm : (JSON.weight v <= String.length (JSON.member (k, v)))%nat).
      { unfold JSON.member. rewrite !length_append. cbn [snd] in *. lia. }
      destruct kvs as [|kv kvs]; [cbn in *; lia|].
      change (JSON.join "," (map JSON.member ((k, v) :: kv :: kvs)))
        with (JSON.member (k, v) +:+ "," +:+ JSON.join "," (map JSON.member (kv :: kvs))).
      change (sum_list (map (fun kv => S (JSON.weight (snd kv))) ((k, v) :: kv :: kvs)))
        with (S (JSON.weight v)
              + sum_list (map (fun kv => S (JSON.weight (snd kv))) (kv :: kvs)))%nat.
      rewrite !length_append. change (String.length ",") with 1%nat. lia. }
    rewrite !length_append. cbn [String.length]. lia.
Qed.

(** [JSON.parse(JSON.stringify(v))] is [v] for a value whose objects have
    distinct keys. *)
Lemma parse_stringify v :
  JSON.keysDistinct v = true -> JSON.parse (JSON.stringify v) = Some v.
Proof.
  intros Hkeys. unfold JSON.parse.
  rewrite <- (append_nil_r (JSON.stringify v)) at 2.
  rewrite (stringify_roundTrip v Hkeys); [reflexivity | | reflexivity].
  pose proof (weight_length v). lia.
Qed.

(** *** The operator replacement on the text of a value *)

Lemma replace_from_boundary word rest :
  APIFeatures.boundary rest = true ->
  APIFeatures.replace_from word rest
  = APIFeatures.mark word +:+ APIFeatures.replace_from "" rest.
Proof.
  destruct rest as [|q t]; cbn [APIFeatures.boundary]; intros Hq.
  - cbn. now rewrite append_nil_r.
  - apply negb_true_iff in Hq.
    rewrite (replace_from_nonword word q t Hq), (replace_from_nonword "" q t Hq).
    reflexivity.
Qed.

Lemma replace_from_word_run w :
  APIFeatures.word_run w = true ->
  forall word rest,
    APIFeatures.replace_from word (w +:+ rest)
    = APIFeatures.replace_from (word +:+ w) rest.
Proof.
  induction w as [|c w IH]; intros Hw word rest.
  - now rewrite append_nil_r.
  - cbn [APIFeatures.word_run] in Hw. apply andb_prop in Hw as [Hc Hw].
    rewrite append_String. cbn [APIFeatures.replace_from]. rewrite Hc.
    rewrite IH by exact Hw. now rewrite append_assoc.
Qed.

Lemma is_digit_is_word c : JSON.is_digit c = true -> JS.is_word c = true.
Proof. unfold JSON.is_digit, JS.is_word. cbv zeta. now intros ->. Qed.

Lemma mark_digit_head c r :
  JSON.is_digit c = true -> APIFeatures.mark (String c r) = String c r.
Proof.
  destruct c as [[] [] [] [] [] [] [] []]; cbn; intros H; try discriminate H; reflexivity.
Qed.

Lemma pretty_N_go_word_run x :
  forall s, APIFeatures.word_run s = true -> APIFeatures.word_run (pretty_N_go x s) = true.
Proof.
  induction (N.lt_wf_0 x) as [x _ IH]. intros s Hs.
  assert (x = 0 \/ 0 < x)%N as [->|Hpos] by lia.
  - now rewrite pretty_N_go_0.
  - rewrite pretty_N_go_step by exact Hpos.
    apply IH; [apply N.div_lt; [exact Hpos | reflexivity]|].
    cbn [APIFeatures.word_run]. rewrite Hs, andb_true_r.
    apply is_digit_is_word, pretty_N_char_digit, N.mod_lt. lia.
Qed.

Lemma pretty_N_word_run (x : N) : APIFeatures.word_run (pretty x) = true.
Proof.
  unfold pretty, pretty_N. destruct (decide (x = 0)%N); [reflexivity|].
  now apply pretty_N_go_word_run.
Qed.

(** The digits of a number are no operator. *)
Lemma replace_from_pretty_N (x : N) rest :
  APIFeatures.boundary rest = true ->
  APIFeatures.replace_from "" (pretty x +:+ rest)
  = pretty x +:+ APIFeatures.replace_from "" rest.
Proof.
  intros Hrest.
  rewrite replace_from_word_run by apply pretty_N_word_run.
  change ("" +:+ pretty x) with (pretty x).
  rewrite replace_from_boundary by exact Hrest.
  destruct (pretty_N_digits x "" eq_refl) as (c & r & Heq & Hc & _).
  rewrite append_nil_r in Heq. rewrite Heq, mark_digit_head by exact Hc.
  reflexivity.
Qed.

Lemma replace_from_pretty (n : Z) rest :
  APIFeatures.boundary rest = true ->
  APIFeatures.replace_from "" (pretty n +:+ rest)
  = pretty n +:+ APIFeatures.replace_from "" rest.
Proof.
  intros Hrest. destruct n as [|p|p].
  - exact (replace_from_pretty_N 0%N rest Hrest).
  - exact (replace_from_pretty_N (Npos p) rest Hrest).
  - change (pretty (Zneg p)) with ("-" +:+ pretty (Npos p)).
    rewrite !append_assoc, !append_String. change ("" +:+ ?z) with z.
    rewrite (replace_from_nonword "" "-") by reflexivity.
    rewrite (replace_from_pretty_N (Npos p) rest Hrest). reflexivity.
Qed.

Lemma unescaped_app a b :
  JSON.unescaped (a +:+ b) = JSON.unescaped a && JSON.unescaped b.
Proof.
  induction a as [|c a IH]; [reflexivity|].
  rewrite append_String. cbn [JSON.unescaped]. rewrite IH.
  now rewrite !andb_assoc.
Qed.

Lemma unescaped_mark word :
  JSON.unescaped word = true -> JSON.unescaped (APIFeatures.mark word) = true.
Proof.
  unfold APIFeatures.mark. destruct (existsb _ _); [|done].
  intros H. rewrite unescaped_app, H. reflexivity.
Qed.

(** The replacement adds dollar signs only, so it keeps a string free of
    escapes. *)
Lemma unescaped_replace_from s :
  forall word, JSON.unescaped word = true -> JSON.unescaped s = true ->
               JSON.unescaped (APIFeatures.replace_from word s) = true.
Proof.
  induction s as [|c s IH]; intros word Hword Hs; cbn [APIFeatures.replace_from].
  - now apply unescaped_mark.
  - assert (Hc : JSON.unescaped (String c "") = true /\ JSON.unescaped s = true).
    { cbn [JSON.unescaped] in *. rewrite andb_true_r.
      now apply andb_prop in Hs. }
    destruct Hc as [Hc Hs']. destruct (JS.is_word c).
    + apply IH; [|exact Hs']. now rewrite unescaped_app, Hword, Hc.
    + change (String c ?z) with (String c "" +:+ z).
      rewrite !unescaped_app, unescaped_mark, Hc by exact Hword.
      now rewrite IH.
Qed.

Lemma replace_join {A} (text text' : A -> string) xs :
  Forall (fun x => forall rest, APIFeatures.boundary rest = true ->
            APIFeatures.replace_from "" (text x +:+ rest)
            = text' x +:+ APIFeatures.replace_from "" rest) xs ->
  forall close rest, JS.is_word close = false ->
    APIFeatures.replace_from "" (JSON.join "," (map text xs) +:+ String close rest)
    = JSON.join "," (map text' xs) +:+ String close (APIFeatures.replace_from "" rest).
Proof.
  induction 1 as [|x xs Hx Hxs IH]; intros close rest Hclose.
  - cbn [map JSON.join]. change ("" +:+ ?z) with z.
    now rewrite replace_from_nonword.
  - destruct xs as [|y ys].
    + cbn [map JSON.join]. rewrite Hx by (cbn; now rewrite Hclose).
      now rewrite replace_from_nonword.
    + change (JSON.join "," (map text (x :: y :: ys)))
        with (text x +:+ "," +:+ JSON.join "," (map text (y :: ys))).
      change (JSON.join "," (map text' (x :: y :: ys)))
        with (text' x +:+ "," +:+ JSON.join "," (map text' (y :: ys))).
      repeat (rewrite ?append_String, ?append_assoc; change ("" +:+ ?z) with z).
      rewrite Hx by reflexivity.
      rewrite (replace_from_nonword "" ",") by reflexivity.
      rewrite IH by exact Hclose. reflexivity.
Qed.

(** On the text of a value whose strings need no escapes, the replacement
    acts string by string: the result is the text of the renamed value. *)
Lemma replace_from_stringify v :
  JSON.plain v = true ->
  forall rest, APIFeatures.boundary rest = true ->
    APIFeatures.replace_from "" (JSON.stringify v +:+ rest)
    = JSON.stringify (APIFeatures.rename v) +:+ APIFeatures.replace_from "" rest.
Proof.
  induction v as [|b|n|s|xs IH|kvs IH] using jval_nested_ind; intros Hplain rest Hrest.
  - cbn [JSON.stringify]. rewrite replace_from_word_run by reflexivity.
    rewrite replace_from_boundary by exact Hrest. reflexivity.
  - destruct b; cbn [JSON.stringify]; rewrite replace_from_word_run by reflexivity;
      rewrite replace_from_boundary by exact Hrest; reflexivity.
  - now apply replace_from_pretty.
  - cbn [JSON.plain] in Hplain. cbn [JSON.stringify APIFeatures.rename].
    unfold JSON.quote. rewrite (escape_unescaped s Hplain).
    rewrite escape_unescaped
      by (apply unescaped_replace_from; [reflexivity | exact Hplain]).
    repeat (rewrite ?append_String, ?append_assoc; change ("" +:+ ?z) with z).
    rewrite (replace_from_nonword "" JSON.dquote) by reflexivity.
    rewrite (replace_from_app "" s JSON.dquote) by reflexivity.
    rewrite (replace_from_boundary "" rest Hrest).
    repeat (rewrite ?append_String, ?append_assoc; change ("" +:+ ?z) with z).
    reflexivity.
  - cbn [JSON.plain] in Hplain. cbn [JSON.stringify APIFeatures.rename].
    repeat (rewrite ?append_String, ?append_assoc; change ("" +:+ ?z) with z).
    rewrite (replace_from_nonword "" "[") by reflexivity.
    rewrite (replace_join JSON.stringify (fun x => JSON.stringify (APIFeatures.rename x)));
      [now rewrite map_map | | reflexivity].
    apply Forall_forall. intros x Hx. rewrite Forall_forall in IH. apply IH; [exact Hx|].
    rewrite forallb_forall in Hplain. apply Hplain, list_elem_of_In, Hx.
  - cbn [JSON.plain] in Hplain. cbn [JSON.stringify APIFeatures.rename].
    change (map (fun kv => JSON.quote (fst kv) +:+ ":" +:+ JSON.stringify (snd kv)))
      with (map JSON.member).
    change (map (fun kv => (APIFeatures.replace_operators (fst kv),
                            APIFeatures.rename (snd kv))))
      with (map APIFeatures.rename_member).
    repeat (rewrite ?append_String, ?append_assoc; change ("" +:+ ?z) with z).
    rewrite (replace_from_nonword "" "{") by reflexivity.
    rewrite (replace_join JSON.member (fun kv => JSON.member (APIFeatures.rename_member kv)));
      [now rewrite map_map | | reflexivity].
    apply Forall_forall. intros [k v] Hkv. rewrite Forall_forall in IH.
    rewrite forallb_forall in Hplain.
    specialize (Hplain (k, v) (proj1 (list_elem_of_In _ _) Hkv)). cbn [fst snd] in Hplain.
    apply andb_prop in Hplain as [Hk Hv].
    specialize (IH (k, v) Hkv Hv). cbn [snd] in IH.
    intros rest' Hrest'. unfold JSON.member, APIFeatures.rename_member, JSON.quote. cbn [fst snd].
    rewrite (escape_unescaped k Hk).
    rewrite escape_unescaped
      by (apply unescaped_replace_from; [reflexivity | exact Hk]).
    repeat (rewrite ?append_String, ?append_assoc; change ("" +:+ ?z) with z).
    rewrite (replace_from_nonword "" JSON.dquote) by reflexivity.
    rewrite (replace_from_app "" k JSON.dquote) by reflexivity.
    rewrite (replace_from_nonword "" ":") by reflexivity.
    rewrite IH by exact Hrest'.
    repeat (rewrite ?append_String, ?append_assoc; change ("" +:+ ?z) with z).
    reflexivity.
Qed.

Lemma replace_operators_stringify v :
  JSON.plain v = true ->
  APIFeatures.replace_operators (JSON.stringify v)
  = JSON.stringify (APIFeatures.rename v).
Proof.
  intros Hplain. unfold APIFeatures.replace_operators.
  rewrite <- (append_nil_r (JSON.stringify v)) at 1.
  rewrite (replace_from_stringify v Hplain "" eq_refl). apply append_nil_r.
Qed.

(** X22. What [filter()] makes of a query.  The parameters [page], [sort],
    [limit], [fields] and [keyword] are removed; in what is left, every string
    (the keys as well as the values, at every depth) has each maximal run of
    word characters that is [gte], [gt], [lte] or [lt] prefixed with a dollar
    sign, and the result is the filter.  So [price[gte]=10] becomes the
    condition [{price: {$gte: "10"}}], and a value that is itself one of the
    four words is rewritten too: [name=lt] asks for the name [$lt].  This holds
    when no string of the query needs an escape in JSON and the rewritten keys
    of each object are distinct. *)
Theorem filter_renames this :
  let queryObj :=
    JObj (foldl obj_delete (APIFeatures.queryString this) APIFeatures.excludedFields) in
  JSON.plain queryObj = true ->
  JSON.keysDistinct (APIFeatures.rename queryObj) = true ->
  APIFeatures.filterConditions (APIFeatures.filter this) = APIFeatures.rename queryObj.
Proof.
  intros queryObj Hplain Hkeys. unfold APIFeatures.filter.
  cbn [APIFeatures.filterConditions]. fold queryObj.
  rewrite (replace_operators_stringify queryObj Hplain).
  now rewrite (parse_stringify _ Hkeys).
Qed.

End JsonText.

(** ** The listings of orders and appointments *)

Section Listings.
Import Mongoose.
Variable regex_test : string -> string -> string -> bool.
Variable castCompare : string -> jval -> jval -> option comparison.
Variable populated : DB -> option string -> Doc -> Doc.

(** Every document a populated query returns is made of a document of the
    collection that satisfies the conditions of the query. *)
Lemma exec_populate_selected render coll q docs :
  exec_populate regex_test castCompare render coll q = Ok docs ->
  Forall (fun doc => exists d, In d coll /\
                               matches regex_test castCompare (JObj (q_conditions q)) d = true /\
                               doc = render (q_select q) d) docs.
Proof.
  unfold exec_populate. cbv zeta.
  destruct (default 0 (q_skip q) <? 0); [discriminate|].
  destruct (mixed (q_select q)); [discriminate|].
  intros [= <-]. apply Forall_forall. intros doc Hdoc.
  apply list_elem_of_In, in_map_iff in Hdoc as (d & <- & Hd).
  exists d.
  assert (Hsorted : d ∈ sort_docs (q_sort q)
                          (List.filter (matches regex_test castCompare (JObj (q_conditions q))) coll)).
  { apply list_elem_of_In in Hd.
    destruct (q_limit q) as [n|]; [destruct (n =? 0)|].
    - eapply subseteq_drop; exact Hd.
    - eapply subseteq_drop, subseteq_take; exact Hd.
    - eapply subseteq_drop; exact Hd. }
  rewrite sort_docs_perm in Hsorted.
  apply list_elem_of_In, filter_In in Hsorted. tauto.
Qed.

(** A listing that succeeds: the answer counts its documents, and each of
    them is made of a stored document that satisfies the conditions of the
    base query, whatever the query parameters are. *)
Lemma list_selected base queryParams render coll listing :
  match MedicineService.listFeatures base queryParams with
  | Err e => Err e
  | Ok features =>
      match exec_populate regex_test castCompare render coll (APIFeatures.query features) with
      | Err e => Err e
      | Ok docs => Ok (MedicineService.mkListing (length docs) docs)
      end
  end = Ok listing ->
  MedicineService.count listing = length (MedicineService.data listing) /\
  exists select,
    Forall (fun doc => exists d, In d coll /\
                                 matches regex_test castCompare (JObj (q_conditions base)) d = true /\
                                 doc = render select d) (MedicineService.data listing).
Proof.
  destruct (MedicineService.listFeatures base queryParams) as [features|] eqn:Hf;
    [|discriminate].
  apply listFeatures_query in Hf as (Hcond & _ & _).
  destruct (exec_populate regex_test castCompare render coll (APIFeatures.query features))
    as [docs|] eqn:Hexec; [|discriminate].
  intros [= <-]. split; [reflexivity|].
  exists (q_select (APIFeatures.query features)).
  rewrite <- Hcond. now apply exec_populate_selected.
Qed.

(** A document that satisfies the one condition [field: value], on a field
    that holds a string. *)
Lemma matches_field_string f value d x :
  matches regex_test castCompare (JObj [(f, JStr value)]) d = true ->
  obj_get d f = Some (JStr x) -> x = value.
Proof.
  cbn. destruct (String.eqb f "$and") eqn:Hand.
  - apply String.eqb_eq in Hand. subst f. discriminate.
  - destruct (String.eqb f "$or") eqn:Hor; [discriminate|].
    unfold field_test. intros Hm Hget. rewrite Hget in Hm.
    unfold eq_scalar in Hm. cbn [compare_scalar] in Hm.
    rewrite andb_true_r in Hm.
    destruct (String.compare x value) eqn:Hc; try discriminate.
    now apply String.compare_eq_iff.
Qed.

Lemma matches_field_absent f value d :
  matches regex_test castCompare (JObj [(f, JStr value)]) d = true ->
  obj_get d f <> None /\ obj_get d f <> Some JNull.
Proof.
  cbn. destruct (String.eqb f "$and") eqn:Hand.
  - apply String.eqb_eq in Hand. subst f. discriminate.
  - destruct (String.eqb f "$or") eqn:Hor; [discriminate|].
    unfold field_test. destruct (obj_get d f) as [[]|]; cbn; try discriminate;
      intros _; split; congruence.
Qed.

(** X26. The listing of orders is scoped by the role, and the query
    parameters cannot widen it.  [getOrders] writes nothing.  A principal whose
    role is neither [user] nor [admin] gets status 403.  For the role [user],
    whatever the query parameters are (filters, sort, fields, page, limit),
    every document of the answer is made of a stored order whose user is the
    principal; the count of the answer is the number of its documents. *)
Theorem getOrders_scope Order_toObject queryParams authUser db :
  (forall id o, obj_get (Order_toObject id o) "user" = Some (JStr (o_user o))) ->
  let r := OrderService.getOrders regex_test castCompare Order_toObject populated queryParams
             authUser db in
  snd r = db /\
  (au_role authUser <> "user" -> au_role authUser <> "admin" ->
   r = (Err (ErrorResponse ("User role " +:+ au_role authUser +:+
                            " is not authorized to view orders") 403), db)) /\
  (au_role authUser = "user" ->
   forall listing, fst r = Ok listing ->
     MedicineService.count listing = length (MedicineService.data listing) /\
     exists select,
       Forall (fun doc => exists id o,
                 orders db !! id = Some o /\ o_user o = au_id authUser /\
                 doc = populated db select (Order_toObject id o))
         (MedicineService.data listing)).
Proof.
  intros Huser r. subst r. unfold OrderService.getOrders. cbv zeta.
  split; [|split].
  - repeat case_match; reflexivity.
  - intros Hu Ha.
    destruct (String.eqb_spec (au_role authUser) "user"); [contradiction|].
    destruct (String.eqb_spec (au_role authUser) "admin"); [contradiction|].
    reflexivity.
  - intros Hrole listing. rewrite Hrole. cbn [String.eqb Ascii.eqb Bool.eqb].
    cbv iota. intros Hlist.
    destruct (list_selected
                (Query_find [("user", JStr (au_id authUser))] Model_find) queryParams
                (populated db) (OrderService.Order_collection Order_toObject db) listing)
      as (Hcount & select & Hdocs).
    { revert Hlist. repeat case_match; cbn; congruence. }
    split; [exact Hcount|]. exists select.
    eapply Forall_impl; [exact Hdocs|]. cbn beta.
    intros doc (d & Hin & Hmatch & ->).
    apply in_map_iff in Hin as ([id o] & <- & Hin). cbn [fst snd] in *.
    apply list_elem_of_In, elem_of_map_to_list in Hin.
    exists id, o. split; [exact Hin|]. split; [|reflexivity].
    rewrite Query_find_Model_find in Hmatch by apply NoDup_singleton.
    exact (matches_field_string _ _ _ _ Hmatch (Huser id o)).
Qed.

(** X27. The listing of appointments is scoped for users and doctors only.
    [getAppointments] writes nothing.  For the role [user] every document of
    the answer is made of a stored appointment of the principal, whatever the
    query parameters; for the role [doctor] the answer is status 404 when no
    doctor profile belongs to the principal, and otherwise every document is
    made of an appointment with that profile.  Every other role, not only
    [admin] and [lab_staff], is answered as an admin is: from all
    appointments. *)
Theorem getAppointments_scope Appointment_toObject queryParams authUser db :
  (forall id a, obj_get (Appointment_toObject id a) "user" = Some (JStr (a_user a))) ->
  (forall id a,
     match obj_get (Appointment_toObject id a) "doctor" with
     | Some (JStr x) => a_doctor a = Some x
     | Some JNull | None => a_doctor a = None
     | _ => False
     end) ->
  let getAppointments :=
    AppointmentService.getAppointments regex_test castCompare Appointment_toObject populated
      queryParams in
  let scoped (P : Appointment -> Prop) (r : result MedicineService.Listing) :=
    forall listing, r = Ok listing ->
      MedicineService.count listing = length (MedicineService.data listing) /\
      exists select,
        Forall (fun doc => exists id a,
                  appointments db !! id = Some a /\ P a /\
                  doc = populated db select (Appointment_toObject id a))
          (MedicineService.data listing) in
  snd (getAppointments authUser db) = db /\
  (au_role authUser = "user" ->
   scoped (fun a => a_user a = au_id authUser) (fst (getAppointments authUser db))) /\
  (au_role authUser = "doctor" ->
   match AppointmentService.Doctor_findOne_byUser (au_id authUser) db with
   | None =>
       fst (getAppointments authUser db)
       = Err (ErrorResponse "Doctor profile not found for this user" 404)
   | Some (doctorId, _) =>
       scoped (fun a => a_doctor a = Some doctorId) (fst (getAppointments authUser db))
   end) /\
  (au_role authUser <> "user" -> au_role authUser <> "doctor" ->
   getAppointments authUser db = getAppointments (mkAuthUser (au_id authUser) "admin") db).
Proof.
  intros Huser Hdoctor getAppointments scoped. subst getAppointments scoped.
  unfold AppointmentService.getAppointments. cbv zeta beta.
  assert (Hscope : forall f value (P : Appointment -> Prop) listing,
             (forall id a, matches regex_test castCompare (JObj [(f, JStr value)])
                             (Appointment_toObject id a) = true -> P a) ->
             match MedicineService.listFeatures
                     (Query_find [(f, JStr value)] Model_find) queryParams with
             | Err e => Err e
             | Ok features =>
                 match exec_populate regex_test castCompare (populated db)
                         (AppointmentService.Appointment_collection Appointment_toObject db)
                         (APIFeatures.query features) with
                 | Err e => Err e
                 | Ok docs => Ok (MedicineService.mkListing (length docs) docs)
                 end
             end = Ok listing ->
             MedicineService.count listing = length (MedicineService.data listing) /\
             exists select,
               Forall (fun doc => exists id a,
                         appointments db !! id = Some a /\ P a /\
                         doc = populated db select (Appointment_toObject id a))
                 (MedicineService.data listing)).
  { intros f value P listing HP Hlist.
    apply list_selected in Hlist as (Hcount & select & Hdocs).
    split; [exact Hcount|]. exists select.
    eapply Forall_impl; [exact Hdocs|]. cbn beta.
    intros doc (d & Hin & Hmatch & ->).
    apply in_map_iff in Hin as ([id a] & <- & Hin). cbn [fst snd] in *.
    apply list_elem_of_In, elem_of_map_to_list in Hin.
    exists id, a. split; [exact Hin|]. split; [|reflexivity].
    apply (HP id). now rewrite Query_find_Model_find in Hmatch by apply NoDup_singleton. }
  split; [|split; [|split]].
  - repeat case_match; reflexivity.
  - intros Hrole listing. rewrite Hrole. cbn [String.eqb Ascii.eqb Bool.eqb]. cbv iota.
    intros Hlist. apply (Hscope "user" (au_id authUser)).
    + intros id a Hmatch. exact (matches_field_string _ _ _ _ Hmatch (Huser id a)).
    + revert Hlist. repeat case_match; cbn; congruence.
  - intros Hrole. rewrite Hrole. cbn [String.eqb Ascii.eqb Bool.eqb]. cbv iota.
    destruct (AppointmentService.Doctor_findOne_byUser (au_id authUser) db)
      as [[doctorId doctor]|]; [|reflexivity].
    intros listing Hlist. apply (Hscope "doctor" doctorId).
    + intros id a Hmatch. specialize (Hdoctor id a).
      pose proof (matches_field_absent _ _ _ Hmatch) as [Hnone Hnull].
      destruct (obj_get (Appointment_toObject id a) "doctor") as [[| | |x| |]|] eqn:Hget;
        try contradiction; try congruence.
      now rewrite (matches_field_string _ _ _ _ Hmatch Hget) in Hdoctor.
    + revert Hlist. repeat case_match; cbn; congruence.
  - intros Hu Hd.
    destruct (String.eqb_spec (au_role authUser) "user"); [contradiction|].
    destruct (String.eqb_spec (au_role authUser) "doctor"); [contradiction|].
    reflexivity.
Qed.

End Listings.

(** ** The cart *)

Section CartProperties.
Import CartSlice.
Variable setItemOk : string -> bool.

Lemma keysDistinct_strings xs : forallb JSON.keysDistinct (map JStr xs) = true.
Proof. induction xs as [|x xs IH]; [reflexivity | exact IH]. Qed.

Lemma keysDistinct_cart items : JSON.keysDistinct (JArr (map toJSON items)) = true.
Proof.
  cbn [JSON.keysDistinct]. induction items as [|item items IH]; [reflexivity|].
  cbn [map forallb]. rewrite IH, andb_true_r.
  unfold toJSON. cbn [JSON.keysDistinct map fst snd forallb].
  rewrite keysDistinct_strings, !andb_true_r. apply bool_decide_eq_true.
  apply (bool_decide_unpack _). vm_compute. exact I.
Qed.

(** What is saved reads as the cart that was saved. *)
Lemma saveCartToLocalStorage_persisted items b :
  persisted setItemOk b
    (mkBrowser items (saveCartToLocalStorage setItemOk items (storedCart b))).
Proof.
  unfold persisted, saved, saveCartToLocalStorage. cbv zeta. cbn [cartItems storedCart].
  destruct (setItemOk _); [|reflexivity].
  eexists. split; [reflexivity|]. apply parse_stringify, keysDistinct_cart.
Qed.

(** X23. The cart survives a reload.  After [addToCart], [removeFromCart]
    and [clearCart], and after an [updateCartItemQuantity] that finds its line,
    the text under [cartItems] in [localStorage] reads, by [JSON.parse], as the
    array of the lines of the new state: what the application parses at its
    next load and hands to [initializeCart].  That is so when [setItem] took
    the text; when it threw, the error is swallowed, the state has changed and
    the storage keeps what it had.  An [updateCartItemQuantity] that finds no
    line changes neither the state nor the storage. *)
Theorem cart_persisted b :
  (forall newItem, persisted setItemOk b (addToCart setItemOk newItem b)) /\
  (forall idToRemove, persisted setItemOk b (removeFromCart setItemOk idToRemove b)) /\
  persisted setItemOk b (clearCart setItemOk b) /\
  (forall medicineId quantity,
     match findItem medicineId (cartItems b) with
     | Some _ =>
         persisted setItemOk b (updateCartItemQuantity setItemOk medicineId quantity b)
     | None => updateCartItemQuantity setItemOk medicineId quantity b = b
     end).
Proof.
  repeat split.
  - intros newItem. apply saveCartToLocalStorage_persisted.
  - intros idToRemove. apply saveCartToLocalStorage_persisted.
  - apply saveCartToLocalStorage_persisted.
  - intros medicineId quantity. unfold updateCartItemQuantity.
    destruct (findItem medicineId (cartItems b)); [|reflexivity].
    apply saveCartToLocalStorage_persisted.
Qed.

(** *** The cart as a table of lines *)

Lemma findItem_assignQuantity id quantity items id' :
  findItem id' (assignQuantity id quantity items)
  = if String.eqb id' id then option_map (set_quantity quantity) (findItem id' items)
    else findItem id' items.
Proof.
  unfold findItem. induction items as [|item items IH]; cbn.
  - now destruct (String.eqb id' id).
  - destruct (String.eqb_spec (ci_medicine item) id) as [Hitem|Hitem]; cbn.
    + destruct (String.eqb_spec id' id) as [Heq|Hne].
      * subst id'. destruct (String.eqb_spec (ci_medicine item) id); [reflexivity | congruence].
      * destruct (String.eqb_spec (ci_medicine item) id'); [congruence | reflexivity].
    + destruct (String.eqb_spec (ci_medicine item) id') as [Hid'|Hid'].
      * destruct (String.eqb_spec id' id); [congruence | reflexivity].
      * exact IH.
Qed.

Lemma findItem_app id items items' :
  findItem id (items ++ items')
  = match findItem id items with
    | Some item => Some item
    | None => findItem id items'
    end.
Proof.
  unfold findItem. induction items as [|item items IH]; cbn; [reflexivity|].
  now destruct (String.eqb (ci_medicine item) id).
Qed.

Lemma findItem_filter id idToRemove items :
  findItem id (List.filter (fun item => negb (String.eqb (ci_medicine item) idToRemove)) items)
  = if String.eqb id idToRemove then None else findItem id items.
Proof.
  unfold findItem. induction items as [|item items IH]; cbn.
  - now destruct (String.eqb id idToRemove).
  - destruct (String.eqb_spec (ci_medicine item) idToRemove) as [Hitem|Hitem]; cbn.
    + rewrite IH. destruct (String.eqb_spec id idToRemove) as [->|Hne]; [reflexivity|].
      destruct (String.eqb_spec (ci_medicine item) id); [congruence | reflexivity].
    + destruct (String.eqb_spec (ci_medicine item) id) as [Hid|Hid].
      * destruct (String.eqb_spec id idToRemove); [congruence | reflexivity].
      * exact IH.
Qed.

Lemma findItem_Some id items item :
  findItem id items = Some item -> ci_medicine item = id /\ In item items.
Proof.
  unfold findItem. intros H. apply find_some in H as [Hin Hid].
  apply String.eqb_eq in Hid. auto.
Qed.

Lemma findItem_None id items :
  findItem id items = None <-> ~ In id (map ci_medicine items).
Proof.
  unfold findItem. induction items as [|item items IH]; cbn; [tauto|].
  destruct (String.eqb_spec (ci_medicine item) id); [|tauto].
  split; [discriminate | tauto].
Qed.

Lemma assignQuantity_ids id quantity items :
  map ci_medicine (assignQuantity id quantity items) = map ci_medicine items.
Proof.
  induction items as [|item items IH]; cbn; [reflexivity|].
  destruct (String.eqb (ci_medicine item) id); cbn; [reflexivity | now rewrite IH].
Qed.

(** X24. The cart is a table of lines by medicine.  [addToCart] of a
    medicine that has a line sets the quantity of that line to the quantity of
    the new item: it replaces it, it does not add to it, and the name, the
    price and the stock of the line stay what they were; a medicine that has no
    line gets the new item as its line.  [updateCartItemQuantity] sets the
    quantity of the line of its medicine, whatever the quantity: zero or a
    negative quantity does not remove the line.  [removeFromCart] removes the
    line.  The lines of the other medicines are what they were. *)
Theorem cart_lines b id :
  (forall newItem,
     findItem id (cartItems (addToCart setItemOk newItem b))
     = if String.eqb id (ci_medicine newItem)
       then Some (match findItem id (cartItems b) with
                  | Some line => set_quantity (ci_quantity newItem) line
                  | None => newItem
                  end)
       else findItem id (cartItems b)) /\
  (forall medicineId quantity,
     findItem id (cartItems (updateCartItemQuantity setItemOk medicineId quantity b))
     = if String.eqb id medicineId
       then option_map (set_quantity quantity) (findItem id (cartItems b))
       else findItem id (cartItems b)) /\
  (forall idToRemove,
     findItem id (cartItems (removeFromCart setItemOk idToRemove b))
     = if String.eqb id idToRemove then None else findItem id (cartItems b)) /\
  findItem id (cartItems (clearCart setItemOk b)) = None.
Proof.
  split; [|split; [|split]].
  - intros newItem. unfold addToCart. cbv zeta. cbn [cartItems].
    destruct (findItem (ci_medicine newItem) (cartItems b)) as [line|] eqn:Hfind.
    + rewrite findItem_assignQuantity.
      destruct (String.eqb_spec id (ci_medicine newItem)) as [->|Hne]; [|reflexivity].
      now rewrite Hfind.
    + rewrite findItem_app.
      destruct (String.eqb_spec id (ci_medicine newItem)) as [->|Hne].
      * rewrite Hfind. unfold findItem. cbn. now rewrite String.eqb_refl.
      * destruct (findItem id (cartItems b)); [reflexivity|].
        unfold findItem. cbn.
        destruct (String.eqb_spec (ci_medicine newItem) id); [congruence | reflexivity].
  - intros medicineId quantity. unfold updateCartItemQuantity.
    destruct (findItem medicineId (cartItems b)) as [line|] eqn:Hfind.
    + cbv zeta. cbn [cartItems]. apply findItem_assignQuantity.
    + destruct (String.eqb_spec id medicineId) as [->|Hne]; [|reflexivity].
      now rewrite Hfind.
  - intros idToRemove. unfold removeFromCart. cbv zeta. cbn [cartItems].
    apply findItem_filter.
  - reflexivity.
Qed.

(** X25. One line for a medicine.  If no two lines of the cart have the
    same medicine, that is so after [addToCart], [removeFromCart], [clearCart]
    and [updateCartItemQuantity] as well; [addToCart] changes the number of
    lines only for a medicine that had none, and [updateCartItemQuantity]
    never does. *)
Theorem cart_one_line_per_medicine b :
  NoDup (map ci_medicine (cartItems b)) ->
  (forall newItem,
     let b' := addToCart setItemOk newItem b in
     NoDup (map ci_medicine (cartItems b')) /\
     map ci_medicine (cartItems b')
     = if bool_decide (ci_medicine newItem ∈ map ci_medicine (cartItems b))
       then map ci_medicine (cartItems b)
       else (map ci_medicine (cartItems b) ++ [ci_medicine newItem])%list) /\
  (forall idToRemove,
     NoDup (map ci_medicine (cartItems (removeFromCart setItemOk idToRemove b)))) /\
  NoDup (map ci_medicine (cartItems (clearCart setItemOk b))) /\
  (forall medicineId quantity,
     map ci_medicine (cartItems (updateCartItemQuantity setItemOk medicineId quantity b))
     = map ci_medicine (cartItems b)).
Proof.
  intros Hnd. split; [|split; [|split]].
  - intros newItem b'. subst b'. unfold addToCart. cbv zeta. cbn [cartItems].
    destruct (findItem (ci_medicine newItem) (cartItems b)) as [line|] eqn:Hfind.
    + rewrite assignQuantity_ids. split; [exact Hnd|].
      rewrite bool_decide_eq_true_2; [reflexivity|].
      apply findItem_Some in Hfind as [Hid Hin].
      apply list_elem_of_In. rewrite <- Hid. now apply in_map.
    + apply findItem_None in Hfind. rewrite map_app. cbn [map]. split.
      * apply NoDup_app. split; [exact Hnd|]. split; [|apply NoDup_singleton].
        intros x Hx Hx'. apply list_elem_of_singleton in Hx'. subst x.
        apply Hfind, list_elem_of_In, Hx.
      * rewrite bool_decide_eq_false_2; [reflexivity|].
        intros Hin. apply Hfind, list_elem_of_In, Hin.
  - intros idToRemove. unfold removeFromCart. cbv zeta. cbn [cartItems].
    induction (cartItems b) as [|item items IH]; cbn; [constructor|].
    cbn in Hnd. apply NoDup_cons in Hnd as [Hitem Hnd].
    destruct (String.eqb (ci_medicine item) idToRemove); cbn; [now apply IH|].
    apply NoDup_cons. split; [|now apply IH].
    intros Hin. apply Hitem. apply list_elem_of_In in Hin. apply list_elem_of_In.
    apply in_map_iff in Hin as (x & Hx & Hin). apply filter_In in Hin as [Hin _].
    rewrite <- Hx. now apply in_map.
  - constructor.
  - intros medicineId quantity. unfold updateCartItemQuantity.
    destruct (findItem medicineId (cartItems b)); [|reflexivity].
    cbv zeta. cbn [cartItems]. apply assignQuantity_ids.
Qed.

End CartProperties.

(** ** The middlewares in front of the services *)

Section RouteProperties.
Import AuthMiddleware Routes.
Variable jwtVerify : string -> option string.
Variable orderSchemaValid : Order -> bool.

(** X20. [protect] writes nothing and fails with status 401 only.  It
    succeeds exactly with a token that is not empty, that [jwt.verify]
    accepts and whose id is that of a stored user, and then attaches that id
    and the stored role.  An [Authorization] header that starts with 'Bearer'
    decides alone: the cookie is not looked at, also when the header carries
    no token. *)
Theorem protect_token_source c db :
  snd (protect jwtVerify c db) = db /\
  (forall e, fst (protect jwtVerify c db) = Err e -> exists msg, e = ErrorResponse msg 401) /\
  (forall user,
   fst (protect jwtVerify c db) = Ok user <->
   exists token stored,
     requestToken c = Some token /\ token <> "" /\
     jwtVerify token = Some (au_id user) /\
     users db !! au_id user = Some stored /\ au_role user = u_role stored) /\
  (forall cookie,
   truthy (c_authorization c) = true ->
   String.prefix "Bearer" (default "" (c_authorization c)) = true ->
   protect jwtVerify (mkCredentials (c_authorization c) cookie) db
   = protect jwtVerify c db).
Proof.
  split; [|split; [|split]].
  - unfold protect. destruct (requestToken c) as [token|]; [|reflexivity].
    destruct (String.eqb token ""); [reflexivity|].
    destruct (jwtVerify token) as [id|]; [|reflexivity].
    eff_simpl. destruct (users db !! id); reflexivity.
  - intros e. unfold protect. destruct (requestToken c) as [token|];
      [|intros [= <-]; eauto].
    destruct (String.eqb token ""); [intros [= <-]; eauto|].
    destruct (jwtVerify token) as [id|]; [|intros [= <-]; eauto].
    eff_simpl. destruct (users db !! id); cbn; [discriminate | intros [= <-]; eauto].
  - intros user. unfold protect. split.
    + destruct (requestToken c) as [token|]; [|discriminate].
      destruct (String.eqb_spec token "") as [|Hne]; [discriminate|].
      destruct (jwtVerify token) as [id|] eqn:Hverify; [|discriminate].
      eff_simpl. destruct (users db !! id) as [stored|] eqn:Hstored; cbn;
        [|discriminate].
      intros [= <-]. exists token, stored. cbn. auto.
    + intros (token & stored & -> & Hne & Hverify & Hstored & Hrole).
      destruct (String.eqb_spec token "") as [|_]; [contradiction|].
      rewrite Hverify. eff_simpl. rewrite Hstored. cbn.
      destruct user as [id role]. cbn in *. now subst role.
  - intros cookie Hheader Hbearer. unfold protect, requestToken. cbn.
    now rewrite Hheader, Hbearer.
Qed.

(** X21. The routes that are guarded by [authorize('admin')] (deleting an
    order or an appointment, marking an order paid or delivered): for an
    authenticated principal who is not admin the answer is status 403 from
    the middleware, whatever the id, so it does not tell whether the document
    exists, and nothing is written; for an admin the route is the service
    call. *)
Theorem admin_routes_guard c db user :
  protect jwtVerify c db = (Ok user, db) ->
  (au_role user <> "admin" ->
   let denied :=
     ErrorResponse ("User role " +:+ au_role user +:+
                    " is not authorized to access this route") 403 in
   (forall id, DELETE_order jwtVerify c id db = (Err denied, db)) /\
   (forall id, DELETE_appointment jwtVerify c id db = (Err denied, db)) /\
   (forall id body now,
    PUT_order_pay jwtVerify orderSchemaValid c id body now db = (Err denied, db)) /\
   (forall id now,
    PUT_order_deliver jwtVerify orderSchemaValid c id now db = (Err denied, db))) /\
  (au_role user = "admin" ->
   (forall id, DELETE_order jwtVerify c id db = OrderService.deleteOrder id user db) /\
   (forall id, DELETE_appointment jwtVerify c id db
               = AppointmentService.deleteAppointment id user db) /\
   (forall id body now,
    PUT_order_pay jwtVerify orderSchemaValid c id body now db
    = OrderService.updateOrderToPaid orderSchemaValid id body user now db) /\
   (forall id now,
    PUT_order_deliver jwtVerify orderSchemaValid c id now db
    = OrderService.updateOrderToDelivered orderSchemaValid id user now db)).
Proof.
  intros Hprotect.
  unfold DELETE_order, DELETE_appointment, PUT_order_pay, PUT_order_deliver.
  unfold mbind, eff_bind. rewrite Hprotect. unfold authorize. cbn [existsb].
  split.
  - intros Hrole. destruct (String.eqb_spec (au_role user) "admin") as [?|_];
      [contradiction|]. cbn. auto.
  - intros Hrole. rewrite Hrole. cbn. auto.
Qed.

End RouteProperties.

(** ** The scenarios, checked against the theorems *)


(** An admin marks the unpaid order of the scenario paid. *)
Lemma updateOrderToPaid_transition_witness :
  let run := OrderService.updateOrderToPaid Scenario.quantitiesPositive "o1"
               (JObj [("id", JStr "pay-1"); ("status", JStr "COMPLETED")])
               (mkAuthUser "admin1" "admin") 777 Scenario.db0 in
  (o_isPaid <$> orders (snd run) !! "o1") = Some true /\
  (o_paidAt <$> orders (snd run) !! "o1") = Some (Some 777).
Proof.
  intros run.
  destruct (updateOrderToPaid_transition Scenario.quantitiesPositive Scenario.db0 "o1"
              (JObj [("id", JStr "pay-1"); ("status", JStr "COMPLETED")])
              (mkAuthUser "admin1" "admin") 777 Scenario.order1
              ltac:(vm_compute; reflexivity)) as (Hok & _ & _).
  destruct (Hok eq_refl eq_refl eq_refl) as (Hrun & _).
  subst run. rewrite Hrun. split; vm_compute; reflexivity.
Defined.

(** An admin updating or deleting the medicine stored without owner gets a
    TypeError. *)
Lemma medicine_mutations_need_owner_witness :
  let admin := mkAuthUser "admin1" "admin" in
  let update := MedicineService.mkMedicineUpdate None None (Some 6) None None None
                  None None None in
  (exists msg, MedicineService.updateMedicine (fun _ m => Some m) "m3"
                 (MedicineService.fieldsOnly update) admin Scenario.db0
               = (Err (TypeError msg), Scenario.db0)) /\
  (exists msg, MedicineService.deleteMedicine "m3" admin Scenario.db0
               = (Err (TypeError msg), Scenario.db0)).
Proof.
  intros admin update.
  destruct (medicine_mutations_need_owner (fun _ m => Some m) Scenario.db0 "m3"
              (MedicineService.fieldsOnly update) admin
              Scenario.ownerless ltac:(vm_compute; reflexivity)) as [Hnone _].
  exact (Hnone eq_refl).
Defined.

(** The booking scenario of the specification: doctor D, no type; the
    persisted type is 'offline' and the location is the doctor's. *)
Lemma createAppointment_exclusive_and_typed_witness :
  let data := AppointmentService.mkAppointmentData None (Some "d1") None
                (Some 20250102) (Some "11:00 AM") None None None None None in
  let run := AppointmentService.createAppointment data "u1" "a2" 600 Scenario.db0 in
  let emptyDoctor := AppointmentService.mkAppointmentData None (Some "") (Some "l1")
                       (Some 20250102) (Some "11:00 AM") None None None None None in
  (a_type <$> appointments (snd run) !! "a2") = Some "offline" /\
  (al_address <$> (a_location <$> appointments (snd run) !! "a2")) = Some "Clinic X" /\
  (exists msg,
     AppointmentService.createAppointment emptyDoctor "u1" "a3" 600 Scenario.db0
     = (Err (ValidationError msg), Scenario.db0)).
Proof.
  intros data run emptyDoctor.
  destruct (createAppointment_exclusive_and_typed Scenario.db0 data "u1" "a2" 600)
    as (_ & _ & _ & Hdoctor & _).
  destruct (Hdoctor Scenario.doctorD eq_refl eq_refl ltac:(vm_compute; reflexivity)
              ltac:(vm_compute; reflexivity)
              ltac:(split; vm_compute; reflexivity)) as [Hoffline _].
  destruct (Hoffline eq_refl) as [Hrun _].
  destruct (createAppointment_exclusive_and_typed Scenario.db0 emptyDoctor "u1" "a3" 600)
    as (_ & _ & _ & _ & Hempty & _).
  split; [subst run; rewrite Hrun; vm_compute; reflexivity|].
  split; [subst run; rewrite Hrun; vm_compute; reflexivity|].
  exact (Hempty Scenario.labL eq_refl eq_refl ltac:(vm_compute; reflexivity)).
Defined.

(** C3 (counterexample). Exactly one reference, to the stored doctor D, and
    an explicit type: the type 'lab'.  The claim has the creation succeed
    with the caller's type persisted; the schema then requires a lab, and the
    creation is rejected. *)
Lemma createAppointment_doctor_with_type_lab_rejected :
  let data := AppointmentService.mkAppointmentData None (Some "d1") None
                (Some 20250102) (Some "11:00 AM") (Some "lab") None None None None in
  truthy (AppointmentService.ad_doctor data) = true /\
  truthy (AppointmentService.ad_lab data) = false /\
  doctors Scenario.db0 !! "d1" = Some Scenario.doctorD /\
  AppointmentService.createAppointment data "u1" "a2" 600 Scenario.db0
  = (Err (ValidationError "Appointment validation failed"), Scenario.db0) /\
  ~ (exists a db',
       AppointmentService.createAppointment data "u1" "a2" 600 Scenario.db0
       = (Ok a, db') /\ a_type a = "lab").
Proof.
  intros data.
  assert (Hrun : AppointmentService.createAppointment data "u1" "a2" 600 Scenario.db0
                 = (Err (ValidationError "Appointment validation failed"), Scenario.db0))
    by (vm_compute; reflexivity).
  repeat split; try (vm_compute; reflexivity).
  intros (a & db' & Hok & _). rewrite Hrun in Hok. discriminate Hok.
Qed.

(** The assigned doctor sends a payload that also carries a new date, a new
    owner and a new type: the stored appointment keeps them all. *)
Lemma doctor_update_frame_witness :
  let payload := AppointmentService.mkAppointmentUpdate (Some "u9") None None
                   (Some 20300101) None (Some "online") (Some "confirmed")
                   (Some "see you then") None None in
  let db' := snd (AppointmentService.updateAppointment "a1" payload
                    (mkAuthUser "u-doc" "doctor") Scenario.db0) in
  exists a', appointments db' !! "a1" = Some a' /\
             AppointmentService.sameExceptStatusReason Scenario.booking a'.
Proof.
  intros payload db'.
  destruct (doctor_update_frame Scenario.db0 "a1" payload
              (mkAuthUser "u-doc" "doctor") eq_refl) as (_ & _ & _ & _ & _ & _ & H).
  exact H.
Defined.

(** The owner cancels the booking of the scenario. *)
Lemma user_update_cancel_only_witness :
  let payload := AppointmentService.mkAppointmentUpdate None None None None None None
                   (Some "cancelled") None None None in
  AppointmentService.updateAppointment "a1" payload (mkAuthUser "u1" "user") Scenario.db0
  = (Ok (Some (AppointmentService.cancelled Scenario.booking)),
     set_appointments (insert "a1" (AppointmentService.cancelled Scenario.booking))
       Scenario.db0).
Proof.
  intros payload.
  destruct (user_update_cancel_only Scenario.db0 "a1" payload (mkAuthUser "u1" "user")
              Scenario.booking eq_refl ltac:(vm_compute; reflexivity)) as (Hok & _ & _).
  exact (Hok eq_refl eq_refl).
Defined.

(** A forgot-password request for an address nobody has. *)
Lemma forgotPassword_does_not_reveal_accounts_witness :
  AuthController.forgotPassword (fun _ => true) "bob@example.com" "https"
    "wellness.example" (repeat 171 20) 1000
    (AuthController.mkWorld Scenario.db0 [])
  = (AuthController.Json 200 true "Email sent",
     AuthController.mkWorld Scenario.db0 []).
Proof.
  destruct (forgotPassword_does_not_reveal_accounts (fun _ => true)
              "bob@example.com" "https" "wellness.example" (repeat 171 20) 1000
              (AuthController.mkWorld Scenario.db0 [])
              ltac:(vm_compute; reflexivity)) as [H _].
  exact H.
Defined.


(** Keyword and filter on the medicines of the scenario, had the listing
    been composed with [search] and [applyFind]: 'pain' occurs in the
    descriptions of Paracetamol and Aspirin, both of category 'Pain Relief'.
    With the filter [category=Vitamins] nothing would be returned; with
    [category=Pain Relief] both would. *)
Lemma composer_keyword_and_filter_scenario :
  let regex := fun pattern (_ : string) subject => JS.icontains pattern subject in
  let coll := MedicineService.Medicine_collection Scenario.db0 in
  let run keyword category :=
    Mongoose.exec regex (fun _ _ _ => None) coll
      (APIFeatures.query
         (APIFeatures.applyFind
            (APIFeatures.filter
               (APIFeatures.search ["name"; "description"]
                  (APIFeatures.new Mongoose.Model_find
                     [("keyword", JStr keyword); ("category", JStr category)]))))) in
  let names r :=
    match r with
    | Ok found => Some (map (fun d => obj_get d "name") found)
    | Err _ => None
    end in
  names (run "pain" "Vitamins") = Some [] /\
  names (run "pain" "Pain Relief")
  = Some [Some (JStr "Aspirin"); Some (JStr "Paracetamol")] /\
  (forall d, (exists found, run "pain" "Vitamins" = Ok found /\ In d found) ->
             Mongoose.field_test regex (fun _ _ _ => None) "category" (JStr "Vitamins") d = true).
Proof.
  intros regex coll run names.
  destruct (composer_keyword_and_filter regex (fun _ _ _ => None) ["name"; "description"]
              [("keyword", JStr "pain"); ("category", JStr "Vitamins")] coll)
    as [Hexec1 Hspec].
  destruct (composer_keyword_and_filter regex (fun _ _ _ => None) ["name"; "description"]
              [("keyword", JStr "pain"); ("category", JStr "Pain Relief")] coll)
    as [Hexec2 _].
  destruct (Hspec "pain" "category" "Vitamins" eq_refl
              ltac:(discriminate)
              ltac:(cbn; intros [H|[H|[]]]; discriminate H)
              ltac:(cbn; intros [H|[H|[]]]; discriminate H)
              ltac:(cbn; intros [H|[H|[H|[H|[H|[]]]]]]; discriminate H)
              ltac:(discriminate) ltac:(discriminate)
              eq_refl eq_refl eq_refl eq_refl)
    as (found & Hfound & Hmem).
  split; [subst run names; cbv beta; rewrite Hexec1; vm_compute; reflexivity|].
  split; [subst run names; cbv beta; rewrite Hexec2; vm_compute; reflexivity|].
  intros d (found' & Hrun & Hin). subst run. cbv beta in Hrun.
  rewrite Hfound in Hrun. injection Hrun as <-.
  apply Hmem in Hin. apply Hin.
Defined.



(** No stock of the scenario is negative, and none is after an order that
    asks for more Vitamin C than there is. *)
Lemma createOrder_keeps_stock_nonnegative_witness :
  let data := OrderService.mkOrderData
                (Some [mkOrderItem "m1" "Paracetamol" 5 10;
                       mkOrderItem "m2" "Vitamin C" 3 41])
                (JStr "Srinagar") (JStr "COD") 0 0 173 in
  OrderService.stockNonNegative Scenario.db0 /\
  OrderService.stockNonNegative
    (snd (OrderService.createOrder Scenario.quantitiesPositive data "u1" "o2"
            Scenario.db0)).
Proof.
  intros data.
  assert (H0 : OrderService.stockNonNegative Scenario.db0).
  { assert (H : map_Forall (fun _ m => 0 <= m_stock m) (medicines Scenario.db0))
      by (apply (bool_decide_unpack _); vm_compute; exact I).
    intros id m. apply H. }
  split; [exact H0|].
  exact (createOrder_keeps_stock_nonnegative Scenario.quantitiesPositive Scenario.db0
           data "u1" "o2" H0).
Defined.

(** An admin marks the order of the scenario delivered. *)
Lemma updateOrderToDelivered_transition_witness :
  let run := OrderService.updateOrderToDelivered Scenario.quantitiesPositive "o1"
               (mkAuthUser "admin1" "admin") 888 Scenario.db0 in
  (o_orderStatus <$> orders (snd run) !! "o1") = Some "delivered" /\
  (o_deliveredAt <$> orders (snd run) !! "o1") = Some (Some 888) /\
  OrderService.updateOrderToDelivered Scenario.quantitiesPositive "o1"
    (mkAuthUser "admin1" "admin") 999 (snd run)
  = (Err (ErrorResponse "Order is already delivered" 400), snd run).
Proof.
  intros run.
  destruct (updateOrderToDelivered_transition Scenario.quantitiesPositive Scenario.db0
              "o1" (mkAuthUser "admin1" "admin") 888 Scenario.order1
              ltac:(vm_compute; reflexivity)) as (Hok & _).
  destruct (Hok eq_refl eq_refl eq_refl) as (Hrun & _).
  destruct (updateOrderToDelivered_transition Scenario.quantitiesPositive (snd run)
              "o1" (mkAuthUser "admin1" "admin") 999
              (OrderService.markDelivered 888 Scenario.order1)
              ltac:(subst run; rewrite Hrun; vm_compute; reflexivity))
    as (_ & Hagain & _).
  split; [subst run; rewrite Hrun; vm_compute; reflexivity|].
  split; [subst run; rewrite Hrun; vm_compute; reflexivity|].
  exact (Hagain eq_refl).
Defined.

(** The owner of the order of the scenario cancels it, and may not mark it
    shipped. *)
Lemma updateOrderStatus_rules_witness :
  let owner := mkAuthUser "u1" "user" in
  OrderService.updateOrderStatus Scenario.quantitiesPositive "o1" "cancelled" owner
    Scenario.db0
  = (Ok (OrderService.set_orderStatus "cancelled" Scenario.order1),
     set_orders (insert "o1" (OrderService.set_orderStatus "cancelled" Scenario.order1))
       Scenario.db0) /\
  OrderService.updateOrderStatus Scenario.quantitiesPositive "o1" "shipped" owner
    Scenario.db0
  = (Err (ErrorResponse "Not authorized to update this order status" 403), Scenario.db0).
Proof.
  intros owner.
  destruct (updateOrderStatus_rules Scenario.quantitiesPositive Scenario.db0 "o1"
              "cancelled" owner Scenario.order1 ltac:(vm_compute; reflexivity))
    as (Hok & _ & _).
  destruct (updateOrderStatus_rules Scenario.quantitiesPositive Scenario.db0 "o1"
              "shipped" owner Scenario.order1 ltac:(vm_compute; reflexivity))
    as (_ & Hno & _).
  split; [exact (Hok eq_refl eq_refl) | exact (Hno eq_refl)].
Defined.

(** Alice orders three of Paracetamol and the admin deletes the order: the
    orders are as before, the stock stays at 7. *)
Lemma deleteOrder_keeps_stock_witness :
  let data := OrderService.mkOrderData (Some [mkOrderItem "m1" "Paracetamol" 5 3])
                (JStr "Srinagar") (JStr "COD") 0 0 15 in
  let created := OrderService.createOrder Scenario.quantitiesPositive data "u1" "o2"
                   Scenario.db0 in
  let run := OrderService.deleteOrder "o2" (mkAuthUser "admin1" "admin") (snd created) in
  orders (snd run) = orders Scenario.db0 /\
  (m_stock <$> medicines (snd run) !! "m1") = Some 7.
Proof.
  intros data created run.
  destruct created as [[order|e] db1] eqn:Hcreated;
    [|vm_compute in Hcreated; discriminate Hcreated].
  destruct (deleteOrder_keeps_stock Scenario.quantitiesPositive Scenario.db0 data "u1"
              "o2" order db1 (mkAuthUser "admin1" "admin") Hcreated) as [Hadmin _].
  destruct (Hadmin eq_refl) as (_ & Horders & Hmeds).
  split; [exact Horders|].
  subst run. cbn [snd] in *. rewrite Hmeds.
  apply (f_equal snd) in Hcreated. cbn [snd] in Hcreated. rewrite <- Hcreated.
  vm_compute. reflexivity.
Defined.

(** Alice reads her order; a stranger may not. *)
Lemma getOrder_access_witness :
  fst (OrderService.getOrder "o1" (mkAuthUser "u1" "user") Scenario.db0)
  = Ok (OrderService.populateOrder Scenario.db0 Scenario.order1) /\
  fst (OrderService.getOrder "o1" (mkAuthUser "u2" "user") Scenario.db0)
  = Err (ErrorResponse "User u2 is not authorized to view this order" 401).
Proof.
  destruct (getOrder_access Scenario.db0 "o1" (mkAuthUser "u1" "user") Scenario.order1
              ltac:(vm_compute; reflexivity)) as (_ & _ & Hown).
  destruct (getOrder_access Scenario.db0 "o1" (mkAuthUser "u2" "user") Scenario.order1
              ltac:(vm_compute; reflexivity)) as (_ & _ & Hother).
  split.
  - exact (Hown ltac:(vm_compute; eauto)).
  - exact (Hother ltac:(vm_compute; eauto)).
Defined.

(** The booking of the scenario is shown to the doctor it is with, and not
    to another user. *)
Lemma getAppointment_access_witness :
  fst (AppointmentService.getAppointment "a1" (mkAuthUser "u-doc" "doctor") Scenario.db0)
  = Ok (AppointmentService.populateAppointment Scenario.db0 Scenario.booking) /\
  fst (AppointmentService.getAppointment "a1" (mkAuthUser "u2" "user") Scenario.db0)
  = Err (ErrorResponse "User u2 is not authorized to view this appointment" 401).
Proof.
  destruct (getAppointment_access Scenario.db0 "a1" (mkAuthUser "u-doc" "doctor")
              Scenario.booking ltac:(vm_compute; reflexivity)) as (_ & _ & Hdoctor).
  destruct (getAppointment_access Scenario.db0 "a1" (mkAuthUser "u2" "user")
              Scenario.booking ltac:(vm_compute; reflexivity)) as (_ & _ & Hother).
  split.
  - exact (Hdoctor ltac:(vm_compute; eauto)).
  - exact (Hother ltac:(vm_compute; eauto)).
Defined.

(** Alice cancels the booking of the scenario and asks for the same doctor,
    date and time again: the cancelled booking still holds the slot. *)
Lemma createAppointment_slot_taken_witness :
  let db1 := set_appointments
               (insert "a1" (AppointmentService.cancelled Scenario.booking))
               Scenario.db0 in
  let data := AppointmentService.mkAppointmentData None (Some "d1") None
                (Some 20250101) (Some "10:00 AM") None None None None None in
  exists e, AppointmentService.createAppointment data "u1" "a2" 700 db1 = (Err e, db1).
Proof.
  intros db1 data.
  exact (createAppointment_slot_taken db1 data "u1" "a2" 700 "a1"
           (AppointmentService.cancelled Scenario.booking)
           ltac:(vm_compute; reflexivity) eq_refl eq_refl eq_refl eq_refl).
Defined.

(** Alice books the lab of the scenario and the admin deletes the booking:
    the database is as before. *)
Lemma deleteAppointment_undoes_create_witness :
  let data := AppointmentService.mkAppointmentData None None (Some "l1")
                (Some 20250103) (Some "09:00 AM") None None None None None in
  let created := AppointmentService.createAppointment data "u1" "a2" 700 Scenario.db0 in
  is_ok (fst created) = true /\
  AppointmentService.deleteAppointment "a2" (mkAuthUser "admin1" "admin") (snd created)
  = (Ok tt, Scenario.db0).
Proof.
  intros data created.
  destruct created as [[a|e] db1] eqn:Hcreated;
    [|vm_compute in Hcreated; discriminate Hcreated].
  destruct (deleteAppointment_undoes_create Scenario.db0 data "u1" "a2" 700 a db1
              (mkAuthUser "admin1" "admin") Hcreated) as [Hadmin _].
  split; [reflexivity | exact (Hadmin eq_refl)].
Defined.

(** A lab_staff principal adds Ibuprofen and deletes it again. *)
Lemma addMedicine_owner_witness :
  let data := MedicineService.mkMedicineData (Some "  Ibuprofen ") (Some "Anti-inflammatory")
                (Some 6) (Some 30) (Some "Pain Relief") (Some []) None None None None in
  let added := MedicineService.addMedicine data "staff1" "m4" 4000 Scenario.db0 in
  (m_name <$> medicines (snd added) !! "m4") = Some "Ibuprofen" /\
  (m_user <$> medicines (snd added) !! "m4") = Some (Some "staff1") /\
  MedicineService.deleteMedicine "m4" (mkAuthUser "staff1" "lab_staff") (snd added)
  = (Ok tt, Scenario.db0).
Proof.
  intros data added.
  destruct added as [[m|e] db1] eqn:Hadded;
    [|vm_compute in Hadded; discriminate Hadded].
  destruct (addMedicine_owner (fun _ m => Some m) Scenario.db0 data "staff1" "m4" 4000
              m db1 Hadded)
    as (Huser & Hstored & Hdelete & _).
  cbn [snd]. rewrite Hstored. cbn. rewrite Huser.
  split; [|split; [reflexivity | apply Hdelete]].
  apply (f_equal fst) in Hadded. vm_compute in Hadded. injection Hadded as <-.
  reflexivity.
Defined.

(** The catalogue of the scenario is well formed (the medicine without owner
    included), and stays so when an admin renames Vitamin C to a name that is
    taken, or to a name made of blanks: both are refused. *)
Lemma medicine_catalog_invariant_witness :
  let rename name := MedicineService.fieldsOnly
                       (MedicineService.mkMedicineUpdate (Some name) None None None None
                          None None None None) in
  let update name := MedicineService.updateMedicine (fun _ m => Some m) "m2"
                       (rename name) (mkAuthUser "admin1" "admin") Scenario.db0 in
  MedicineService.catalogValid Scenario.db0 /\
  MedicineService.catalogValid (snd (update "Aspirin")) /\
  MedicineService.catalogValid (snd (update "   ")) /\
  is_ok (fst (update "Aspirin")) = false /\
  is_ok (fst (update "   ")) = false /\
  is_ok (fst (update "Vitamin D")) = true.
Proof.
  intros rename update.
  assert (H0 : MedicineService.catalogValid Scenario.db0).
  { split.
    - apply (bool_decide_unpack _). vm_compute. exact I.
    - apply namesUnique_intro, (bool_decide_unpack _). vm_compute. exact I. }
  split; [exact H0|].
  destruct (medicine_catalog_invariant (fun _ m => Some m) Scenario.db0 H0)
    as (_ & Hupdate & _).
  split; [apply Hupdate|]. split; [apply Hupdate|].
  repeat split; vm_compute; reflexivity.
Defined.


(** Logging in to the scenario with the number 123456 as the password: the
    email of Alice gets the error of [bcrypt.compare], an email that nobody has
    gets status 401.  With a wrong password that is a string both get status
    401. *)
Lemma login_uniform_failure_witness :
  let compare := fun password hash => String.eqb hash ("bcrypt:" +:+ password) in
  let jwt := fun userId => "jwt:" +:+ userId in
  let cast := fun (_ : jval) (_ : DB) => Ok (@None (string * User)) in
  let w := AuthController.mkWorld Scenario.db0 [] in
  let login email password :=
    fst (AuthController.login jwt compare cast (Some (JStr email)) (Some password) w) in
  login "alice@example.com" (JNum 123456)
  = AuthController.Next (JsError "Illegal arguments: number, string") /\
  login "bob@example.com" (JNum 123456)
  = AuthController.Next (ErrorResponse "Invalid credentials" 401) /\
  login "alice@example.com" (JStr "wrong")
  = AuthController.Next (ErrorResponse "Invalid credentials" 401) /\
  login "bob@example.com" (JStr "wrong")
  = AuthController.Next (ErrorResponse "Invalid credentials" 401).
Proof.
  intros compare jwt cast w login.
  assert (Hstored : forall userId user,
             users (AuthController.w_db w) !! userId = Some user ->
             userId = "u1" /\ user = Scenario.alice).
  { intros userId user Hlookup. cbn in Hlookup.
    apply lookup_singleton_Some in Hlookup as [<- <-]. auto. }
  assert (Hwrong : forall email,
             login email (JStr "wrong")
             = AuthController.Next (ErrorResponse "Invalid credentials" 401)
             \/ email = "").
  { intros email. destruct (String.eqb_spec email "") as [->|Hemail]; [now right|left].
    destruct (login_uniform_failure jwt compare cast (Some (JStr email))
                (Some (JStr "wrong")) w) as (_ & Hstrings & _).
    destruct (Hstrings email "wrong" eq_refl eq_refl Hemail ltac:(discriminate))
      as [(userId & user & Hlookup & _ & Hmatch & _) | Hfail]; [|exact Hfail].
    apply Hstored in Hlookup as [_ ->]. vm_compute in Hmatch. discriminate Hmatch. }
  split; [|split; [|split]].
  - destruct (login_uniform_failure jwt compare cast (Some (JStr "alice@example.com"))
                (Some (JNum 123456)) w) as (_ & _ & Hother).
    destruct (Hother "alice@example.com" (JNum 123456) eq_refl eq_refl
                ltac:(discriminate) eq_refl ltac:(discriminate)) as [Hthrows _].
    apply Hthrows. exists "u1", Scenario.alice. split; reflexivity.
  - destruct (login_uniform_failure jwt compare cast (Some (JStr "bob@example.com"))
                (Some (JNum 123456)) w) as (_ & _ & Hother).
    destruct (Hother "bob@example.com" (JNum 123456) eq_refl eq_refl
                ltac:(discriminate) eq_refl ltac:(discriminate)) as [_ Hunknown].
    apply Hunknown. intros userId user Hlookup.
    apply Hstored in Hlookup as [_ ->]. discriminate.
  - destruct (Hwrong "alice@example.com") as [H|H]; [exact H | discriminate H].
  - destruct (Hwrong "bob@example.com") as [H|H]; [exact H | discriminate H].
Defined.

(** Bob registers as admin and logs in. *)
Lemma register_then_login_witness :
  let bcrypt := fun password => "bcrypt:" +:+ password in
  let compare := fun password hash => String.eqb hash ("bcrypt:" +:+ password) in
  let jwt := fun userId => "jwt:" +:+ userId in
  let pattern := fun email => JS.icontains "@" email in
  let cast := fun (_ : jval) (_ : DB) => Ok (@None (string * User)) in
  let body := AuthController.mkRegisterBody (Some " Bob ") (Some "bob@example.com")
                (Some "hunter22") (Some "admin") None None in
  let registered := AuthController.register bcrypt jwt pattern body "u2"
                      (AuthController.mkWorld Scenario.db0 []) in
  fst registered = AuthController.TokenResponse 200 "jwt:u2" "u2" /\
  users (AuthController.w_db (snd registered)) !! "u2"
  = Some (mkUser "Bob" "bob@example.com" "bcrypt:hunter22" "admin" None None
            None None) /\
  AuthController.login jwt compare cast (Some (JStr "bob@example.com"))
    (Some (JStr "hunter22")) (snd registered)
  = (AuthController.TokenResponse 200 "jwt:u2" "u2", snd registered).
Proof.
  intros bcrypt compare jwt pattern cast body registered.
  assert (Hrun : fst registered = AuthController.TokenResponse 200 "jwt:u2" "u2")
    by (vm_compute; reflexivity).
  split; [exact Hrun|].
  destruct registered as [response w'] eqn:Hregistered. cbn [fst snd] in *. subst response.
  destruct (register_then_login bcrypt jwt compare pattern cast body "u2" _ _ _ _ _
              Hregistered)
    as (name & email & password & Hname & Hemail & Hpassword & _ & _ & _ & _ & Hw & _
        & Hlogin).
  injection Hname as <-. injection Hemail as <-. injection Hpassword as <-.
  split.
  - rewrite Hw. cbn. rewrite lookup_insert_eq. reflexivity.
  - exact (Hlogin ltac:(vm_compute; reflexivity)).
Defined.

(** Alice's token, issued at time 1000, is refused at time 601000; a reset
    in time is refused by the validation with a password of five characters,
    also when the five are letters of two bytes each, and goes through with
    one of seven. *)
Lemma reset_token_lifetime_witness :
  let bcrypt := fun password => "bcrypt:" +:+ password in
  let jwt := fun userId => "jwt:" +:+ userId in
  let pattern := fun email => JS.icontains "@" email in
  let raw := Crypto.toHex (repeat 171 20) in
  let issued := snd (AuthController.forgotPassword (fun _ => true) "alice@example.com"
                       "https" "wellness.example" (repeat 171 20) 1000
                       (AuthController.mkWorld Scenario.db0 [])) in
  let e_acute := String (ascii_of_N 195) (String (ascii_of_N 169) "") in
  let five := e_acute +:+ e_acute +:+ e_acute +:+ e_acute +:+ e_acute in
  let refused (r : AuthController.Response * AuthController.World) :=
    exists msg, r = (AuthController.Next (ValidationError msg), issued) in
  AuthController.resetPassword bcrypt jwt pattern raw (Some "s3cret!") 601000 issued
  = (AuthController.Next (ErrorResponse "Invalid or expired reset token" 400), issued) /\
  refused (AuthController.resetPassword bcrypt jwt pattern raw (Some "12345") 600999
             issued) /\
  refused (AuthController.resetPassword bcrypt jwt pattern raw (Some five) 600999
             issued) /\
  refused (AuthController.resetPassword bcrypt jwt pattern raw None 600999 issued) /\
  fst (AuthController.resetPassword bcrypt jwt pattern raw (Some "s3cret!") 600999 issued)
  = AuthController.TokenResponse 200 "jwt:u1" "u1".
Proof.
  intros bcrypt jwt pattern raw issued e_acute five refused.
  destruct (reset_token_lifetime (fun _ => true) bcrypt jwt pattern "alice@example.com"
              "https" "wellness.example" (repeat 171 20) 1000
              (AuthController.mkWorld Scenario.db0 []) "u1" Scenario.alice
              ltac:(vm_compute; reflexivity) ltac:(reflexivity))
    as (Hlate & Hweak & Hgood).
  - intros k u Hk Hne. cbn in Hk.
    rewrite lookup_singleton_ne in Hk by congruence. discriminate Hk.
  - split; [apply Hlate; lia|].
    split; [apply Hweak; [lia | left; vm_compute; reflexivity]|].
    split; [apply Hweak; [lia | left; vm_compute; reflexivity]|].
    split; [apply Hweak; [lia | left; reflexivity]|].
    apply Hgood; [lia | vm_compute; lia | vm_compute; reflexivity].
Defined.

(** The mail to Alice cannot be sent: no token is left, and the generated
    one is refused. *)
Lemma forgotPassword_failed_mail_witness :
  let bcrypt := fun password => "bcrypt:" +:+ password in
  let jwt := fun userId => "jwt:" +:+ userId in
  let pattern := fun email => JS.icontains "@" email in
  let run := AuthController.forgotPassword (fun _ => false) "alice@example.com"
               "https" "wellness.example" (repeat 171 20) 1000
               (AuthController.mkWorld Scenario.db0 []) in
  fst run = AuthController.Next (ErrorResponse "Email could not be sent" 500) /\
  users (AuthController.w_db (snd run)) !! "u1" = Some Scenario.alice /\
  AuthController.resetPassword bcrypt jwt pattern (Crypto.toHex (repeat 171 20))
    (Some "s3cret!") 2000 (snd run)
  = (AuthController.Next (ErrorResponse "Invalid or expired reset token" 400), snd run).
Proof.
  intros bcrypt jwt pattern run.
  destruct (forgotPassword_failed_mail (fun _ => false) bcrypt jwt pattern
              "alice@example.com"
              "https" "wellness.example" (repeat 171 20) 1000
              (AuthController.mkWorld Scenario.db0 []) "u1" Scenario.alice
              ltac:(vm_compute; reflexivity) ltac:(reflexivity))
    as (Hresponse & _ & Huser & _ & Hrefused).
  - intros k u Hk Hne. cbn in Hk.
    rewrite lookup_singleton_ne in Hk by congruence. discriminate Hk.
  - split; [exact Hresponse|]. split; [exact Huser | apply Hrefused].
Defined.

(** Alice, a user, presents her token on the admin routes: status 403 for
    the order that exists and for one that does not. *)
Lemma admin_routes_guard_witness :
  let verify := fun token => if String.eqb token "token-of-alice" then Some "u1" else None in
  let alice := AuthMiddleware.mkCredentials (Some "Bearer token-of-alice") None in
  let denied := ErrorResponse "User role user is not authorized to access this route" 403 in
  Routes.DELETE_order verify alice "o1" Scenario.db0 = (Err denied, Scenario.db0) /\
  Routes.DELETE_order verify alice "o404" Scenario.db0 = (Err denied, Scenario.db0) /\
  Routes.PUT_order_pay verify Scenario.quantitiesPositive alice "o1" JNull 5 Scenario.db0
  = (Err denied, Scenario.db0).
Proof.
  intros verify alice denied.
  destruct (admin_routes_guard verify Scenario.quantitiesPositive alice Scenario.db0
              (mkAuthUser "u1" "user") ltac:(vm_compute; reflexivity)) as [Hdenied _].
  destruct (Hdenied ltac:(discriminate)) as (Hdelete & _ & Hpay & _).
  split; [apply Hdelete|]. split; [apply Hdelete | apply Hpay].
Defined.

Lemma filter_renames_witness :
  let this :=
    APIFeatures.new Mongoose.Model_find
      [("price", JObj [("gte", JStr "10"); ("lt", JStr "50")]);
       ("page", JStr "2"); ("name", JStr "lt"); ("category", JStr "Pain Relief")] in
  APIFeatures.filterConditions (APIFeatures.filter this)
  = JObj [("price", JObj [("$gte", JStr "10"); ("$lt", JStr "50")]);
          ("name", JStr "$lt"); ("category", JStr "Pain Relief")].
Proof.
  intros this. rewrite (filter_renames this); reflexivity.
Defined.

Lemma cart_one_line_per_medicine_witness :
  let line := CartSlice.mkCartItem "m1" "Aspirin" 20 ["a.png"] 2 10 in
  let b := CartSlice.mkBrowser [line] None in
  map CartSlice.ci_quantity
    (CartSlice.cartItems
       (CartSlice.updateCartItemQuantity (fun _ => true) "m1" 0 b)) = [0] /\
  map CartSlice.ci_medicine
    (CartSlice.cartItems
       (CartSlice.updateCartItemQuantity (fun _ => true) "m1" 0 b)) = ["m1"].
Proof.
  intros line b. split; [reflexivity|].
  assert (Hnd : NoDup (map CartSlice.ci_medicine (CartSlice.cartItems b)))
    by (apply NoDup_singleton).
  destruct (cart_one_line_per_medicine (fun _ => true) b Hnd) as (_ & _ & _ & Hupdate).
  exact (Hupdate "m1" 0).
Defined.

(** Two users have an order each.  The first asks for the orders with the
    parameter [user] set to the id of the second: the answer counts one order,
    her own, and every document of it is made of an order of hers.  A lab
    technician gets status 403. *)
Lemma getOrders_scope_witness :
  let toObject := fun id (o : Order) =>
    [("_id", JStr id); ("user", JStr (o_user o)); ("totalPrice", JNum (o_totalPrice o))] in
  let populated := fun (_ : DB) select d => Mongoose.project select d in
  let regex := fun pattern (_ : string) subject => JS.icontains pattern subject in
  let order2 := mkOrder "u2" [mkOrderItem "m2" "Vitamin C" 3 1] (JStr "Leh") (JStr "COD")
                  0 0 3 false None None false None "pending" in
  let db := set_orders (insert "o2" order2) Scenario.db0 in
  let params := [("user", JStr "u2"); ("sort", JStr "totalPrice"); ("limit", JStr "10")] in
  let run := OrderService.getOrders regex (fun _ _ _ => None) toObject populated params in
  (exists listing,
     fst (run (mkAuthUser "u1" "user") db) = Ok listing /\
     MedicineService.count listing = 1%nat /\
     length (MedicineService.data listing) = 1%nat /\
     map (fun d => obj_get d "_id") (MedicineService.data listing) = [Some (JStr "o1")] /\
     exists select,
       Forall (fun doc => exists id o,
                 orders db !! id = Some o /\ o_user o = "u1" /\
                 doc = populated db select (toObject id o))
         (MedicineService.data listing)) /\
  run (mkAuthUser "u7" "lab_staff") db
  = (Err (ErrorResponse "User role lab_staff is not authorized to view orders" 403), db).
Proof.
  intros toObject populated regex order2 db params run.
  split.
  - destruct (getOrders_scope regex (fun _ _ _ => None) populated toObject params
                (mkAuthUser "u1" "user") db (fun id o => eq_refl))
      as (_ & _ & Hscope).
    fold run in Hscope.
    destruct (run (mkAuthUser "u1" "user") db) as [[listing|e] db'] eqn:Hrun;
      [|vm_compute in Hrun; discriminate Hrun].
    destruct (Hscope eq_refl listing eq_refl) as (Hcount & select & Hdocs).
    pose proof Hrun as Hvalue. vm_compute in Hvalue. injection Hvalue as Hvalue _.
    exists listing. split; [reflexivity|].
    split; [rewrite <- Hvalue; reflexivity|].
    split; [rewrite <- Hcount, <- Hvalue; reflexivity|].
    split; [rewrite <- Hvalue; reflexivity|].
    exists select. exact Hdocs.
  - destruct (getOrders_scope regex (fun _ _ _ => None) populated toObject params
                (mkAuthUser "u7" "lab_staff") db (fun id o => eq_refl))
      as (_ & Hrole & _).
    apply Hrole; discriminate.
Defined.

(** Three appointments: one of the first user with doctor D, two of a second
    user, with doctor D and with the lab.  The first user, who sets the
    parameter [user] to the id of the second, is answered with her own
    appointment; the principal of doctor D with the two appointments of the
    doctor; a principal with the role doctor and no doctor profile with status
    404. *)
Lemma getAppointments_scope_witness :
  let toObject := fun id (a : Appointment) =>
    ([("_id", JStr id); ("user", JStr (a_user a))]
     ++ match a_doctor a with Some x => [("doctor", JStr x)] | None => [] end)%list in
  let populated := fun (_ : DB) select d => Mongoose.project select d in
  let regex := fun pattern (_ : string) subject => JS.icontains pattern subject in
  let second := mkAppointment "u2" (Some "d1") 20250103 "09:00 AM" "online" "pending"
                  None None 600 (a_location Scenario.booking) in
  let test := mkAppointment "u2" None 20250104 "09:00 AM" "lab" "pending"
                None (Some "l1") 700 (a_location Scenario.booking) in
  let db := set_appointments (insert "a3" test)
              (set_appointments (insert "a2" second) Scenario.db0) in
  let params := [("user", JStr "u2"); ("sort", JStr "_id"); ("limit", JStr "10")] in
  let run := AppointmentService.getAppointments regex (fun _ _ _ => None) toObject
               populated params in
  let answer authUser ids (P : Appointment -> Prop) :=
    exists listing,
      fst (run authUser db) = Ok listing /\
      MedicineService.count listing = length ids /\
      map (fun d => obj_get d "_id") (MedicineService.data listing)
      = map (fun id => Some (JStr id)) ids /\
      exists select,
        Forall (fun doc => exists id a,
                  appointments db !! id = Some a /\ P a /\
                  doc = populated db select (toObject id a))
          (MedicineService.data listing) in
  answer (mkAuthUser "u1" "user") ["a1"] (fun a => a_user a = "u1") /\
  answer (mkAuthUser "u-doc" "doctor") ["a1"; "a2"] (fun a => a_doctor a = Some "d1") /\
  fst (run (mkAuthUser "u1" "doctor") db)
  = Err (ErrorResponse "Doctor profile not found for this user" 404).
Proof.
  intros toObject populated regex second test db params run answer.
  assert (Hdoctor : forall id a,
             match obj_get (toObject id a) "doctor" with
             | Some (JStr x) => a_doctor a = Some x
             | Some JNull | None => a_doctor a = None
             | _ => False
             end).
  { intros id a. subst toObject. cbn. destruct (a_doctor a); reflexivity. }
  subst answer. cbv beta.
  split; [|split].
  - destruct (getAppointments_scope regex (fun _ _ _ => None) populated toObject params
                (mkAuthUser "u1" "user") db (fun id a => eq_refl) Hdoctor)
      as (_ & Hscope & _).
    fold run in Hscope. specialize (Hscope eq_refl).
    destruct (run (mkAuthUser "u1" "user") db) as [[listing|e] db'] eqn:Hrun;
      [|vm_compute in Hrun; discriminate Hrun].
    destruct (Hscope listing eq_refl) as (Hcount & select & Hdocs).
    pose proof Hrun as Hvalue. vm_compute in Hvalue. injection Hvalue as Hvalue _.
    exists listing. split; [reflexivity|].
    split; [rewrite <- Hvalue; reflexivity|].
    split; [rewrite <- Hvalue; reflexivity|].
    exists select. exact Hdocs.
  - destruct (getAppointments_scope regex (fun _ _ _ => None) populated toObject params
                (mkAuthUser "u-doc" "doctor") db (fun id a => eq_refl) Hdoctor)
      as (_ & _ & Hscope & _).
    fold run in Hscope. specialize (Hscope eq_refl).
    assert (Hprofile : AppointmentService.Doctor_findOne_byUser "u-doc" db
                       = Some ("d1", Scenario.doctorD)) by (vm_compute; reflexivity).
    cbn [au_id] in Hscope. rewrite Hprofile in Hscope.
    destruct (run (mkAuthUser "u-doc" "doctor") db) as [[listing|e] db'] eqn:Hrun;
      [|vm_compute in Hrun; discriminate Hrun].
    destruct (Hscope listing eq_refl) as (Hcount & select & Hdocs).
    pose proof Hrun as Hvalue. vm_compute in Hvalue. injection Hvalue as Hvalue _.
    exists listing. split; [reflexivity|].
    split; [rewrite <- Hvalue; reflexivity|].
    split; [rewrite <- Hvalue; reflexivity|].
    exists select. exact Hdocs.
  - destruct (getAppointments_scope regex (fun _ _ _ => None) populated toObject params
                (mkAuthUser "u1" "doctor") db (fun id a => eq_refl) Hdoctor)
      as (_ & _ & Hscope & _).
    exact (Hscope eq_refl).
Defined.
